(** * Specification comparison scripts: a shallow embedding

    The two scripts [compareScript.py] (named-attribute variant) and
    [compareScriptFuzzy.py] (value-set variant) annotate every row of a table
    with a report that compares a scraped JSON specification against a
    free-text manual specification.

    Conventions of the embedding.
    - A Python [str] is a [text]: the list of its code points. The builtins
      that depend on the Unicode database ([str.lower], [str.strip] and the
      regex classes [\s], [\d], [\w], [\b]) read the tables of Unicode 14.0,
      the database of CPython 3.11: white space, decimal digits,
      alphanumerics, the lower-case mapping, and the cased and case-ignorable
      characters of the rule of the final sigma.
    - A parsed JSON value, and more generally a dynamically typed Python
      value, is a [pyval]; an operation that can raise returns a [result].
    - [re] patterns are [regex] terms run by a backtracking matcher with
      Python's priorities (leftmost, greedy, first alternative first).
    - [rapidfuzz.fuzz.partial_ratio] and [json.loads] are library functions,
      not code of the repository: they are Section variables. *)

From Stdlib Require Import Ascii String List Bool Arith NArith Lia QArith.
From Stdlib Require Import Sorting.Sorted Sorting.Permutation.
From Stdlib Require Import Init.Byte.
Import ListNotations.

Set Implicit Arguments.

#[local] Open Scope nat_scope.
#[local] Open Scope list_scope.

(** ** Text *)

(** A code point. *)
Definition char : Type := N.

Definition text : Type := list char.

Definition char_dec (a b : char) : {a = b} + {a <> b} := N.eq_dec a b.

Definition char_eqb (a b : char) : bool := N.eqb a b.

(** The code points of a UTF-8 byte sequence: how the text of a literal of
    this file is read. *)
Fixpoint utf8 (bs : list N) : text :=
  match bs with
  | [] => []
  | b :: r =>
      if (b <? 128)%N then b :: utf8 r
      else
        match r with
        | [] => []
        | b1 :: r1 =>
            if (b <? 224)%N
            then ((b - 192) * 64 + (b1 - 128))%N :: utf8 r1
            else
              match r1 with
              | [] => []
              | b2 :: r2 =>
                  if (b <? 240)%N
                  then ((b - 224) * 4096 + (b1 - 128) * 64
                        + (b2 - 128))%N :: utf8 r2
                  else
                    match r2 with
                    | [] => []
                    | b3 :: r3 =>
                        ((b - 240) * 262144 + (b1 - 128) * 4096
                         + (b2 - 128) * 64 + (b3 - 128))%N :: utf8 r3
                    end
              end
        end
  end.

(** The text of a string literal. *)
Definition T (s : string) : text :=
  utf8 (map N_of_ascii (list_ascii_of_string s)).

Definition char_of_bytes (bs : list Byte.byte) : option N :=
  match utf8 (map (fun b => N.of_nat (Byte.to_nat b)) bs) with
  | [c] => Some c
  | _ => None
  end.

Definition bytes_of_char (c : N) : option (list Byte.byte) :=
  if ((32 <=? c) && (c <? 127))%N
  then match Byte.of_nat (N.to_nat c) with
       | Some b => Some [b]
       | None => None
       end
  else None.

Declare Scope cp_scope.
Delimit Scope cp_scope with cp.
String Notation N char_of_bytes bytes_of_char : cp_scope.
Bind Scope cp_scope with char.

Definition text_eqb (a b : text) : bool :=
  if list_eq_dec char_dec a b then true else false.

Definition nl : char := 10%N.

(** The space. *)
Definition sp : char := " ".

(** ** The Unicode database *)

Module Unicode.

(** The white space of [str.isspace], [str.strip] and [\s], as ranges of
    code points. *)
Definition SPACE : list (N * N) :=
 [
  (9, 13); (28, 32); (133, 133); (160, 160); (5760, 5760); (8192, 8202);
  (8232, 8233); (8239, 8239); (8287, 8287); (12288, 12288)
 ]%N.

(** The decimal digits of [str.isdecimal] and [\d]. *)
Definition DECIMAL : list (N * N) :=
 [
  (48, 57); (1632, 1641); (1776, 1785); (1984, 1993); (2406, 2415);
  (2534, 2543); (2662, 2671); (2790, 2799); (2918, 2927); (3046, 3055);
  (3174, 3183); (3302, 3311); (3430, 3439); (3558, 3567); (3664, 3673);
  (3792, 3801); (3872, 3881); (4160, 4169); (4240, 4249); (6112, 6121);
  (6160, 6169); (6470, 6479); (6608, 6617); (6784, 6793); (6800, 6809);
  (6992, 7001); (7088, 7097); (7232, 7241); (7248, 7257); (42528, 42537);
  (43216, 43225); (43264, 43273); (43472, 43481); (43504, 43513);
  (43600, 43609); (44016, 44025); (65296, 65305); (66720, 66729);
  (68912, 68921); (69734, 69743); (69872, 69881); (69942, 69951);
  (70096, 70105); (70384, 70393); (70736, 70745); (70864, 70873);
  (71248, 71257); (71360, 71369); (71472, 71481); (71904, 71913);
  (72016, 72025); (72784, 72793); (73040, 73049); (73120, 73129);
  (92768, 92777); (92864, 92873); (93008, 93017); (120782, 120831);
  (123200, 123209); (123632, 123641); (125264, 125273); (130032, 130041)
 ]%N.

(** The letters and numbers of [str.isalnum]; with the underscore, the word
    characters of [\w] and [\b]. *)
Definition ALNUM : list (N * N) :=
 [
  (48, 57); (65, 90); (97, 122); (170, 170); (178, 179); (181, 181);
  (185, 186); (188, 190); (192, 214); (216, 246); (248, 705); (710, 721);
  (736, 740); (748, 748); (750, 750); (880, 884); (886, 887); (890, 893);
  (895, 895); (902, 902); (904, 906); (908, 908); (910, 929); (931, 1013);
  (1015, 1153); (1162, 1327); (1329, 1366); (1369, 1369); (1376, 1416);
  (1488, 1514); (1519, 1522); (1568, 1610); (1632, 1641); (1646, 1647);
  (1649, 1747); (1749, 1749); (1765, 1766); (1774, 1788); (1791, 1791);
  (1808, 1808); (1810, 1839); (1869, 1957); (1969, 1969); (1984, 2026);
  (2036, 2037); (2042, 2042); (2048, 2069); (2074, 2074); (2084, 2084);
  (2088, 2088); (2112, 2136); (2144, 2154); (2160, 2183); (2185, 2190);
  (2208, 2249); (2308, 2361); (2365, 2365); (2384, 2384); (2392, 2401);
  (2406, 2415); (2417, 2432); (2437, 2444); (2447, 2448); (2451, 2472);
  (2474, 2480); (2482, 2482); (2486, 2489); (2493, 2493); (2510, 2510);
  (2524, 2525); (2527, 2529); (2534, 2545); (2548, 2553); (2556, 2556);
  (2565, 2570); (2575, 2576); (2579, 2600); (2602, 2608); (2610, 2611);
  (2613, 2614); (2616, 2617); (2649, 2652); (2654, 2654); (2662, 2671);
  (2674, 2676); (2693, 2701); (2703, 2705); (2707, 2728); (2730, 2736);
  (2738, 2739); (2741, 2745); (2749, 2749); (2768, 2768); (2784, 2785);
  (2790, 2799); (2809, 2809); (2821, 2828); (2831, 2832); (2835, 2856);
  (2858, 2864); (2866, 2867); (2869, 2873); (2877, 2877); (2908, 2909);
  (2911, 2913); (2918, 2927); (2929, 2935); (2947, 2947); (2949, 2954);
  (2958, 2960); (2962, 2965); (2969, 2970); (2972, 2972); (2974, 2975);
  (2979, 2980); (2984, 2986); (2990, 3001); (3024, 3024); (3046, 3058);
  (3077, 3084); (3086, 3088); (3090, 3112); (3114, 3129); (3133, 3133);
  (3160, 3162); (3165, 3165); (3168, 3169); (3174, 3183); (3192, 3198);
  (3200, 3200); (3205, 3212); (3214, 3216); (3218, 3240); (3242, 3251);
  (3253, 3257); (3261, 3261); (3293, 3294); (3296, 3297); (3302, 3311);
  (3313, 3314); (3332, 3340); (3342, 3344); (3346, 3386); (3389, 3389);
  (3406, 3406); (3412, 3414); (3416, 3425); (3430, 3448); (3450, 3455);
  (3461, 3478); (3482, 3505); (3507, 3515); (3517, 3517); (3520, 3526);
  (3558, 3567); (3585, 3632); (3634, 3635); (3648, 3654); (3664, 3673);
  (3713, 3714); (3716, 3716); (3718, 3722); (3724, 3747); (3749, 3749);
  (3751, 3760); (3762, 3763); (3773, 3773); (3776, 3780); (3782, 3782);
  (3792, 3801); (3804, 3807); (3840, 3840); (3872, 3891); (3904, 3911);
  (3913, 3948); (3976, 3980); (4096, 4138); (4159, 4169); (4176, 4181);
  (4186, 4189); (4193, 4193); (4197, 4198); (4206, 4208); (4213, 4225);
  (4238, 4238); (4240, 4249); (4256, 4293); (4295, 4295); (4301, 4301);
  (4304, 4346); (4348, 4680); (4682, 4685); (4688, 4694); (4696, 4696);
  (4698, 4701); (4704, 4744); (4746, 4749); (4752, 4784); (4786, 4789);
  (4792, 4798); (4800, 4800); (4802, 4805); (4808, 4822); (4824, 4880);
  (4882, 4885); (4888, 4954); (4969, 4988); (4992, 5007); (5024, 5109);
  (5112, 5117); (5121, 5740); (5743, 5759); (5761, 5786); (5792, 5866);
  (5870, 5880); (5888, 5905); (5919, 5937); (5952, 5969); (5984, 5996);
  (5998, 6000); (6016, 6067); (6103, 6103); (6108, 6108); (6112, 6121);
  (6128, 6137); (6160, 6169); (6176, 6264); (6272, 6276); (6279, 6312);
  (6314, 6314); (6320, 6389); (6400, 6430); (6470, 6509); (6512, 6516);
  (6528, 6571); (6576, 6601); (6608, 6618); (6656, 6678); (6688, 6740);
  (6784, 6793); (6800, 6809); (6823, 6823); (6917, 6963); (6981, 6988);
  (6992, 7001); (7043, 7072); (7086, 7141); (7168, 7203); (7232, 7241);
  (7245, 7293); (7296, 7304); (7312, 7354); (7357, 7359); (7401, 7404);
  (7406, 7411); (7413, 7414); (7418, 7418); (7424, 7615); (7680, 7957);
  (7960, 7965); (7968, 8005); (8008, 8013); (8016, 8023); (8025, 8025);
  (8027, 8027); (8029, 8029); (8031, 8061); (8064, 8116); (8118, 8124);
  (8126, 8126); (8130, 8132); (8134, 8140); (8144, 8147); (8150, 8155);
  (8160, 8172); (8178, 8180); (8182, 8188); (8304, 8305); (8308, 8313);
  (8319, 8329); (8336, 8348); (8450, 8450); (8455, 8455); (8458, 8467);
  (8469, 8469); (8473, 8477); (8484, 8484); (8486, 8486); (8488, 8488);
  (8490, 8493); (8495, 8505); (8508, 8511); (8517, 8521); (8526, 8526);
  (8528, 8585); (9312, 9371); (9450, 9471); (10102, 10131); (11264, 11492);
  (11499, 11502); (11506, 11507); (11517, 11517); (11520, 11557);
  (11559, 11559); (11565, 11565); (11568, 11623); (11631, 11631);
  (11648, 11670); (11680, 11686); (11688, 11694); (11696, 11702);
  (11704, 11710); (11712, 11718); (11720, 11726); (11728, 11734);
  (11736, 11742); (11823, 11823); (12293, 12295); (12321, 12329);
  (12337, 12341); (12344, 12348); (12353, 12438); (12445, 12447);
  (12449, 12538); (12540, 12543); (12549, 12591); (12593, 12686);
  (12690, 12693); (12704, 12735); (12784, 12799); (12832, 12841);
  (12872, 12879); (12881, 12895); (12928, 12937); (12977, 12991);
  (13312, 19903); (19968, 42124); (42192, 42237); (42240, 42508);
  (42512, 42539); (42560, 42606); (42623, 42653); (42656, 42735);
  (42775, 42783); (42786, 42888); (42891, 42954); (42960, 42961);
  (42963, 42963); (42965, 42969); (42994, 43009); (43011, 43013);
  (43015, 43018); (43020, 43042); (43056, 43061); (43072, 43123);
  (43138, 43187); (43216, 43225); (43250, 43255); (43259, 43259);
  (43261, 43262); (43264, 43301); (43312, 43334); (43360, 43388);
  (43396, 43442); (43471, 43481); (43488, 43492); (43494, 43518);
  (43520, 43560); (43584, 43586); (43588, 43595); (43600, 43609);
  (43616, 43638); (43642, 43642); (43646, 43695); (43697, 43697);
  (43701, 43702); (43705, 43709); (43712, 43712); (43714, 43714);
  (43739, 43741); (43744, 43754); (43762, 43764); (43777, 43782);
  (43785, 43790); (43793, 43798); (43808, 43814); (43816, 43822);
  (43824, 43866); (43868, 43881); (43888, 44002); (44016, 44025);
  (44032, 55203); (55216, 55238); (55243, 55291); (63744, 64109);
  (64112, 64217); (64256, 64262); (64275, 64279); (64285, 64285);
  (64287, 64296); (64298, 64310); (64312, 64316); (64318, 64318);
  (64320, 64321); (64323, 64324); (64326, 64433); (64467, 64829);
  (64848, 64911); (64914, 64967); (65008, 65019); (65136, 65140);
  (65142, 65276); (65296, 65305); (65313, 65338); (65345, 65370);
  (65382, 65470); (65474, 65479); (65482, 65487); (65490, 65495);
  (65498, 65500); (65536, 65547); (65549, 65574); (65576, 65594);
  (65596, 65597); (65599, 65613); (65616, 65629); (65664, 65786);
  (65799, 65843); (65856, 65912); (65930, 65931); (66176, 66204);
  (66208, 66256); (66273, 66299); (66304, 66339); (66349, 66378);
  (66384, 66421); (66432, 66461); (66464, 66499); (66504, 66511);
  (66513, 66517); (66560, 66717); (66720, 66729); (66736, 66771);
  (66776, 66811); (66816, 66855); (66864, 66915); (66928, 66938);
  (66940, 66954); (66956, 66962); (66964, 66965); (66967, 66977);
  (66979, 66993); (66995, 67001); (67003, 67004); (67072, 67382);
  (67392, 67413); (67424, 67431); (67456, 67461); (67463, 67504);
  (67506, 67514); (67584, 67589); (67592, 67592); (67594, 67637);
  (67639, 67640); (67644, 67644); (67647, 67669); (67672, 67702);
  (67705, 67742); (67751, 67759); (67808, 67826); (67828, 67829);
  (67835, 67867); (67872, 67897); (67968, 68023); (68028, 68047);
  (68050, 68096); (68112, 68115); (68117, 68119); (68121, 68149);
  (68160, 68168); (68192, 68222); (68224, 68255); (68288, 68295);
  (68297, 68324); (68331, 68335); (68352, 68405); (68416, 68437);
  (68440, 68466); (68472, 68497); (68521, 68527); (68608, 68680);
  (68736, 68786); (68800, 68850); (68858, 68899); (68912, 68921);
  (69216, 69246); (69248, 69289); (69296, 69297); (69376, 69415);
  (69424, 69445); (69457, 69460); (69488, 69505); (69552, 69579);
  (69600, 69622); (69635, 69687); (69714, 69743); (69745, 69746);
  (69749, 69749); (69763, 69807); (69840, 69864); (69872, 69881);
  (69891, 69926); (69942, 69951); (69956, 69956); (69959, 69959);
  (69968, 70002); (70006, 70006); (70019, 70066); (70081, 70084);
  (70096, 70106); (70108, 70108); (70113, 70132); (70144, 70161);
  (70163, 70187); (70272, 70278); (70280, 70280); (70282, 70285);
  (70287, 70301); (70303, 70312); (70320, 70366); (70384, 70393);
  (70405, 70412); (70415, 70416); (70419, 70440); (70442, 70448);
  (70450, 70451); (70453, 70457); (70461, 70461); (70480, 70480);
  (70493, 70497); (70656, 70708); (70727, 70730); (70736, 70745);
  (70751, 70753); (70784, 70831); (70852, 70853); (70855, 70855);
  (70864, 70873); (71040, 71086); (71128, 71131); (71168, 71215);
  (71236, 71236); (71248, 71257); (71296, 71338); (71352, 71352);
  (71360, 71369); (71424, 71450); (71472, 71483); (71488, 71494);
  (71680, 71723); (71840, 71922); (71935, 71942); (71945, 71945);
  (71948, 71955); (71957, 71958); (71960, 71983); (71999, 71999);
  (72001, 72001); (72016, 72025); (72096, 72103); (72106, 72144);
  (72161, 72161); (72163, 72163); (72192, 72192); (72203, 72242);
  (72250, 72250); (72272, 72272); (72284, 72329); (72349, 72349);
  (72368, 72440); (72704, 72712); (72714, 72750); (72768, 72768);
  (72784, 72812); (72818, 72847); (72960, 72966); (72968, 72969);
  (72971, 73008); (73030, 73030); (73040, 73049); (73056, 73061);
  (73063, 73064); (73066, 73097); (73112, 73112); (73120, 73129);
  (73440, 73458); (73648, 73648); (73664, 73684); (73728, 74649);
  (74752, 74862); (74880, 75075); (77712, 77808); (77824, 78894);
  (82944, 83526); (92160, 92728); (92736, 92766); (92768, 92777);
  (92784, 92862); (92864, 92873); (92880, 92909); (92928, 92975);
  (92992, 92995); (93008, 93017); (93019, 93025); (93027, 93047);
  (93053, 93071); (93760, 93846); (93952, 94026); (94032, 94032);
  (94099, 94111); (94176, 94177); (94179, 94179); (94208, 100343);
  (100352, 101589); (101632, 101640); (110576, 110579); (110581, 110587);
  (110589, 110590); (110592, 110882); (110928, 110930); (110948, 110951);
  (110960, 111355); (113664, 113770); (113776, 113788); (113792, 113800);
  (113808, 113817); (119520, 119539); (119648, 119672); (119808, 119892);
  (119894, 119964); (119966, 119967); (119970, 119970); (119973, 119974);
  (119977, 119980); (119982, 119993); (119995, 119995); (119997, 120003);
  (120005, 120069); (120071, 120074); (120077, 120084); (120086, 120092);
  (120094, 120121); (120123, 120126); (120128, 120132); (120134, 120134);
  (120138, 120144); (120146, 120485); (120488, 120512); (120514, 120538);
  (120540, 120570); (120572, 120596); (120598, 120628); (120630, 120654);
  (120656, 120686); (120688, 120712); (120714, 120744); (120746, 120770);
  (120772, 120779); (120782, 120831); (122624, 122654); (123136, 123180);
  (123191, 123197); (123200, 123209); (123214, 123214); (123536, 123565);
  (123584, 123627); (123632, 123641); (124896, 124902); (124904, 124907);
  (124909, 124910); (124912, 124926); (124928, 125124); (125127, 125135);
  (125184, 125251); (125259, 125259); (125264, 125273); (126065, 126123);
  (126125, 126127); (126129, 126132); (126209, 126253); (126255, 126269);
  (126464, 126467); (126469, 126495); (126497, 126498); (126500, 126500);
  (126503, 126503); (126505, 126514); (126516, 126519); (126521, 126521);
  (126523, 126523); (126530, 126530); (126535, 126535); (126537, 126537);
  (126539, 126539); (126541, 126543); (126545, 126546); (126548, 126548);
  (126551, 126551); (126553, 126553); (126555, 126555); (126557, 126557);
  (126559, 126559); (126561, 126562); (126564, 126564); (126567, 126570);
  (126572, 126578); (126580, 126583); (126585, 126588); (126590, 126590);
  (126592, 126601); (126603, 126619); (126625, 126627); (126629, 126633);
  (126635, 126651); (127232, 127244); (130032, 130041); (131072, 173791);
  (173824, 177976); (177984, 178205); (178208, 183969); (183984, 191456);
  (194560, 195101); (196608, 201546)
 ]%N.

(** The cased characters, which the rule of the final sigma consults. *)
Definition CASED : list (N * N) :=
 [
  (65, 90); (97, 122); (170, 170); (181, 181); (186, 186); (192, 214);
  (216, 246); (248, 442); (444, 447); (452, 659); (661, 696); (704, 705);
  (736, 740); (837, 837); (880, 883); (886, 887); (890, 893); (895, 895);
  (902, 902); (904, 906); (908, 908); (910, 929); (931, 1013); (1015, 1153);
  (1162, 1327); (1329, 1366); (1376, 1416); (4256, 4293); (4295, 4295);
  (4301, 4301); (4304, 4346); (4349, 4351); (5024, 5109); (5112, 5117);
  (7296, 7304); (7312, 7354); (7357, 7359); (7424, 7615); (7680, 7957);
  (7960, 7965); (7968, 8005); (8008, 8013); (8016, 8023); (8025, 8025);
  (8027, 8027); (8029, 8029); (8031, 8061); (8064, 8116); (8118, 8124);
  (8126, 8126); (8130, 8132); (8134, 8140); (8144, 8147); (8150, 8155);
  (8160, 8172); (8178, 8180); (8182, 8188); (8305, 8305); (8319, 8319);
  (8336, 8348); (8450, 8450); (8455, 8455); (8458, 8467); (8469, 8469);
  (8473, 8477); (8484, 8484); (8486, 8486); (8488, 8488); (8490, 8493);
  (8495, 8500); (8505, 8505); (8508, 8511); (8517, 8521); (8526, 8526);
  (8544, 8575); (8579, 8580); (9398, 9449); (11264, 11492); (11499, 11502);
  (11506, 11507); (11520, 11557); (11559, 11559); (11565, 11565);
  (42560, 42605); (42624, 42653); (42786, 42887); (42891, 42894);
  (42896, 42954); (42960, 42961); (42963, 42963); (42965, 42969);
  (42997, 42998); (43000, 43002); (43824, 43866); (43868, 43880);
  (43888, 43967); (64256, 64262); (64275, 64279); (65313, 65338);
  (65345, 65370); (66560, 66639); (66736, 66771); (66776, 66811);
  (66928, 66938); (66940, 66954); (66956, 66962); (66964, 66965);
  (66967, 66977); (66979, 66993); (66995, 67001); (67003, 67004);
  (67456, 67456); (67459, 67461); (67463, 67504); (67506, 67514);
  (68736, 68786); (68800, 68850); (71840, 71903); (93760, 93823);
  (119808, 119892); (119894, 119964); (119966, 119967); (119970, 119970);
  (119973, 119974); (119977, 119980); (119982, 119993); (119995, 119995);
  (119997, 120003); (120005, 120069); (120071, 120074); (120077, 120084);
  (120086, 120092); (120094, 120121); (120123, 120126); (120128, 120132);
  (120134, 120134); (120138, 120144); (120146, 120485); (120488, 120512);
  (120514, 120538); (120540, 120570); (120572, 120596); (120598, 120628);
  (120630, 120654); (120656, 120686); (120688, 120712); (120714, 120744);
  (120746, 120770); (120772, 120779); (122624, 122633); (122635, 122654);
  (125184, 125251); (127280, 127305); (127312, 127337); (127344, 127369)
 ]%N.

(** The case-ignorable characters, which the rule of the final sigma skips. *)
Definition CASE_IGNORABLE : list (N * N) :=
 [
  (39, 39); (46, 46); (58, 58); (94, 94); (96, 96); (168, 168); (173, 173);
  (175, 175); (180, 180); (183, 184); (688, 879); (884, 885); (890, 890);
  (900, 901); (903, 903); (1155, 1161); (1369, 1369); (1375, 1375);
  (1425, 1469); (1471, 1471); (1473, 1474); (1476, 1477); (1479, 1479);
  (1524, 1524); (1536, 1541); (1552, 1562); (1564, 1564); (1600, 1600);
  (1611, 1631); (1648, 1648); (1750, 1757); (1759, 1768); (1770, 1773);
  (1807, 1807); (1809, 1809); (1840, 1866); (1958, 1968); (2027, 2037);
  (2042, 2042); (2045, 2045); (2070, 2093); (2137, 2139); (2184, 2184);
  (2192, 2193); (2200, 2207); (2249, 2306); (2362, 2362); (2364, 2364);
  (2369, 2376); (2381, 2381); (2385, 2391); (2402, 2403); (2417, 2417);
  (2433, 2433); (2492, 2492); (2497, 2500); (2509, 2509); (2530, 2531);
  (2558, 2558); (2561, 2562); (2620, 2620); (2625, 2626); (2631, 2632);
  (2635, 2637); (2641, 2641); (2672, 2673); (2677, 2677); (2689, 2690);
  (2748, 2748); (2753, 2757); (2759, 2760); (2765, 2765); (2786, 2787);
  (2810, 2815); (2817, 2817); (2876, 2876); (2879, 2879); (2881, 2884);
  (2893, 2893); (2901, 2902); (2914, 2915); (2946, 2946); (3008, 3008);
  (3021, 3021); (3072, 3072); (3076, 3076); (3132, 3132); (3134, 3136);
  (3142, 3144); (3146, 3149); (3157, 3158); (3170, 3171); (3201, 3201);
  (3260, 3260); (3263, 3263); (3270, 3270); (3276, 3277); (3298, 3299);
  (3328, 3329); (3387, 3388); (3393, 3396); (3405, 3405); (3426, 3427);
  (3457, 3457); (3530, 3530); (3538, 3540); (3542, 3542); (3633, 3633);
  (3636, 3642); (3654, 3662); (3761, 3761); (3764, 3772); (3782, 3782);
  (3784, 3789); (3864, 3865); (3893, 3893); (3895, 3895); (3897, 3897);
  (3953, 3966); (3968, 3972); (3974, 3975); (3981, 3991); (3993, 4028);
  (4038, 4038); (4141, 4144); (4146, 4151); (4153, 4154); (4157, 4158);
  (4184, 4185); (4190, 4192); (4209, 4212); (4226, 4226); (4229, 4230);
  (4237, 4237); (4253, 4253); (4348, 4348); (4957, 4959); (5906, 5908);
  (5938, 5939); (5970, 5971); (6002, 6003); (6068, 6069); (6071, 6077);
  (6086, 6086); (6089, 6099); (6103, 6103); (6109, 6109); (6155, 6159);
  (6211, 6211); (6277, 6278); (6313, 6313); (6432, 6434); (6439, 6440);
  (6450, 6450); (6457, 6459); (6679, 6680); (6683, 6683); (6742, 6742);
  (6744, 6750); (6752, 6752); (6754, 6754); (6757, 6764); (6771, 6780);
  (6783, 6783); (6823, 6823); (6832, 6862); (6912, 6915); (6964, 6964);
  (6966, 6970); (6972, 6972); (6978, 6978); (7019, 7027); (7040, 7041);
  (7074, 7077); (7080, 7081); (7083, 7085); (7142, 7142); (7144, 7145);
  (7149, 7149); (7151, 7153); (7212, 7219); (7222, 7223); (7288, 7293);
  (7376, 7378); (7380, 7392); (7394, 7400); (7405, 7405); (7412, 7412);
  (7416, 7417); (7468, 7530); (7544, 7544); (7579, 7679); (8125, 8125);
  (8127, 8129); (8141, 8143); (8157, 8159); (8173, 8175); (8189, 8190);
  (8203, 8207); (8216, 8217); (8228, 8228); (8231, 8231); (8234, 8238);
  (8288, 8292); (8294, 8303); (8305, 8305); (8319, 8319); (8336, 8348);
  (8400, 8432); (11388, 11389); (11503, 11505); (11631, 11631);
  (11647, 11647); (11744, 11775); (11823, 11823); (12293, 12293);
  (12330, 12333); (12337, 12341); (12347, 12347); (12441, 12446);
  (12540, 12542); (40981, 40981); (42232, 42237); (42508, 42508);
  (42607, 42610); (42612, 42621); (42623, 42623); (42652, 42655);
  (42736, 42737); (42752, 42785); (42864, 42864); (42888, 42890);
  (42994, 42996); (43000, 43001); (43010, 43010); (43014, 43014);
  (43019, 43019); (43045, 43046); (43052, 43052); (43204, 43205);
  (43232, 43249); (43263, 43263); (43302, 43309); (43335, 43345);
  (43392, 43394); (43443, 43443); (43446, 43449); (43452, 43453);
  (43471, 43471); (43493, 43494); (43561, 43566); (43569, 43570);
  (43573, 43574); (43587, 43587); (43596, 43596); (43632, 43632);
  (43644, 43644); (43696, 43696); (43698, 43700); (43703, 43704);
  (43710, 43711); (43713, 43713); (43741, 43741); (43756, 43757);
  (43763, 43764); (43766, 43766); (43867, 43871); (43881, 43883);
  (44005, 44005); (44008, 44008); (44013, 44013); (64286, 64286);
  (64434, 64450); (65024, 65039); (65043, 65043); (65056, 65071);
  (65106, 65106); (65109, 65109); (65279, 65279); (65287, 65287);
  (65294, 65294); (65306, 65306); (65342, 65342); (65344, 65344);
  (65392, 65392); (65438, 65439); (65507, 65507); (65529, 65531);
  (66045, 66045); (66272, 66272); (66422, 66426); (67456, 67461);
  (67463, 67504); (67506, 67514); (68097, 68099); (68101, 68102);
  (68108, 68111); (68152, 68154); (68159, 68159); (68325, 68326);
  (68900, 68903); (69291, 69292); (69446, 69456); (69506, 69509);
  (69633, 69633); (69688, 69702); (69744, 69744); (69747, 69748);
  (69759, 69761); (69811, 69814); (69817, 69818); (69821, 69821);
  (69826, 69826); (69837, 69837); (69888, 69890); (69927, 69931);
  (69933, 69940); (70003, 70003); (70016, 70017); (70070, 70078);
  (70089, 70092); (70095, 70095); (70191, 70193); (70196, 70196);
  (70198, 70199); (70206, 70206); (70367, 70367); (70371, 70378);
  (70400, 70401); (70459, 70460); (70464, 70464); (70502, 70508);
  (70512, 70516); (70712, 70719); (70722, 70724); (70726, 70726);
  (70750, 70750); (70835, 70840); (70842, 70842); (70847, 70848);
  (70850, 70851); (71090, 71093); (71100, 71101); (71103, 71104);
  (71132, 71133); (71219, 71226); (71229, 71229); (71231, 71232);
  (71339, 71339); (71341, 71341); (71344, 71349); (71351, 71351);
  (71453, 71455); (71458, 71461); (71463, 71467); (71727, 71735);
  (71737, 71738); (71995, 71996); (71998, 71998); (72003, 72003);
  (72148, 72151); (72154, 72155); (72160, 72160); (72193, 72202);
  (72243, 72248); (72251, 72254); (72263, 72263); (72273, 72278);
  (72281, 72283); (72330, 72342); (72344, 72345); (72752, 72758);
  (72760, 72765); (72767, 72767); (72850, 72871); (72874, 72880);
  (72882, 72883); (72885, 72886); (73009, 73014); (73018, 73018);
  (73020, 73021); (73023, 73029); (73031, 73031); (73104, 73105);
  (73109, 73109); (73111, 73111); (73459, 73460); (78896, 78904);
  (92912, 92916); (92976, 92982); (92992, 92995); (94031, 94031);
  (94095, 94111); (94176, 94177); (94179, 94180); (110576, 110579);
  (110581, 110587); (110589, 110590); (113821, 113822); (113824, 113827);
  (118528, 118573); (118576, 118598); (119143, 119145); (119155, 119170);
  (119173, 119179); (119210, 119213); (119362, 119364); (121344, 121398);
  (121403, 121452); (121461, 121461); (121476, 121476); (121499, 121503);
  (121505, 121519); (122880, 122886); (122888, 122904); (122907, 122913);
  (122915, 122916); (122918, 122922); (123184, 123197); (123566, 123566);
  (123628, 123631); (125136, 125142); (125252, 125259); (127995, 127999);
  (917505, 917505); (917536, 917631); (917760, 917999)
 ]%N.

(** The characters [str.lower] changes into one character, with that
    character. *)
Definition LOWER : list (N * N) :=
 [
  (65, 97); (66, 98); (67, 99); (68, 100); (69, 101); (70, 102); (71, 103);
  (72, 104); (73, 105); (74, 106); (75, 107); (76, 108); (77, 109); (78, 110);
  (79, 111); (80, 112); (81, 113); (82, 114); (83, 115); (84, 116); (85, 117);
  (86, 118); (87, 119); (88, 120); (89, 121); (90, 122); (192, 224);
  (193, 225); (194, 226); (195, 227); (196, 228); (197, 229); (198, 230);
  (199, 231); (200, 232); (201, 233); (202, 234); (203, 235); (204, 236);
  (205, 237); (206, 238); (207, 239); (208, 240); (209, 241); (210, 242);
  (211, 243); (212, 244); (213, 245); (214, 246); (216, 248); (217, 249);
  (218, 250); (219, 251); (220, 252); (221, 253); (222, 254); (256, 257);
  (258, 259); (260, 261); (262, 263); (264, 265); (266, 267); (268, 269);
  (270, 271); (272, 273); (274, 275); (276, 277); (278, 279); (280, 281);
  (282, 283); (284, 285); (286, 287); (288, 289); (290, 291); (292, 293);
  (294, 295); (296, 297); (298, 299); (300, 301); (302, 303); (306, 307);
  (308, 309); (310, 311); (313, 314); (315, 316); (317, 318); (319, 320);
  (321, 322); (323, 324); (325, 326); (327, 328); (330, 331); (332, 333);
  (334, 335); (336, 337); (338, 339); (340, 341); (342, 343); (344, 345);
  (346, 347); (348, 349); (350, 351); (352, 353); (354, 355); (356, 357);
  (358, 359); (360, 361); (362, 363); (364, 365); (366, 367); (368, 369);
  (370, 371); (372, 373); (374, 375); (376, 255); (377, 378); (379, 380);
  (381, 382); (385, 595); (386, 387); (388, 389); (390, 596); (391, 392);
  (393, 598); (394, 599); (395, 396); (398, 477); (399, 601); (400, 603);
  (401, 402); (403, 608); (404, 611); (406, 617); (407, 616); (408, 409);
  (412, 623); (413, 626); (415, 629); (416, 417); (418, 419); (420, 421);
  (422, 640); (423, 424); (425, 643); (428, 429); (430, 648); (431, 432);
  (433, 650); (434, 651); (435, 436); (437, 438); (439, 658); (440, 441);
  (444, 445); (452, 454); (453, 454); (455, 457); (456, 457); (458, 460);
  (459, 460); (461, 462); (463, 464); (465, 466); (467, 468); (469, 470);
  (471, 472); (473, 474); (475, 476); (478, 479); (480, 481); (482, 483);
  (484, 485); (486, 487); (488, 489); (490, 491); (492, 493); (494, 495);
  (497, 499); (498, 499); (500, 501); (502, 405); (503, 447); (504, 505);
  (506, 507); (508, 509); (510, 511); (512, 513); (514, 515); (516, 517);
  (518, 519); (520, 521); (522, 523); (524, 525); (526, 527); (528, 529);
  (530, 531); (532, 533); (534, 535); (536, 537); (538, 539); (540, 541);
  (542, 543); (544, 414); (546, 547); (548, 549); (550, 551); (552, 553);
  (554, 555); (556, 557); (558, 559); (560, 561); (562, 563); (570, 11365);
  (571, 572); (573, 410); (574, 11366); (577, 578); (579, 384); (580, 649);
  (581, 652); (582, 583); (584, 585); (586, 587); (588, 589); (590, 591);
  (880, 881); (882, 883); (886, 887); (895, 1011); (902, 940); (904, 941);
  (905, 942); (906, 943); (908, 972); (910, 973); (911, 974); (913, 945);
  (914, 946); (915, 947); (916, 948); (917, 949); (918, 950); (919, 951);
  (920, 952); (921, 953); (922, 954); (923, 955); (924, 956); (925, 957);
  (926, 958); (927, 959); (928, 960); (929, 961); (931, 963); (932, 964);
  (933, 965); (934, 966); (935, 967); (936, 968); (937, 969); (938, 970);
  (939, 971); (975, 983); (984, 985); (986, 987); (988, 989); (990, 991);
  (992, 993); (994, 995); (996, 997); (998, 999); (1000, 1001); (1002, 1003);
  (1004, 1005); (1006, 1007); (1012, 952); (1015, 1016); (1017, 1010);
  (1018, 1019); (1021, 891); (1022, 892); (1023, 893); (1024, 1104);
  (1025, 1105); (1026, 1106); (1027, 1107); (1028, 1108); (1029, 1109);
  (1030, 1110); (1031, 1111); (1032, 1112); (1033, 1113); (1034, 1114);
  (1035, 1115); (1036, 1116); (1037, 1117); (1038, 1118); (1039, 1119);
  (1040, 1072); (1041, 1073); (1042, 1074); (1043, 1075); (1044, 1076);
  (1045, 1077); (1046, 1078); (1047, 1079); (1048, 1080); (1049, 1081);
  (1050, 1082); (1051, 1083); (1052, 1084); (1053, 1085); (1054, 1086);
  (1055, 1087); (1056, 1088); (1057, 1089); (1058, 1090); (1059, 1091);
  (1060, 1092); (1061, 1093); (1062, 1094); (1063, 1095); (1064, 1096);
  (1065, 1097); (1066, 1098); (1067, 1099); (1068, 1100); (1069, 1101);
  (1070, 1102); (1071, 1103); (1120, 1121); (1122, 1123); (1124, 1125);
  (1126, 1127); (1128, 1129); (1130, 1131); (1132, 1133); (1134, 1135);
  (1136, 1137); (1138, 1139); (1140, 1141); (1142, 1143); (1144, 1145);
  (1146, 1147); (1148, 1149); (1150, 1151); (1152, 1153); (1162, 1163);
  (1164, 1165); (1166, 1167); (1168, 1169); (1170, 1171); (1172, 1173);
  (1174, 1175); (1176, 1177); (1178, 1179); (1180, 1181); (1182, 1183);
  (1184, 1185); (1186, 1187); (1188, 1189); (1190, 1191); (1192, 1193);
  (1194, 1195); (1196, 1197); (1198, 1199); (1200, 1201); (1202, 1203);
  (1204, 1205); (1206, 1207); (1208, 1209); (1210, 1211); (1212, 1213);
  (1214, 1215); (1216, 1231); (1217, 1218); (1219, 1220); (1221, 1222);
  (1223, 1224); (1225, 1226); (1227, 1228); (1229, 1230); (1232, 1233);
  (1234, 1235); (1236, 1237); (1238, 1239); (1240, 1241); (1242, 1243);
  (1244, 1245); (1246, 1247); (1248, 1249); (1250, 1251); (1252, 1253);
  (1254, 1255); (1256, 1257); (1258, 1259); (1260, 1261); (1262, 1263);
  (1264, 1265); (1266, 1267); (1268, 1269); (1270, 1271); (1272, 1273);
  (1274, 1275); (1276, 1277); (1278, 1279); (1280, 1281); (1282, 1283);
  (1284, 1285); (1286, 1287); (1288, 1289); (1290, 1291); (1292, 1293);
  (1294, 1295); (1296, 1297); (1298, 1299); (1300, 1301); (1302, 1303);
  (1304, 1305); (1306, 1307); (1308, 1309); (1310, 1311); (1312, 1313);
  (1314, 1315); (1316, 1317); (1318, 1319); (1320, 1321); (1322, 1323);
  (1324, 1325); (1326, 1327); (1329, 1377); (1330, 1378); (1331, 1379);
  (1332, 1380); (1333, 1381); (1334, 1382); (1335, 1383); (1336, 1384);
  (1337, 1385); (1338, 1386); (1339, 1387); (1340, 1388); (1341, 1389);
  (1342, 1390); (1343, 1391); (1344, 1392); (1345, 1393); (1346, 1394);
  (1347, 1395); (1348, 1396); (1349, 1397); (1350, 1398); (1351, 1399);
  (1352, 1400); (1353, 1401); (1354, 1402); (1355, 1403); (1356, 1404);
  (1357, 1405); (1358, 1406); (1359, 1407); (1360, 1408); (1361, 1409);
  (1362, 1410); (1363, 1411); (1364, 1412); (1365, 1413); (1366, 1414);
  (4256, 11520); (4257, 11521); (4258, 11522); (4259, 11523); (4260, 11524);
  (4261, 11525); (4262, 11526); (4263, 11527); (4264, 11528); (4265, 11529);
  (4266, 11530); (4267, 11531); (4268, 11532); (4269, 11533); (4270, 11534);
  (4271, 11535); (4272, 11536); (4273, 11537); (4274, 11538); (4275, 11539);
  (4276, 11540); (4277, 11541); (4278, 11542); (4279, 11543); (4280, 11544);
  (4281, 11545); (4282, 11546); (4283, 11547); (4284, 11548); (4285, 11549);
  (4286, 11550); (4287, 11551); (4288, 11552); (4289, 11553); (4290, 11554);
  (4291, 11555); (4292, 11556); (4293, 11557); (4295, 11559); (4301, 11565);
  (5024, 43888); (5025, 43889); (5026, 43890); (5027, 43891); (5028, 43892);
  (5029, 43893); (5030, 43894); (5031, 43895); (5032, 43896); (5033, 43897);
  (5034, 43898); (5035, 43899); (5036, 43900); (5037, 43901); (5038, 43902);
  (5039, 43903); (5040, 43904); (5041, 43905); (5042, 43906); (5043, 43907);
  (5044, 43908); (5045, 43909); (5046, 43910); (5047, 43911); (5048, 43912);
  (5049, 43913); (5050, 43914); (5051, 43915); (5052, 43916); (5053, 43917);
  (5054, 43918); (5055, 43919); (5056, 43920); (5057, 43921); (5058, 43922);
  (5059, 43923); (5060, 43924); (5061, 43925); (5062, 43926); (5063, 43927);
  (5064, 43928); (5065, 43929); (5066, 43930); (5067, 43931); (5068, 43932);
  (5069, 43933); (5070, 43934); (5071, 43935); (5072, 43936); (5073, 43937);
  (5074, 43938); (5075, 43939); (5076, 43940); (5077, 43941); (5078, 43942);
  (5079, 43943); (5080, 43944); (5081, 43945); (5082, 43946); (5083, 43947);
  (5084, 43948); (5085, 43949); (5086, 43950); (5087, 43951); (5088, 43952);
  (5089, 43953); (5090, 43954); (5091, 43955); (5092, 43956); (5093, 43957);
  (5094, 43958); (5095, 43959); (5096, 43960); (5097, 43961); (5098, 43962);
  (5099, 43963); (5100, 43964); (5101, 43965); (5102, 43966); (5103, 43967);
  (5104, 5112); (5105, 5113); (5106, 5114); (5107, 5115); (5108, 5116);
  (5109, 5117); (7312, 4304); (7313, 4305); (7314, 4306); (7315, 4307);
  (7316, 4308); (7317, 4309); (7318, 4310); (7319, 4311); (7320, 4312);
  (7321, 4313); (7322, 4314); (7323, 4315); (7324, 4316); (7325, 4317);
  (7326, 4318); (7327, 4319); (7328, 4320); (7329, 4321); (7330, 4322);
  (7331, 4323); (7332, 4324); (7333, 4325); (7334, 4326); (7335, 4327);
  (7336, 4328); (7337, 4329); (7338, 4330); (7339, 4331); (7340, 4332);
  (7341, 4333); (7342, 4334); (7343, 4335); (7344, 4336); (7345, 4337);
  (7346, 4338); (7347, 4339); (7348, 4340); (7349, 4341); (7350, 4342);
  (7351, 4343); (7352, 4344); (7353, 4345); (7354, 4346); (7357, 4349);
  (7358, 4350); (7359, 4351); (7680, 7681); (7682, 7683); (7684, 7685);
  (7686, 7687); (7688, 7689); (7690, 7691); (7692, 7693); (7694, 7695);
  (7696, 7697); (7698, 7699); (7700, 7701); (7702, 7703); (7704, 7705);
  (7706, 7707); (7708, 7709); (7710, 7711); (7712, 7713); (7714, 7715);
  (7716, 7717); (7718, 7719); (7720, 7721); (7722, 7723); (7724, 7725);
  (7726, 7727); (7728, 7729); (7730, 7731); (7732, 7733); (7734, 7735);
  (7736, 7737); (7738, 7739); (7740, 7741); (7742, 7743); (7744, 7745);
  (7746, 7747); (7748, 7749); (7750, 7751); (7752, 7753); (7754, 7755);
  (7756, 7757); (7758, 7759); (7760, 7761); (7762, 7763); (7764, 7765);
  (7766, 7767); (7768, 7769); (7770, 7771); (7772, 7773); (7774, 7775);
  (7776, 7777); (7778, 7779); (7780, 7781); (7782, 7783); (7784, 7785);
  (7786, 7787); (7788, 7789); (7790, 7791); (7792, 7793); (7794, 7795);
  (7796, 7797); (7798, 7799); (7800, 7801); (7802, 7803); (7804, 7805);
  (7806, 7807); (7808, 7809); (7810, 7811); (7812, 7813); (7814, 7815);
  (7816, 7817); (7818, 7819); (7820, 7821); (7822, 7823); (7824, 7825);
  (7826, 7827); (7828, 7829); (7838, 223); (7840, 7841); (7842, 7843);
  (7844, 7845); (7846, 7847); (7848, 7849); (7850, 7851); (7852, 7853);
  (7854, 7855); (7856, 7857); (7858, 7859); (7860, 7861); (7862, 7863);
  (7864, 7865); (7866, 7867); (7868, 7869); (7870, 7871); (7872, 7873);
  (7874, 7875); (7876, 7877); (7878, 7879); (7880, 7881); (7882, 7883);
  (7884, 7885); (7886, 7887); (7888, 7889); (7890, 7891); (7892, 7893);
  (7894, 7895); (7896, 7897); (7898, 7899); (7900, 7901); (7902, 7903);
  (7904, 7905); (7906, 7907); (7908, 7909); (7910, 7911); (7912, 7913);
  (7914, 7915); (7916, 7917); (7918, 7919); (7920, 7921); (7922, 7923);
  (7924, 7925); (7926, 7927); (7928, 7929); (7930, 7931); (7932, 7933);
  (7934, 7935); (7944, 7936); (7945, 7937); (7946, 7938); (7947, 7939);
  (7948, 7940); (7949, 7941); (7950, 7942); (7951, 7943); (7960, 7952);
  (7961, 7953); (7962, 7954); (7963, 7955); (7964, 7956); (7965, 7957);
  (7976, 7968); (7977, 7969); (7978, 7970); (7979, 7971); (7980, 7972);
  (7981, 7973); (7982, 7974); (7983, 7975); (7992, 7984); (7993, 7985);
  (7994, 7986); (7995, 7987); (7996, 7988); (7997, 7989); (7998, 7990);
  (7999, 7991); (8008, 8000); (8009, 8001); (8010, 8002); (8011, 8003);
  (8012, 8004); (8013, 8005); (8025, 8017); (8027, 8019); (8029, 8021);
  (8031, 8023); (8040, 8032); (8041, 8033); (8042, 8034); (8043, 8035);
  (8044, 8036); (8045, 8037); (8046, 8038); (8047, 8039); (8072, 8064);
  (8073, 8065); (8074, 8066); (8075, 8067); (8076, 8068); (8077, 8069);
  (8078, 8070); (8079, 8071); (8088, 8080); (8089, 8081); (8090, 8082);
  (8091, 8083); (8092, 8084); (8093, 8085); (8094, 8086); (8095, 8087);
  (8104, 8096); (8105, 8097); (8106, 8098); (8107, 8099); (8108, 8100);
  (8109, 8101); (8110, 8102); (8111, 8103); (8120, 8112); (8121, 8113);
  (8122, 8048); (8123, 8049); (8124, 8115); (8136, 8050); (8137, 8051);
  (8138, 8052); (8139, 8053); (8140, 8131); (8152, 8144); (8153, 8145);
  (8154, 8054); (8155, 8055); (8168, 8160); (8169, 8161); (8170, 8058);
  (8171, 8059); (8172, 8165); (8184, 8056); (8185, 8057); (8186, 8060);
  (8187, 8061); (8188, 8179); (8486, 969); (8490, 107); (8491, 229);
  (8498, 8526); (8544, 8560); (8545, 8561); (8546, 8562); (8547, 8563);
  (8548, 8564); (8549, 8565); (8550, 8566); (8551, 8567); (8552, 8568);
  (8553, 8569); (8554, 8570); (8555, 8571); (8556, 8572); (8557, 8573);
  (8558, 8574); (8559, 8575); (8579, 8580); (9398, 9424); (9399, 9425);
  (9400, 9426); (9401, 9427); (9402, 9428); (9403, 9429); (9404, 9430);
  (9405, 9431); (9406, 9432); (9407, 9433); (9408, 9434); (9409, 9435);
  (9410, 9436); (9411, 9437); (9412, 9438); (9413, 9439); (9414, 9440);
  (9415, 9441); (9416, 9442); (9417, 9443); (9418, 9444); (9419, 9445);
  (9420, 9446); (9421, 9447); (9422, 9448); (9423, 9449); (11264, 11312);
  (11265, 11313); (11266, 11314); (11267, 11315); (11268, 11316);
  (11269, 11317); (11270, 11318); (11271, 11319); (11272, 11320);
  (11273, 11321); (11274, 11322); (11275, 11323); (11276, 11324);
  (11277, 11325); (11278, 11326); (11279, 11327); (11280, 11328);
  (11281, 11329); (11282, 11330); (11283, 11331); (11284, 11332);
  (11285, 11333); (11286, 11334); (11287, 11335); (11288, 11336);
  (11289, 11337); (11290, 11338); (11291, 11339); (11292, 11340);
  (11293, 11341); (11294, 11342); (11295, 11343); (11296, 11344);
  (11297, 11345); (11298, 11346); (11299, 11347); (11300, 11348);
  (11301, 11349); (11302, 11350); (11303, 11351); (11304, 11352);
  (11305, 11353); (11306, 11354); (11307, 11355); (11308, 11356);
  (11309, 11357); (11310, 11358); (11311, 11359); (11360, 11361);
  (11362, 619); (11363, 7549); (11364, 637); (11367, 11368); (11369, 11370);
  (11371, 11372); (11373, 593); (11374, 625); (11375, 592); (11376, 594);
  (11378, 11379); (11381, 11382); (11390, 575); (11391, 576); (11392, 11393);
  (11394, 11395); (11396, 11397); (11398, 11399); (11400, 11401);
  (11402, 11403); (11404, 11405); (11406, 11407); (11408, 11409);
  (11410, 11411); (11412, 11413); (11414, 11415); (11416, 11417);
  (11418, 11419); (11420, 11421); (11422, 11423); (11424, 11425);
  (11426, 11427); (11428, 11429); (11430, 11431); (11432, 11433);
  (11434, 11435); (11436, 11437); (11438, 11439); (11440, 11441);
  (11442, 11443); (11444, 11445); (11446, 11447); (11448, 11449);
  (11450, 11451); (11452, 11453); (11454, 11455); (11456, 11457);
  (11458, 11459); (11460, 11461); (11462, 11463); (11464, 11465);
  (11466, 11467); (11468, 11469); (11470, 11471); (11472, 11473);
  (11474, 11475); (11476, 11477); (11478, 11479); (11480, 11481);
  (11482, 11483); (11484, 11485); (11486, 11487); (11488, 11489);
  (11490, 11491); (11499, 11500); (11501, 11502); (11506, 11507);
  (42560, 42561); (42562, 42563); (42564, 42565); (42566, 42567);
  (42568, 42569); (42570, 42571); (42572, 42573); (42574, 42575);
  (42576, 42577); (42578, 42579); (42580, 42581); (42582, 42583);
  (42584, 42585); (42586, 42587); (42588, 42589); (42590, 42591);
  (42592, 42593); (42594, 42595); (42596, 42597); (42598, 42599);
  (42600, 42601); (42602, 42603); (42604, 42605); (42624, 42625);
  (42626, 42627); (42628, 42629); (42630, 42631); (42632, 42633);
  (42634, 42635); (42636, 42637); (42638, 42639); (42640, 42641);
  (42642, 42643); (42644, 42645); (42646, 42647); (42648, 42649);
  (42650, 42651); (42786, 42787); (42788, 42789); (42790, 42791);
  (42792, 42793); (42794, 42795); (42796, 42797); (42798, 42799);
  (42802, 42803); (42804, 42805); (42806, 42807); (42808, 42809);
  (42810, 42811); (42812, 42813); (42814, 42815); (42816, 42817);
  (42818, 42819); (42820, 42821); (42822, 42823); (42824, 42825);
  (42826, 42827); (42828, 42829); (42830, 42831); (42832, 42833);
  (42834, 42835); (42836, 42837); (42838, 42839); (42840, 42841);
  (42842, 42843); (42844, 42845); (42846, 42847); (42848, 42849);
  (42850, 42851); (42852, 42853); (42854, 42855); (42856, 42857);
  (42858, 42859); (42860, 42861); (42862, 42863); (42873, 42874);
  (42875, 42876); (42877, 7545); (42878, 42879); (42880, 42881);
  (42882, 42883); (42884, 42885); (42886, 42887); (42891, 42892);
  (42893, 613); (42896, 42897); (42898, 42899); (42902, 42903);
  (42904, 42905); (42906, 42907); (42908, 42909); (42910, 42911);
  (42912, 42913); (42914, 42915); (42916, 42917); (42918, 42919);
  (42920, 42921); (42922, 614); (42923, 604); (42924, 609); (42925, 620);
  (42926, 618); (42928, 670); (42929, 647); (42930, 669); (42931, 43859);
  (42932, 42933); (42934, 42935); (42936, 42937); (42938, 42939);
  (42940, 42941); (42942, 42943); (42944, 42945); (42946, 42947);
  (42948, 42900); (42949, 642); (42950, 7566); (42951, 42952); (42953, 42954);
  (42960, 42961); (42966, 42967); (42968, 42969); (42997, 42998);
  (65313, 65345); (65314, 65346); (65315, 65347); (65316, 65348);
  (65317, 65349); (65318, 65350); (65319, 65351); (65320, 65352);
  (65321, 65353); (65322, 65354); (65323, 65355); (65324, 65356);
  (65325, 65357); (65326, 65358); (65327, 65359); (65328, 65360);
  (65329, 65361); (65330, 65362); (65331, 65363); (65332, 65364);
  (65333, 65365); (65334, 65366); (65335, 65367); (65336, 65368);
  (65337, 65369); (65338, 65370); (66560, 66600); (66561, 66601);
  (66562, 66602); (66563, 66603); (66564, 66604); (66565, 66605);
  (66566, 66606); (66567, 66607); (66568, 66608); (66569, 66609);
  (66570, 66610); (66571, 66611); (66572, 66612); (66573, 66613);
  (66574, 66614); (66575, 66615); (66576, 66616); (66577, 66617);
  (66578, 66618); (66579, 66619); (66580, 66620); (66581, 66621);
  (66582, 66622); (66583, 66623); (66584, 66624); (66585, 66625);
  (66586, 66626); (66587, 66627); (66588, 66628); (66589, 66629);
  (66590, 66630); (66591, 66631); (66592, 66632); (66593, 66633);
  (66594, 66634); (66595, 66635); (66596, 66636); (66597, 66637);
  (66598, 66638); (66599, 66639); (66736, 66776); (66737, 66777);
  (66738, 66778); (66739, 66779); (66740, 66780); (66741, 66781);
  (66742, 66782); (66743, 66783); (66744, 66784); (66745, 66785);
  (66746, 66786); (66747, 66787); (66748, 66788); (66749, 66789);
  (66750, 66790); (66751, 66791); (66752, 66792); (66753, 66793);
  (66754, 66794); (66755, 66795); (66756, 66796); (66757, 66797);
  (66758, 66798); (66759, 66799); (66760, 66800); (66761, 66801);
  (66762, 66802); (66763, 66803); (66764, 66804); (66765, 66805);
  (66766, 66806); (66767, 66807); (66768, 66808); (66769, 66809);
  (66770, 66810); (66771, 66811); (66928, 66967); (66929, 66968);
  (66930, 66969); (66931, 66970); (66932, 66971); (66933, 66972);
  (66934, 66973); (66935, 66974); (66936, 66975); (66937, 66976);
  (66938, 66977); (66940, 66979); (66941, 66980); (66942, 66981);
  (66943, 66982); (66944, 66983); (66945, 66984); (66946, 66985);
  (66947, 66986); (66948, 66987); (66949, 66988); (66950, 66989);
  (66951, 66990); (66952, 66991); (66953, 66992); (66954, 66993);
  (66956, 66995); (66957, 66996); (66958, 66997); (66959, 66998);
  (66960, 66999); (66961, 67000); (66962, 67001); (66964, 67003);
  (66965, 67004); (68736, 68800); (68737, 68801); (68738, 68802);
  (68739, 68803); (68740, 68804); (68741, 68805); (68742, 68806);
  (68743, 68807); (68744, 68808); (68745, 68809); (68746, 68810);
  (68747, 68811); (68748, 68812); (68749, 68813); (68750, 68814);
  (68751, 68815); (68752, 68816); (68753, 68817); (68754, 68818);
  (68755, 68819); (68756, 68820); (68757, 68821); (68758, 68822);
  (68759, 68823); (68760, 68824); (68761, 68825); (68762, 68826);
  (68763, 68827); (68764, 68828); (68765, 68829); (68766, 68830);
  (68767, 68831); (68768, 68832); (68769, 68833); (68770, 68834);
  (68771, 68835); (68772, 68836); (68773, 68837); (68774, 68838);
  (68775, 68839); (68776, 68840); (68777, 68841); (68778, 68842);
  (68779, 68843); (68780, 68844); (68781, 68845); (68782, 68846);
  (68783, 68847); (68784, 68848); (68785, 68849); (68786, 68850);
  (71840, 71872); (71841, 71873); (71842, 71874); (71843, 71875);
  (71844, 71876); (71845, 71877); (71846, 71878); (71847, 71879);
  (71848, 71880); (71849, 71881); (71850, 71882); (71851, 71883);
  (71852, 71884); (71853, 71885); (71854, 71886); (71855, 71887);
  (71856, 71888); (71857, 71889); (71858, 71890); (71859, 71891);
  (71860, 71892); (71861, 71893); (71862, 71894); (71863, 71895);
  (71864, 71896); (71865, 71897); (71866, 71898); (71867, 71899);
  (71868, 71900); (71869, 71901); (71870, 71902); (71871, 71903);
  (93760, 93792); (93761, 93793); (93762, 93794); (93763, 93795);
  (93764, 93796); (93765, 93797); (93766, 93798); (93767, 93799);
  (93768, 93800); (93769, 93801); (93770, 93802); (93771, 93803);
  (93772, 93804); (93773, 93805); (93774, 93806); (93775, 93807);
  (93776, 93808); (93777, 93809); (93778, 93810); (93779, 93811);
  (93780, 93812); (93781, 93813); (93782, 93814); (93783, 93815);
  (93784, 93816); (93785, 93817); (93786, 93818); (93787, 93819);
  (93788, 93820); (93789, 93821); (93790, 93822); (93791, 93823);
  (125184, 125218); (125185, 125219); (125186, 125220); (125187, 125221);
  (125188, 125222); (125189, 125223); (125190, 125224); (125191, 125225);
  (125192, 125226); (125193, 125227); (125194, 125228); (125195, 125229);
  (125196, 125230); (125197, 125231); (125198, 125232); (125199, 125233);
  (125200, 125234); (125201, 125235); (125202, 125236); (125203, 125237);
  (125204, 125238); (125205, 125239); (125206, 125240); (125207, 125241);
  (125208, 125242); (125209, 125243); (125210, 125244); (125211, 125245);
  (125212, 125246); (125213, 125247); (125214, 125248); (125215, 125249);
  (125216, 125250); (125217, 125251)
 ]%N.
(** [c] lies in one of the ranges. *)
Definition in_ranges (rs : list (N * N)) (c : char) : bool :=
  existsb (fun r => (fst r <=? c)%N && (c <=? snd r)%N) rs.

Fixpoint assoc (c : char) (l : list (N * N)) : option char :=
  match l with
  | [] => None
  | (k, v) :: l' => if (k =? c)%N then Some v else assoc c l'
  end.

End Unicode.

Module Py.

Definition between (lo hi c : char) : bool :=
  (lo <=? c)%N && (c <=? hi)%N.

(** [c.isspace()]; also the characters [str.strip] removes and [\s]
    matches. *)
Definition isspace (c : char) : bool := Unicode.in_ranges Unicode.SPACE c.

(** [c.isdecimal()], the characters [\d] matches. *)
Definition isdecimal (c : char) : bool :=
  Unicode.in_ranges Unicode.DECIMAL c.

(** [c.isalnum()] *)
Definition isalnum (c : char) : bool := Unicode.in_ranges Unicode.ALNUM c.

(** [\w]: letters, numbers and the underscore. *)
Definition isword (c : char) : bool := isalnum c || char_eqb c "_".

Definition cased (c : char) : bool := Unicode.in_ranges Unicode.CASED c.

Definition case_ignorable (c : char) : bool :=
  Unicode.in_ranges Unicode.CASE_IGNORABLE c.

(** The capital sigma, the one character whose lower case depends on its
    neighbours, and its two lower-case forms. *)
Definition SIGMA : char := 931%N.
Definition FINAL_SIGMA : char := 962%N.
Definition SMALL_SIGMA : char := 963%N.

(** The lower case of one character, its neighbours left aside: two
    characters for the capital I with a dot above, the character of the
    table or the character itself otherwise. *)
Definition lower_full (c : char) : text :=
  if (c =? 304)%N then [105; 775]%N
  else
    match Unicode.assoc c Unicode.LOWER with
    | Some x => [x]
    | None => [c]
    end.

(** [str.lower] changes [c]. *)
Definition changes (c : char) : bool :=
  (c =? 304)%N || match Unicode.assoc c Unicode.LOWER with
                  | Some _ => true
                  | None => false
                  end.

(** The first character that is not case-ignorable. *)
Fixpoint first_not_ignorable (s : text) : option char :=
  match s with
  | [] => None
  | c :: s' => if case_ignorable c then first_not_ignorable s' else Some c
  end.

(** A capital sigma is final when, case-ignorable characters skipped, a
    cased character comes before it and none comes after it. [before] is
    the text before the sigma, the nearest character first. *)
Definition final_sigma (before after : text) : bool :=
  match first_not_ignorable before with
  | Some c => cased c
  | None => false
  end
  && match first_not_ignorable after with
     | Some c => negb (cased c)
     | None => true
     end.

Fixpoint lower_from (before s : text) : text :=
  match s with
  | [] => []
  | c :: s' =>
      (if (c =? SIGMA)%N
       then [if final_sigma before s' then FINAL_SIGMA else SMALL_SIGMA]
       else lower_full c)
        ++ lower_from (c :: before) s'
  end.

(** [s.lower()] *)
Definition lower (s : text) : text := lower_from [] s.

Fixpoint lstrip (s : text) : text :=
  match s with
  | c :: s' => if isspace c then lstrip s' else s
  | [] => []
  end.

Definition rstrip (s : text) : text := rev (lstrip (rev s)).

(** [s.strip()] *)
Definition strip (s : text) : text := rstrip (lstrip s).

(** [startswith old s]: [old] is a prefix of [s]. *)
Fixpoint startswith (old s : text) : bool :=
  match old, s with
  | [], _ => true
  | a :: old', b :: s' => if char_dec a b then startswith old' s' else false
  | _ :: _, [] => false
  end.

(** [s.replace(old, new)] for a non-empty [old]: occurrences are taken from
    the left and do not overlap. [skip] counts the characters of the
    occurrence under replacement that are still to be passed over. *)
Fixpoint replace_from (old new : text) (skip : nat) (s : text) : text :=
  match s with
  | [] => []
  | c :: s' =>
      match skip with
      | S k => replace_from old new k s'
      | O => if startswith old s
             then new ++ replace_from old new (pred (length old)) s'
             else c :: replace_from old new 0 s'
      end
  end.

(** [s.replace(old, new)]; with an empty [old] Python puts [new] before
    every character and at the end. *)
Definition replace (old new s : text) : text :=
  match old with
  | [] => new ++ flat_map (fun c => c :: new) s
  | _ :: _ => replace_from old new 0 s
  end.

(** [sub in s] on strings. *)
Fixpoint contains (sub s : text) : bool :=
  startswith sub s ||
  match s with
  | [] => false
  | _ :: s' => contains sub s'
  end.

(** The letters of the Basic Latin block and their two cases. *)
Definition isupper (c : char) : bool := between "A" "Z" c.
Definition islower (c : char) : bool := between "a" "z" c.
Definition isalpha (c : char) : bool := isupper c || islower c.

Definition lower_char (c : char) : char :=
  if isupper c then (c + 32)%N else c.

Definition upper_char (c : char) : char :=
  if islower c then (c - 32)%N else c.

(** [s.title()] for a text whose cased characters are Basic Latin letters,
    as the attribute names of the pattern table, the only texts the scripts
    call it on: the first letter of every run of letters in upper case, the
    others in lower case. *)
Fixpoint title_from (inword : bool) (s : text) : text :=
  match s with
  | [] => []
  | c :: s' =>
      (if inword then lower_char c else upper_char c)
        :: title_from (isalpha c) s'
  end.

Definition title (s : text) : text := title_from false s.

(** [sep.join(parts)] *)
Fixpoint join (sep : text) (parts : list text) : text :=
  match parts with
  | [] => []
  | [p] => p
  | p :: ps => p ++ sep ++ join sep ps
  end.

(** Lexicographic order on code points, the order of [sorted] on strings. *)
Fixpoint leb (a b : text) : bool :=
  match a, b with
  | [], _ => true
  | _ :: _, [] => false
  | x :: a', y :: b' =>
      if (x <? y)%N then true
      else if (y <? x)%N then false
      else leb a' b'
  end.

Fixpoint insert_sorted (x : text) (l : list text) : list text :=
  match l with
  | [] => [x]
  | y :: l' => if leb x y then x :: l else y :: insert_sorted x l'
  end.

(** [sorted(l)] *)
Definition sorted (l : list text) : list text :=
  fold_right insert_sorted [] l.

End Py.

(** ** Regular expressions *)

Module Re.

Inductive regex : Type :=
| Eps : regex
| Cls : (char -> bool) -> regex
| Seq : regex -> regex -> regex
| Alt : regex -> regex -> regex
| Star : regex -> regex
| WordB : regex.

Definition is_word_at (c : option char) : bool :=
  match c with
  | Some c => Py.isword c
  | None => false
  end.

(** The iterations of a star whose body is matched by [m]: one more
    iteration is tried before stopping, and no iteration is empty, so that
    [n], at least the length of [s], bounds their number. *)
Fixpoint star_loop
         (m : option char -> text ->
              (option char -> text -> option text) -> option text)
         (k : option char -> text -> option text)
         (n : nat) (prev : option char) (s : text) : option text :=
  match n with
  | O => k prev s
  | S n' =>
      match m prev s
              (fun p' s' =>
                 if length s' <? length s then star_loop m k n' p' s'
                 else None)
      with
      | Some x => Some x
      | None => k prev s
      end
  end.

(** [rmatch r prev s k]: match [r] at the head of [s], [prev] being the
    character before it, and hand the rest to [k]; on failure of [k] the
    next alternative is tried. *)
Fixpoint rmatch (r : regex) (prev : option char) (s : text)
         (k : option char -> text -> option text) {struct r} : option text :=
  match r with
  | Eps => k prev s
  | Cls p =>
      match s with
      | c :: s' => if p c then k (Some c) s' else None
      | [] => None
      end
  | Seq r1 r2 => rmatch r1 prev s (fun p' s' => rmatch r2 p' s' k)
  | Alt r1 r2 =>
      match rmatch r1 prev s k with
      | Some x => Some x
      | None => rmatch r2 prev s k
      end
  | Star r1 => star_loop (rmatch r1) k (length s) prev s
  | WordB =>
      if xorb (is_word_at prev) (is_word_at (hd_error s))
      then k prev s else None
  end.

(** The match of [r] at the head of [s], if any: the matched text. *)
Definition match_at (r : regex) (prev : option char) (s : text)
  : option text :=
  match rmatch r prev s (fun _ s' => Some s') with
  | Some rest => Some (firstn (length s - length rest) s)
  | None => None
  end.

(** [re.search(r, s)]: group 0 of the leftmost match. *)
Fixpoint search_from (r : regex) (prev : option char) (s : text)
  : option text :=
  match match_at r prev s with
  | Some m => Some m
  | None =>
      match s with
      | [] => None
      | c :: s' => search_from r (Some c) s'
      end
  end.

Definition search (r : regex) (s : text) : option text :=
  search_from r None s.

(** [re.findall(r, s)], group 0 of every match, from the left and without
    overlap. [skip] is the number of characters of the last match still to
    be passed over. *)
Fixpoint findall_from (r : regex) (prev : option char) (skip : nat)
         (s : text) : list text :=
  match skip with
  | S k =>
      match s with
      | [] => []
      | c :: s' => findall_from r (Some c) k s'
      end
  | O =>
      match match_at r prev s with
      | Some m =>
          m :: match s with
               | [] => []
               | c :: s' => findall_from r (Some c) (pred (length m)) s'
               end
      | None =>
          match s with
          | [] => []
          | c :: s' => findall_from r (Some c) 0 s'
          end
      end
  end.

Definition findall (r : regex) (s : text) : list text :=
  findall_from r None 0 s.

(** [re.sub(r, repl, s)] with a literal replacement. *)
Fixpoint sub_from (r : regex) (repl : text) (prev : option char)
         (skip : nat) (s : text) : text :=
  match skip with
  | S k =>
      match s with
      | [] => []
      | c :: s' => sub_from r repl (Some c) k s'
      end
  | O =>
      match match_at r prev s with
      | Some m =>
          repl ++ match s with
                  | [] => []
                  | c :: s' =>
                      (match m with [] => [c] | _ :: _ => [] end)
                        ++ sub_from r repl (Some c) (pred (length m)) s'
                  end
      | None =>
          match s with
          | [] => []
          | c :: s' => c :: sub_from r repl (Some c) 0 s'
          end
      end
  end.

Definition sub (r : regex) (repl s : text) : text :=
  sub_from r repl None 0 s.

(** *** Pattern syntax *)

(** The character [c]. *)
Definition chr (c : char) : regex :=
  Cls (fun x => if char_dec x c then true else false).

(** The characters of [s] in a row. *)
Fixpoint lit (s : text) : regex :=
  match s with
  | [] => Eps
  | [c] => chr c
  | c :: s' => Seq (chr c) (lit s')
  end.

(** [r+] *)
Definition plus (r : regex) : regex := Seq r (Star r).

(** [r?] *)
Definition opt (r : regex) : regex := Alt r Eps.

(** [r1|r2|...], the first alternative first. *)
Fixpoint alts (rs : list regex) : regex :=
  match rs with
  | [] => Cls (fun _ => false)
  | [r] => r
  | r :: rs' => Alt r (alts rs')
  end.

(** [r1 r2 ...] *)
Fixpoint seqs (rs : list regex) : regex :=
  match rs with
  | [] => Eps
  | [r] => r
  | r :: rs' => Seq r (seqs rs')
  end.

(** [\d] *)
Definition d : regex := Cls Py.isdecimal.

(** [\s] *)
Definition s_ : regex := Cls Py.isspace.

(** A literal word of a pattern. *)
Definition word (w : string) : regex := lit (T w).

(** [re.escape(s)] compiled: the pattern that matches [s] literally. *)
Definition escape (s : text) : regex := lit s.

End Re.

(** ** Python values and exceptions *)

(** The exceptions the scripts can raise. *)
Inductive exn : Type :=
| AttributeError
| RuntimeError
| IndexError
| ValueError.

(** The outcome of an operation that returns a value or raises. *)
Inductive result (A : Type) : Type :=
| Ok (a : A)
| Raise (e : exn).

Arguments Ok {A} a.
Arguments Raise {A} e.

Definition bind {A B : Type} (m : result A) (f : A -> result B) : result B :=
  match m with
  | Ok a => f a
  | Raise e => Raise e
  end.

Notation "x <- m ;; f" := (bind m (fun x => f))
  (at level 61, m at next level, right associativity).

#[local] Unset Elimination Schemes.

(** What [json.loads] delivers, and what a cell of a [csv.DictReader] row
    holds ([PStr], or [PNone] for a field the line does not have). A number
    is an integer or a finite float; the pairs of a [PDict] are in insertion
    order, with distinct keys. *)
Inductive pyval : Type :=
| PNone
| PBool (b : bool)
| PNum (q : Q)
| PStr (s : text)
| PList (l : list pyval)
| PDict (d : list (text * pyval)).

#[local] Set Elimination Schemes.

Definition nonempty_list {A : Type} (l : list A) : bool :=
  match l with [] => false | _ :: _ => true end.

Definition nonempty (s : text) : bool := nonempty_list s.

(** Truth value of [v], as in [v or x] and [if v]. *)
Definition truthy (v : pyval) : bool :=
  match v with
  | PNone => false
  | PBool b => b
  | PNum q => negb (Qeq_bool q 0)
  | PStr s => nonempty_list s
  | PList l => nonempty_list l
  | PDict d => nonempty_list d
  end.

Module Dict.

Fixpoint get {V : Type} (k : text) (d : list (text * V)) : option V :=
  match d with
  | [] => None
  | (k', v) :: d' => if text_eqb k k' then Some v else get k d'
  end.

(** [d[k] = v]: the value of an existing key is replaced in place, a new
    key goes to the end. *)
Fixpoint set {V : Type} (k : text) (v : V) (d : list (text * V))
  : list (text * V) :=
  match d with
  | [] => [(k, v)]
  | (k', v') :: d' =>
      if text_eqb k k' then (k, v) :: d' else (k', v') :: set k v d'
  end.

Definition keys {V : Type} (d : list (text * V)) : list text :=
  map fst d.

End Dict.

(** [v.get(k, default)]: only a dict has the method. *)
Definition py_get (v : pyval) (k : text) (default : pyval) : result pyval :=
  match v with
  | PDict d =>
      match Dict.get k d with
      | Some x => Ok x
      | None => Ok default
      end
  | _ => Raise AttributeError
  end.

(** [v.items()]: only a dict has the method. *)
Definition py_items (v : pyval) : result (list (text * pyval)) :=
  match v with
  | PDict d => Ok d
  | _ => Raise AttributeError
  end.

(** ** Configuration *)

Definition COL_PAYLOAD : text := T "Payload".
Definition COL_MANUAL : text := T "Manual Spec".
Definition COL_STATUS : text := T "Scrape Status".
Definition COL_COMPARISON : text := T "Comparison Confirmation".

Definition REQUIRED_COLUMNS : list text := [COL_PAYLOAD; COL_MANUAL; COL_STATUS].

(** ** Normalization (the same in the two scripts) *)

Definition en_dash : text := T "–".

(** [normalize_value(v)] for a [str] argument. *)
Definition normalize_value (v : text) : text :=
  let v := Py.strip (Py.lower v) in
  let v := Py.replace en_dash (T "-") v in
  let v := Re.sub (Re.plus Re.s_) (T " ") v in
  let v := Py.replace (T " w") (T "w") (Py.replace (T " watt") (T "w") v) in
  let v := Py.replace (T " lm") (T "lm") v in
  let v := Py.replace (T " k") (T "k") v in
  v.

(** [normalize_value(v)] for any argument: [v or ""] lets every false value
    through as the empty string, and [.lower()] exists on a [str] only. *)
Definition normalize_value_dyn (v : pyval) : result text :=
  if truthy v then
    match v with
    | PStr s => Ok (normalize_value s)
    | _ => Raise AttributeError
    end
  else Ok (normalize_value []).

Definition normalize (v : pyval) : result text := normalize_value_dyn v.

(** ** Specification extraction (the same in the two scripts) *)

(** [payload_json.get("verified", {}).get("specification", {}) or {}],
    every exception being turned into the empty dict. *)
Definition extract_specification (payload_json : pyval) : pyval :=
  match
    (verified <- py_get payload_json (T "verified") (PDict []) ;;
     specification <- py_get verified (T "specification") (PDict []) ;;
     Ok (if truthy specification then specification else PDict []))
  with
  | Ok v => v
  | Raise _ => PDict []
  end.

(** ** Attribute matching (the same in the two scripts) *)

(** [(\d+(\.\d+)?\s*(w|k|lm))]. The code reads group 1 of every match,
    which is the whole match. *)
Definition num_unit_pattern : Re.regex :=
  Re.seqs [Re.plus Re.d;
           Re.opt (Re.Seq (Re.chr ".") (Re.plus Re.d));
           Re.Star Re.s_;
           Re.alts [Re.word "w"; Re.word "k"; Re.word "lm"]].

(** The inner loop of the numeric test: the first manual token that, spaces
    removed, differs from [w_clean]. *)
Fixpoint conflict_in (w_clean : text) (manual_nums : list text) : option text :=
  match manual_nums with
  | [] => None
  | m :: rest =>
      let m_clean := Py.replace (T " ") [] m in
      if negb (text_eqb w_clean m_clean) then Some m_clean
      else conflict_in w_clean rest
  end.

(** The outer loop: the workflow tokens in turn. *)
Fixpoint conflict (workflow_nums manual_nums : list text) : option text :=
  match workflow_nums with
  | [] => None
  | w :: rest =>
      match conflict_in (Py.replace (T " ") [] w) manual_nums with
      | Some m_clean => Some m_clean
      | None => conflict rest manual_nums
      end
  end.

Definition is_some {A : Type} (o : option A) : bool :=
  match o with Some _ => true | None => false end.

Section Matcher.

(** [fuzz.partial_ratio], a score between 0 and 100. *)
Variable partial_ratio : text -> text -> Q.

(** Returns [(is_match, mismatch_value)]. *)
Definition compare_attribute (workflow_val manual_text : text)
  : bool * option text :=
  let workflow_norm := normalize_value workflow_val in
  let manual_norm := normalize_value manual_text in
  if nonempty workflow_norm
     && is_some (Re.search (Re.escape workflow_norm) manual_norm)
  then (true, None)
  else
    let workflow_nums := Re.findall num_unit_pattern workflow_norm in
    let manual_nums := Re.findall num_unit_pattern manual_norm in
    match
      (if nonempty_list workflow_nums && nonempty_list manual_nums
       then conflict workflow_nums manual_nums else None)
    with
    | Some m_clean => (false, Some m_clean)
    | None =>
        if Qle_bool 85 (partial_ratio workflow_norm manual_norm)
        then (true, None)
        else (false, None)
    end.

End Matcher.

(** ** Report entries and the response (the same in the two scripts) *)

(** [f"{head}\n  Manual: {manual}\n  Workflow: {workflow}"] *)
Definition entry (head manual workflow : text) : text :=
  head ++ nl :: T "  Manual: " ++ manual ++ nl :: T "  Workflow: " ++ workflow.

(** [label + "\n- " + "\n- ".join(items)] *)
Definition section_text (label : text) (items : list text) : text :=
  label ++ nl :: T "- " ++ Py.join (nl :: T "- ") items.

Definition MATCHED_LABEL : text := T "✅ Matched:".
Definition MISMATCHED_LABEL : text := T "⚠️ Mismatched:".
Definition MISSING_LABEL : text := T "❌ Missing:".
Definition NO_SPECIFICATIONS : text := T "✅ No specifications detected".

(** The last lines of [compare]: [parts] grows by one section for every
    collection that is not empty. *)
Definition build_response (matched mismatched missing : list text) : text :=
  let parts := [] in
  let parts :=
    if nonempty_list matched
    then parts ++ [section_text MATCHED_LABEL matched] else parts in
  let parts :=
    if nonempty_list mismatched
    then parts ++ [section_text MISMATCHED_LABEL mismatched] else parts in
  let parts :=
    if nonempty_list missing
    then parts ++ [section_text MISSING_LABEL missing] else parts in
  if nonempty_list parts then Py.join [nl; nl] parts else NO_SPECIFICATIONS.

(** The three collections of a comparison. *)
Record collections : Type := Collections {
  matched : list text;
  mismatched : list text;
  missing : list text
}.

(** The value put in [f"{key}: {val}"]. The line is reached with a [str]
    only: [normalize_value] has raised on a true value of another type, and a
    false value has been skipped. *)
Definition str_of (v : pyval) : text :=
  match v with
  | PStr s => s
  | _ => []
  end.

(** A [for] loop whose body can raise. *)
Fixpoint for_each {A S : Type} (body : S -> A -> result S) (l : list A) (st : S)
  : result S :=
  match l with
  | [] => Ok st
  | x :: l' => st' <- body st x ;; for_each body l' st'
  end.

(** ** compareScript.py: the named-attribute variant *)

Module CompareScript.

(** The table [patterns] of [extract_manual_attributes], in its order. *)
Definition patterns : list (text * Re.regex) :=
  [ (T "brand",
     Re.seqs [Re.WordB; Re.word "brand";
              Re.plus (Re.Cls (fun c => char_eqb c ":" || char_eqb c " "));
              Re.plus (Re.Cls (fun c => Py.between "a" "z" c
                                        || Py.between "0" "9" c
                                        || Py.isspace c))]);
    (T "wattage",
     Re.seqs [Re.plus Re.d; Re.opt (Re.Seq (Re.chr ".") (Re.plus Re.d));
              Re.chr "w"]);
    (T "lumens", Re.seqs [Re.plus Re.d; Re.word "lm"]);
    (T "colour temperature",
     Re.alts [Re.seqs [Re.d; Re.d; Re.d; Re.opt Re.d; Re.chr "k"];
              Re.word "warm white"; Re.word "cool white"; Re.word "daylight"]);
    (T "cap fitting",
     Re.seqs [Re.WordB; Re.alts [Re.word "b22"; Re.word "e27"; Re.word "e14"];
              Re.WordB]);
    (T "dimmable", Re.seqs [Re.WordB; Re.word "dimmable"; Re.WordB]);
    (T "guarantee", Re.seqs [Re.plus Re.d; Re.Star Re.s_; Re.word "year"]) ].

(** [detected], as the list of its items. *)
Definition extract_manual_attributes (manual_text : pyval)
  : result (list (text * text)) :=
  manual <- normalize_value_dyn manual_text ;;
  Ok (flat_map
        (fun p : text * Re.regex =>
           match Re.search (snd p) manual with
           | Some m => [(fst p, m)]
           | None => []
           end)
        patterns).

Section Compare.

Variable partial_ratio : text -> text -> Q.

(** The body of the loop over [spec.items()]. *)
Definition workflow_step (manual : text) (acc : collections)
           (item : text * pyval) : result collections :=
  let (key, val) := item in
  val_norm <- normalize_value_dyn val ;;
  if negb (nonempty val_norm) then Ok acc
  else
    let (is_match, mismatch_value) :=
      compare_attribute partial_ratio val_norm manual in
    if is_match then
      Ok (Collections (matched acc ++ [key ++ T ": " ++ str_of val])
                      (mismatched acc) (missing acc))
    else
      match mismatch_value with
      | Some (c :: v) =>
          Ok (Collections (matched acc)
                (mismatched acc ++ [entry key (c :: v) val_norm])
                (missing acc))
      | _ =>
          Ok (Collections (matched acc) (mismatched acc)
                (missing acc ++ [entry key (T "Not detected") val_norm]))
      end.

(** The body of the loop over [manual_attrs.items()]. *)
Definition manual_step (keys : list text) (missing : list text)
           (item : text * text) : list text :=
  let (attr_name, manual_value) := item in
  if negb (existsb (fun k => Py.contains attr_name (Py.lower k)) keys)
  then missing ++ [entry (Py.title attr_name) manual_value (T "Not found")]
  else missing.

(** The three collections at the end of the two loops. *)
Definition classify (manual_text payload_json : pyval)
  : result collections :=
  manual <- normalize manual_text ;;
  let spec := extract_specification payload_json in
  items <- py_items spec ;;
  acc <- for_each (workflow_step manual) items (Collections [] [] []) ;;
  manual_attrs <- extract_manual_attributes manual_text ;;
  Ok (Collections (matched acc) (mismatched acc)
        (fold_left (manual_step (Dict.keys items)) manual_attrs
                   (missing acc))).

Definition compare (manual_text payload_json : pyval) : result text :=
  c <- classify manual_text payload_json ;;
  Ok (build_response (matched c) (mismatched c) (missing c)).

End Compare.

End CompareScript.

(** ** compareScriptFuzzy.py: the value-set variant *)

(** A Python [set] of strings, as the list of its distinct elements. *)
Module StrSet.

Definition mem (x : text) (s : list text) : bool := existsb (text_eqb x) s.

(** [s.add(x)] *)
Definition add (x : text) (s : list text) : list text :=
  if mem x s then s else s ++ [x].

(** [s.update(xs)] *)
Definition update (s : list text) (xs : list text) : list text :=
  fold_left (fun s x => add x s) xs s.

(** [a - b] *)
Definition diff (a b : list text) : list text :=
  filter (fun x => negb (mem x b)) a.

End StrSet.

Module CompareScriptFuzzy.

Definition IGNORE_ATTRIBUTES : list text :=
  [T "category"; T "image 1"; T "image 2"; T "image 3"; T "image 4"].

(** A number with an optional decimal part: [\d+(?:\.\d+)?] *)
Definition decimal : Re.regex :=
  Re.Seq (Re.plus Re.d) (Re.opt (Re.Seq (Re.chr ".") (Re.plus Re.d))).

Definition numeric_patterns : list Re.regex :=
  [ Re.seqs [decimal; Re.chr "w"; Re.WordB];
    Re.seqs [Re.plus Re.d; Re.word "lm"; Re.WordB];
    Re.seqs [Re.d; Re.d; Re.d; Re.opt Re.d; Re.chr "k"; Re.WordB];
    Re.seqs [Re.plus Re.d;
             Re.Star (Re.seqs [Re.chr ","; Re.d; Re.d; Re.d]);
             Re.Star Re.s_; Re.word "hour"; Re.opt (Re.chr "s"); Re.WordB];
    Re.seqs [Re.plus Re.d; Re.Star Re.s_; Re.word "year";
             Re.opt (Re.chr "s"); Re.WordB];
    Re.seqs [decimal; Re.Star Re.s_; Re.chr "v"; Re.WordB];
    Re.seqs [decimal; Re.Star Re.s_; Re.word "mm"; Re.WordB];
    Re.seqs [decimal; Re.Star Re.s_; Re.chr "g"; Re.WordB];
    Re.seqs [decimal; Re.Star Re.s_; Re.word "mhz"; Re.WordB] ].

Definition cap_fittings_pattern : Re.regex :=
  Re.seqs [Re.WordB;
           Re.alts [Re.word "b22"; Re.word "e27"; Re.word "e14";
                    Re.word "gu10"; Re.word "g9"; Re.word "integrated"];
           Re.WordB].

Definition colors_pattern : Re.regex :=
  Re.seqs [Re.WordB;
           Re.alts [Re.word "warm white"; Re.word "cool white";
                    Re.word "daylight"; Re.word "rgb"; Re.word "blue";
                    Re.word "red"; Re.word "green"];
           Re.WordB].

Definition dimmable_pattern : Re.regex :=
  Re.seqs [Re.WordB; Re.word "dimmable"; Re.WordB].

(** The set [values]. *)
Definition extract_manual_values (manual_text : pyval) : result (list text) :=
  manual <- normalize_value_dyn manual_text ;;
  let values := [] in
  let values :=
    fold_left (fun values pattern =>
                 StrSet.update values (Re.findall pattern manual))
              numeric_patterns values in
  let values := StrSet.update values (Re.findall cap_fittings_pattern manual) in
  let values := StrSet.update values (Re.findall colors_pattern manual) in
  let values :=
    if is_some (Re.search dimmable_pattern manual)
    then StrSet.add (T "dimmable") values else values in
  Ok values.

Section Compare.

Variable partial_ratio : text -> text -> Q.

(** The state of the first loop: the collections and [matched_values]. *)
Definition state : Type := (collections * list text)%type.

(** The body of the loop over [spec.items()]. *)
Definition workflow_step (manual : text) (st : state)
           (item : text * pyval) : result state :=
  let (acc, matched_values) := st in
  let (key, val) := item in
  let key_norm := Py.strip (Py.lower key) in
  val_norm <- normalize_value_dyn val ;;
  if StrSet.mem key_norm IGNORE_ATTRIBUTES then Ok st
  else if negb (nonempty val_norm) then Ok st
  else
    let (is_match, mismatch_value) :=
      compare_attribute partial_ratio val_norm manual in
    if is_match then
      Ok (Collections (matched acc ++ [key ++ T ": " ++ str_of val])
                      (mismatched acc) (missing acc),
          StrSet.add val_norm matched_values)
    else
      match mismatch_value with
      | Some (c :: v) =>
          Ok (Collections (matched acc)
                (mismatched acc ++ [entry key (c :: v) val_norm])
                (missing acc),
              matched_values)
      | _ =>
          Ok (Collections (matched acc) (mismatched acc)
                (missing acc ++ [entry key (T "Not detected") val_norm]),
              matched_values)
      end.

(** The body of the loop over [sorted(unmatched_manual_values)]. *)
Definition manual_step (matched_values : list text) (missing : list text)
           (manual_val : text) : list text :=
  let is_similar :=
    existsb (fun workflow_val =>
               Qle_bool 85 (partial_ratio manual_val workflow_val))
            matched_values in
  if negb is_similar
  then missing ++ [entry (T "Unmatched Manual Value") manual_val
                         (T "Not found")]
  else missing.

(** The collections and [matched_values] at the end of the two loops. *)
Definition classify (manual_text payload_json : pyval) : result state :=
  manual <- normalize manual_text ;;
  let spec := extract_specification payload_json in
  items <- py_items spec ;;
  st <- for_each (workflow_step manual) items (Collections [] [] [], []) ;;
  let (acc, matched_values) := st in
  manual_values <- extract_manual_values manual_text ;;
  let unmatched_manual_values := StrSet.diff manual_values matched_values in
  Ok (Collections (matched acc) (mismatched acc)
        (fold_left (manual_step matched_values)
                   (Py.sorted unmatched_manual_values) (missing acc)),
      matched_values).

Definition compare (manual_text payload_json : pyval) : result text :=
  st <- classify manual_text payload_json ;;
  let c := fst st in
  Ok (build_response (matched c) (mismatched c) (missing c)).

End Compare.

End CompareScriptFuzzy.

(** ** Rows (the same in the two scripts) *)

Definition row : Type := list (text * pyval).

Definition NOT_APPLICABLE : text := T "Not Applicable".

Section Process.

(** [json.loads]: [None] when it raises. *)
Variable json_loads : pyval -> option pyval.

(** [compare] of the script at hand. *)
Variable compare : pyval -> pyval -> result text.

(** [v.strip().lower()]: only a [str] has the methods. *)
Definition strip_lower (v : pyval) : result text :=
  match v with
  | PStr s => Ok (Py.lower (Py.strip s))
  | _ => Raise AttributeError
  end.

(** [row.get(k, "")] *)
Definition row_get (r : row) (k : text) : pyval :=
  match Dict.get k r with
  | Some v => v
  | None => PStr []
  end.

(** The body of the loop over the rows: the row as it is appended to
    [rows]. *)
Definition process_row (r : row) : result row :=
  status <- strip_lower (row_get r COL_STATUS) ;;
  if negb (text_eqb status (T "success"))
  then Ok (Dict.set COL_COMPARISON (PStr NOT_APPLICABLE) r)
  else
    match
      match Dict.get COL_PAYLOAD r with
      | Some cell => json_loads cell
      | None => None
      end
    with
    | None => Ok (Dict.set COL_COMPARISON (PStr NOT_APPLICABLE) r)
    | Some payload =>
        let manual_spec := row_get r COL_MANUAL in
        report <- compare manual_spec payload ;;
        Ok (Dict.set COL_COMPARISON (PStr report) r)
    end.

(** [csv.DictWriter(f, fieldnames=rows[0].keys())] with [writeheader] and
    [writerows]: the lines handed to the writer, the header first. There is
    no first row to take the field names from when [rows] is empty; a row
    with a key that is not a field name is refused, and a field that a row
    does not have is written empty. *)
Definition write_rows (rows : list row) : result (list (list pyval)) :=
  match rows with
  | [] => Raise IndexError
  | first :: _ =>
      let fieldnames := Dict.keys first in
      lines <- for_each
                 (fun out r =>
                    if forallb (fun k => StrSet.mem k fieldnames) (Dict.keys r)
                    then Ok (out ++ [map (row_get r) fieldnames])
                    else Raise ValueError)
                 rows [] ;;
      Ok (map PStr fieldnames :: lines)
  end.

(** [process], from the header and the rows read (a row being the fields of
    a line under the names of the header) to the rows written. *)
Definition process (fieldnames : list text) (rows : list row)
  : result (list row) :=
  if forallb (fun c => StrSet.mem c fieldnames) REQUIRED_COLUMNS
  then
    rows <- for_each (fun out r => r' <- process_row r ;; Ok (out ++ [r']))
                     rows [] ;;
    _ <- write_rows rows ;;
    Ok rows
  else Raise RuntimeError.

End Process.

(** ** Predicates used in the proofs *)

(** The first character is not white space. *)
Definition starts_ok (s : text) : bool :=
  match s with [] => true | c :: _ => negb (Py.isspace c) end.

(** The last character is not white space; [prev_ws] tells whether the
    character before the text is. *)
Fixpoint ends_ok (prev_ws : bool) (s : text) : bool :=
  match s with [] => negb prev_ws | c :: s' => ends_ok (Py.isspace c) s' end.

(** Every run of white space replaced by one space, written by structural
    recursion; [inrun] tells whether a run is under way. *)
Fixpoint squeeze (inrun : bool) (s : text) : text :=
  match s with
  | [] => []
  | c :: s' =>
      if Py.isspace c
      then (if inrun then squeeze true s' else sp :: squeeze true s')
      else c :: squeeze false s'
  end.

(** White space is written with spaces only. *)
Definition plain (c : char) : Prop := Py.isspace c = true -> c = sp.

(** A character [str.lower] leaves as it is. *)
Definition notupper (c : char) : Prop := Py.changes c = false.

(** The code points from [lo] to [hi]. *)
Definition enum (lo hi : N) : list char :=
  map (fun i => (lo + N.of_nat i)%N) (seq 0 (S (N.to_nat (hi - lo)))).

(** A character that [str.lower] leaves alone and that is neither cased nor
    case-ignorable. *)
Definition neutral (c : char) : bool :=
  negb (Py.changes c) && negb (Py.cased c) && negb (Py.case_ignorable c).

(** A character that [str.lower] leaves alone and that is not white
    space. *)
Definition lowered (c : char) : bool :=
  negb (Py.changes c) && negb (Py.isspace c).

(** A text the normalization leaves as it is: no character that [str.lower]
    changes, no white
    space at either end or other than single spaces, no en-dash, and no space
    before [w], [lm] or [k]. *)
Record normal (s : text) : Prop := Normal {
  normal_lower : Forall notupper s;
  normal_start : starts_ok s = true;
  normal_end : ends_ok false s = true;
  normal_plain : Forall plain s;
  normal_single : Py.contains [sp; sp] s = false;
  normal_dash : Py.contains en_dash s = false;
  normal_w : Py.contains (T " w") s = false;
  normal_lm : Py.contains (T " lm") s = false;
  normal_k : Py.contains (T " k") s = false
}.

(** What the first three steps of the normalization establish and the unit
    replacements keep. *)
Record tidy (s : text) : Prop := Tidy {
  tidy_lower : Forall notupper s;
  tidy_start : starts_ok s = true;
  tidy_end : ends_ok false s = true;
  tidy_plain : Forall plain s;
  tidy_single : Py.contains [sp; sp] s = false;
  tidy_dash : Py.contains en_dash s = false
}.

(** The characters of a unit: lower case, no white space, not in the
    en-dash. *)
Definition unit_char (c : char) : bool :=
  negb (Py.changes c) && negb (Py.isspace c)
  && negb (existsb (char_eqb c) en_dash).

(** ** The rules of the matcher and the report, as the specification words
    them *)

(** Rule 1 of the matcher fires: the normalized workflow value is not empty
    and occurs in the normalized manual text. *)
Definition substring_rule (workflow_val manual_text : text) : bool :=
  nonempty (normalize_value workflow_val)
  && is_some (Re.search (Re.escape (normalize_value workflow_val))
                        (normalize_value manual_text)).

(** Rule 2 of the matcher: the conflict value it finds, if it fires. *)
Definition numeric_rule (workflow_val manual_text : text) : option text :=
  let workflow_nums := Re.findall num_unit_pattern (normalize_value workflow_val) in
  let manual_nums := Re.findall num_unit_pattern (normalize_value manual_text) in
  if nonempty_list workflow_nums && nonempty_list manual_nums
  then conflict workflow_nums manual_nums else None.

(** A section as the report shows it: the label on a line, then every entry
    on a line of its own after a dash and a space; no section for no
    entry. *)
Definition labelled (label : text) (items : list text) : list text :=
  match items with
  | [] => []
  | _ :: _ => [label ++ flat_map (fun item => nl :: T "- " ++ item) items]
  end.

(** The sections of a report set one after the other, a blank line between
    two of them. *)
Definition stacked (sections : list text) : text :=
  match sections with
  | [] => []
  | p :: ps => p ++ flat_map (fun q => nl :: nl :: q) ps
  end.

(** The status of a row as [process] reads it: [Some] of the field, trimmed
    and case-folded, when the field is a string. *)
Definition status_of (r : row) : option text :=
  match row_get r COL_STATUS with
  | PStr s => Some (Py.lower (Py.strip s))
  | _ => None
  end.

(** The payload of a row does not parse. *)
Definition payload_unparsed (json_loads : pyval -> option pyval) (r : row)
  : bool :=
  match Dict.get COL_PAYLOAD r with
  | Some cell => negb (is_some (json_loads cell))
  | None => true
  end.

(** A row is not compared: its status is a string other than "success", or
    its status is "success" and its payload does not parse. *)
Definition not_applicable (json_loads : pyval -> option pyval) (r : row)
  : bool :=
  match status_of r with
  | Some st =>
      negb (text_eqb st (T "success")) || payload_unparsed json_loads r
  | None => false
  end.

(** The row [csv.DictReader] makes of the line [not json] under the header
    [Payload,Manual Spec,Scrape Status]: the fields the line does not have
    are [None]. *)
Definition short_row : row :=
  [(COL_PAYLOAD, PStr (T "not json")); (COL_MANUAL, PNone);
   (COL_STATUS, PNone)].

(** A row of a failed scrape. *)
Definition failed_row : row :=
  [(COL_PAYLOAD, PStr (T "{}")); (COL_MANUAL, PStr (T "A bright 10w bulb"));
   (COL_STATUS, PStr (T " Failed "))].

(** [{"verified": {"specification": spec}}] *)
Definition payload_of (spec : pyval) : pyval :=
  PDict [(T "verified", PDict [(T "specification", spec)])].

(** A row of a successful scrape, with some payload text and manual text. *)
Definition success_row (payload manual : text) : row :=
  [(COL_PAYLOAD, PStr payload); (COL_MANUAL, PStr manual);
   (COL_STATUS, PStr (T "Success"))].

(** ** The language of a pattern *)

(** The texts a pattern can match, word boundaries left aside: the matcher
    only returns matches that are in it. *)
Inductive lang : Re.regex -> text -> Prop :=
| lang_eps : lang Re.Eps []
| lang_cls (p : char -> bool) (c : char) : p c = true -> lang (Re.Cls p) [c]
| lang_seq (r1 r2 : Re.regex) (a b : text) :
    lang r1 a -> lang r2 b -> lang (Re.Seq r1 r2) (a ++ b)
| lang_alt_l (r1 r2 : Re.regex) (a : text) :
    lang r1 a -> lang (Re.Alt r1 r2) a
| lang_alt_r (r1 r2 : Re.regex) (a : text) :
    lang r2 a -> lang (Re.Alt r1 r2) a
| lang_star_nil (r : Re.regex) : lang (Re.Star r) []
| lang_star_cons (r : Re.regex) (a b : text) :
    lang r a -> lang (Re.Star r) b -> lang (Re.Star r) (a ++ b)
| lang_wordb : lang Re.WordB [].

(** What [m] matches is a prefix of the text, in the language of [r], and
    the continuation has accepted the rest. *)
Definition sound_for (r : Re.regex)
           (m : option char -> text ->
                (option char -> text -> option text) -> option text) : Prop :=
  forall prev s k x,
    m prev s k = Some x ->
    exists a s' p', s = a ++ s' /\ lang r a /\ k p' s' = Some x.

(** A token with its internal spaces removed. *)
Definition clean (t : text) : text := Py.replace (T " ") [] t.

(** The manual token of the first pair of tokens, spaces removed, that
    differ, the pairs being taken workflow token by workflow token. *)
Definition first_differing (workflow_nums manual_nums : list text)
  : option text :=
  option_map snd
    (find (fun p => negb (text_eqb (fst p) (snd p)))
          (list_prod (map clean workflow_nums) (map clean manual_nums))).

(** ** The outcome of a workflow attribute *)

Inductive outcome : Type :=
| Skipped
| Matched
| Mismatched (conflict_value : text)
| Missing.

(** The normalized value of an attribute that has one. *)
Definition norm_of (val : pyval) : text :=
  match normalize_value_dyn val with
  | Ok t => t
  | Raise _ => []
  end.

(** [normalize_value] returns on [val]: a string or a false value. *)
Definition normalizable (val : pyval) : bool :=
  match normalize_value_dyn val with
  | Ok _ => true
  | Raise _ => false
  end.

Section Outcome.

Variable partial_ratio : text -> text -> Q.

(** The outcome of an attribute of normalized value [val_norm] against the
    normalized manual text, in the named-attribute variant. *)
Definition outcome_of (manual val_norm : text) : outcome :=
  if nonempty val_norm then
    match compare_attribute partial_ratio val_norm manual with
    | (true, _) => Matched
    | (false, Some (c :: v)) => Mismatched (c :: v)
    | (false, _) => Missing
    end
  else Skipped.

(** The same in the value-set variant, which leaves the ignored attributes
    out. *)
Definition outcome_fuzzy (manual key val_norm : text) : outcome :=
  if StrSet.mem (Py.strip (Py.lower key)) CompareScriptFuzzy.IGNORE_ATTRIBUTES
  then Skipped
  else outcome_of manual val_norm.

End Outcome.

(** What an attribute with outcome [o] adds to the collections: one entry
    in the collection of its outcome, nothing when it is skipped. *)
Definition contribution (o : outcome) (item : text * pyval) : collections :=
  let (key, val) := item in
  match o with
  | Skipped => Collections [] [] []
  | Matched => Collections [key ++ T ": " ++ str_of val] [] []
  | Mismatched c => Collections [] [entry key c (norm_of val)] []
  | Missing => Collections [] [] [entry key (T "Not detected") (norm_of val)]
  end.

(** The number of entries of three collections. *)
Definition size (c : collections) : nat :=
  length (matched c) + length (mismatched c) + length (missing c).

(** Collection by collection. *)
Definition cat (a b : collections) : collections :=
  Collections (matched a ++ matched b) (mismatched a ++ mismatched b)
              (missing a ++ missing b).

(** The contributions of the items, in their order. *)
Definition collect (f : text * pyval -> collections)
           (items : list (text * pyval)) : collections :=
  fold_left (fun acc item => cat acc (f item)) items (Collections [] [] []).

(** [matched_values] after an attribute with outcome [o]. *)
Definition track (o : outcome) (val_norm : text) (matched_values : list text)
  : list text :=
  match o with
  | Matched => StrSet.add val_norm matched_values
  | _ => matched_values
  end.

(** The contribution of an item in the named-attribute variant. *)
Definition named_contribution (partial_ratio : text -> text -> Q)
           (manual : text) (item : text * pyval) : collections :=
  contribution (outcome_of partial_ratio manual (norm_of (snd item))) item.

(** The contribution of an item in the value-set variant. *)
Definition fuzzy_contribution (partial_ratio : text -> text -> Q)
           (manual : text) (item : text * pyval) : collections :=
  contribution (outcome_fuzzy partial_ratio manual (fst item)
                              (norm_of (snd item))) item.

(** ** Example inputs *)

(** A scorer that finds nothing similar. *)
Definition no_similarity (a b : text) : Q := 0%Q.

(** [{"Wattage": "10W", "Colour": "", "Category": "Bulbs",
      "Dimmable": "Dimmable"}] *)
Definition bulb_items : list (text * pyval) :=
  [(T "Wattage", PStr (T "10W")); (T "Colour", PStr []);
   (T "Category", PStr (T "Bulbs")); (T "Dimmable", PStr (T "Dimmable"))].

Definition bulb_manual : text := T "A bright 9w bulb, dimmable".

(** [{"Category": "Bulbs"}] *)
Definition category_items : list (text * pyval) :=
  [(T "Category", PStr (T "Bulbs"))].

(** [{"Wattage": "10W"}] *)
Definition wattage_items : list (text * pyval) :=
  [(T "Wattage", PStr (T "10W"))].

(** ** Further notions for the statements *)

(** The value at [verified.specification] of a payload, when the payload
    and [verified] are objects that have the keys. *)
Definition specification_at (payload : pyval) : option pyval :=
  match payload with
  | PDict d =>
      match Dict.get (T "verified") d with
      | Some (PDict v) => Dict.get (T "specification") v
      | _ => None
      end
  | _ => None
  end.

(** The conditions under which [compare] returns: the manual text is a string
    or a false value, the extracted specification is a mapping, and each of
    its values is a string or a false value. *)
Definition compare_returns (manual_text payload : pyval) : bool :=
  normalizable manual_text
  && match py_items (extract_specification payload) with
     | Ok items => forallb (fun item => normalizable (snd item)) items
     | Raise _ => false
     end.

(** Two rows that differ by the comparison field at most, which the second
    has. *)
Definition annotated (r r' : row) : Prop :=
  exists v, r' = Dict.set COL_COMPARISON (PStr v) r.

(** The body of the loop of [process]. *)
Definition process_step (json_loads : pyval -> option pyval)
           (compare : pyval -> pyval -> result text)
           (out : list row) (r : row) : result (list row) :=
  r' <- process_row json_loads compare r ;; Ok (out ++ [r']).

(** Rows for the examples: a scrape that succeeded, one that failed and one
    whose line is too short to have a status. *)
Definition sample_rows : list row :=
  [success_row (T "{}") (T "A bright 10w bulb"); failed_row;
   [(COL_PAYLOAD, PStr (T "{}")); (COL_MANUAL, PNone); (COL_STATUS, PNone)];
   failed_row].

(** The header of a table with the required columns. *)
Definition sample_header : list text :=
  [COL_PAYLOAD; COL_MANUAL; COL_STATUS].

(** The order of [sorted] on strings. *)
Definition text_le (a b : text) : Prop := Py.leb a b = true.

(** The key of an item is one of the ignored attributes of the value-set
    variant. *)
Definition ignored (item : text * pyval) : bool :=
  StrSet.mem (Py.strip (Py.lower (fst item)))
             CompareScriptFuzzy.IGNORE_ATTRIBUTES.

(** Every character is white space. *)
Definition blank (s : text) : Prop := forallb Py.isspace s = true.

(** * Properties *)

(** ** [str.replace] *)

Lemma startswith_app (old rest : text) : Py.startswith old (old ++ rest) = true.
Proof.
  induction old as [|a o IH]; simpl; [reflexivity|].
  destruct (char_dec a a); [apply IH | congruence].
Qed.

Lemma startswith_split (old s : text) :
  Py.startswith old s = true -> exists rest, s = old ++ rest.
Proof.
  revert s. induction old as [|a o IH]; intros s H.
  - exists s. reflexivity.
  - destruct s as [|b s]; simpl in H; [discriminate|].
    destruct (char_dec a b) as [->|]; [|discriminate].
    destruct (IH s H) as [rest ->]. exists rest. reflexivity.
Qed.

Lemma replace_from_skip (old new pre rest : text) :
  Py.replace_from old new (length pre) (pre ++ rest)
  = Py.replace_from old new 0 rest.
Proof. induction pre as [|c pre IH]; simpl; [destruct rest|]; auto. Qed.

Lemma replace_hit (old new rest : text) :
  old <> [] ->
  Py.replace_from old new 0 (old ++ rest)
  = new ++ Py.replace_from old new 0 rest.
Proof.
  destruct old as [|a o]; [congruence|]. intros _.
  change ((a :: o) ++ rest) with (a :: (o ++ rest)).
  cbn [Py.replace_from].
  change (a :: o ++ rest) with ((a :: o) ++ rest).
  rewrite startswith_app. cbn [length pred].
  now rewrite replace_from_skip.
Qed.

Lemma replace_miss (old new : text) (c : char) (s : text) :
  Py.startswith old (c :: s) = false ->
  Py.replace_from old new 0 (c :: s) = c :: Py.replace_from old new 0 s.
Proof. intros H. cbn [Py.replace_from]. now rewrite H. Qed.

Lemma replace_eq (old new s : text) :
  old <> [] -> Py.replace old new s = Py.replace_from old new 0 s.
Proof. unfold Py.replace. destruct old; congruence. Qed.

(** Induction along the scan of [replace]. *)
Lemma scan_ind (old : text) (Hne : old <> []) (P : text -> Prop) :
  P [] ->
  (forall rest, P rest -> P (old ++ rest)) ->
  (forall c s, Py.startswith old (c :: s) = false -> P s -> P (c :: s)) ->
  forall s, P s.
Proof.
  intros Hnil Hhit Hmiss s.
  remember (length s) as n eqn:En. revert s En.
  induction n as [n IH] using lt_wf_ind. intros s En.
  destruct s as [|c s]; [exact Hnil|].
  destruct (Py.startswith old (c :: s)) eqn:E.
  - destruct (startswith_split _ _ E) as [rest Hr]. rewrite Hr.
    apply Hhit. apply (IH (length rest)); [|reflexivity].
    rewrite En, Hr, length_app. destruct old; [congruence|simpl; lia].
  - apply Hmiss; [exact E|]. apply (IH (length s)); [|reflexivity].
    rewrite En. simpl. lia.
Qed.

Lemma contains_cons (p : text) (c : char) (s : text) :
  Py.contains p (c :: s) = Py.startswith p (c :: s) || Py.contains p s.
Proof. reflexivity. Qed.

Lemma contains_tail (p : text) (c : char) (s : text) :
  Py.contains p (c :: s) = false -> Py.contains p s = false.
Proof. rewrite contains_cons. intros H. now apply orb_false_iff in H. Qed.

Lemma contains_suffix (p pre s : text) :
  Py.contains p (pre ++ s) = false -> Py.contains p s = false.
Proof.
  induction pre as [|c pre IH]; simpl app; [auto|].
  intros H. apply IH. exact (contains_tail _ _ _ H).
Qed.

Lemma startswith_head (a : char) (p : text) (c : char) (s : text) :
  a <> c -> Py.startswith (a :: p) (c :: s) = false.
Proof. intros H. simpl. destruct (char_dec a c); congruence. Qed.

Lemma startswith_cons (a : char) (p : text) (c : char) (s : text) :
  Py.startswith (a :: p) (c :: s) = true <-> a = c /\ Py.startswith p s = true.
Proof.
  simpl. destruct (char_dec a c); split; intros H;
    try tauto; try discriminate; destruct H; congruence.
Qed.

(** A replacement that does not hold the first character of [p] hides no
    occurrence of [p]. *)
Lemma contains_new_app (a : char) (p new t : text) :
  ~ In a new ->
  Py.contains (a :: p) (new ++ t) = Py.contains (a :: p) t.
Proof.
  induction new as [|n new IH]; intros Hn; [reflexivity|].
  simpl app. rewrite contains_cons.
  rewrite startswith_head by (intros ->; apply Hn; now left).
  apply IH. intros H. apply Hn. now right.
Qed.

Lemma replace_absent (old new s : text) :
  old <> [] ->
  Py.contains old s = false -> Py.replace_from old new 0 s = s.
Proof.
  intros Hne. induction s as [|c s IH]; [reflexivity|].
  rewrite contains_cons. intros H. apply orb_false_iff in H as [H1 H2].
  rewrite replace_miss by exact H1. now rewrite IH.
Qed.

(** What the output of [replace] starts with, the input started with, when
    the replacement shares no character with [p]. *)
Lemma startswith_replace (old new : text) :
  old <> [] -> new <> [] ->
  forall p, (forall c, In c p -> ~ In c new) ->
  forall s, Py.startswith p (Py.replace_from old new 0 s) = true ->
            Py.startswith p s = true.
Proof.
  intros Ho Hn p. induction p as [|a p IH]; intros Hd s H; [reflexivity|].
  destruct s as [|c s]; [discriminate H|].
  destruct (Py.startswith old (c :: s)) eqn:E.
  - destruct (startswith_split _ _ E) as [rest Hr]. rewrite Hr in H.
    rewrite replace_hit in H by exact Ho.
    destruct new as [|n new]; [congruence|].
    simpl app in H. apply startswith_cons in H as [-> _].
    exfalso. apply (Hd n); now left.
  - rewrite replace_miss in H by exact E.
    apply startswith_cons in H as [-> H]. apply startswith_cons. split; auto.
    apply IH; auto. intros x Hx. apply Hd. now right.
Qed.

(** [replace] creates no occurrence of [p] when the replacement shares no
    character with it. *)
Lemma contains_replace (old new : text) (a : char) (p s : text) :
  old <> [] -> new <> [] ->
  (forall c, In c (a :: p) -> ~ In c new) ->
  Py.contains (a :: p) s = false ->
  Py.contains (a :: p) (Py.replace_from old new 0 s) = false.
Proof.
  intros Ho Hn Hd. induction s using (@scan_ind old Ho).
  - auto.
  - intros H. rewrite replace_hit by exact Ho.
    rewrite contains_new_app.
    + apply IHs. exact (contains_suffix _ _ _ H).
    + apply Hd. now left.
  - intros H1. rewrite replace_miss by assumption.
    rewrite contains_cons in *. apply orb_false_iff in H1 as [H1 H2].
    apply orb_false_iff. split; [|auto].
    destruct (Py.startswith (a :: p) (c :: Py.replace_from old new 0 s)) eqn:E;
      [|reflexivity].
    rewrite <- (replace_miss old new c s) in E by assumption.
    apply startswith_replace in E; auto. congruence.
Qed.

Lemma Forall_replace (P : char -> Prop) (old new s : text) :
  old <> [] -> Forall P new -> Forall P s ->
  Forall P (Py.replace_from old new 0 s).
Proof.
  intros Ho Hn. induction s using (@scan_ind old Ho); intros HF.
  - constructor.
  - rewrite replace_hit by exact Ho. apply Forall_app. split; [exact Hn|].
    apply IHs. apply Forall_app in HF. tauto.
  - rewrite replace_miss by assumption. inversion HF; subst.
    constructor; auto.
Qed.

Lemma ends_ok_app (b : bool) (n t : text) (c : char) :
  ends_ok b ((n ++ [c]) ++ t) = ends_ok (Py.isspace c) t.
Proof.
  revert b. induction n as [|x n IH]; intros b; simpl; [reflexivity|apply IH].
Qed.

Lemma ends_ok_replace (o n : text) (co cn : char) :
  Py.isspace co = false -> Py.isspace cn = false ->
  forall s b, ends_ok b s = true ->
              ends_ok b (Py.replace_from (o ++ [co]) (n ++ [cn]) 0 s) = true.
Proof.
  intros Hco Hcn.
  assert (Ho : o ++ [co] <> []) by (destruct o; discriminate).
  induction s using (@scan_ind (o ++ [co]) Ho); intros b Hb.
  - exact Hb.
  - rewrite replace_hit by exact Ho. rewrite ends_ok_app, Hcn.
    apply IHs. rewrite ends_ok_app, Hco in Hb. exact Hb.
  - rewrite replace_miss by assumption. simpl in *. auto.
Qed.

Lemma starts_ok_replace (old new : text) (s : text) :
  old <> [] -> starts_ok new = true -> new <> [] ->
  starts_ok s = true -> starts_ok (Py.replace_from old new 0 s) = true.
Proof.
  intros Ho Hn Hne H. destruct s as [|c s]; [reflexivity|].
  destruct (Py.startswith old (c :: s)) eqn:E.
  - destruct (startswith_split _ _ E) as [rest ->].
    rewrite replace_hit by exact Ho. destruct new; [congruence|exact Hn].
  - rewrite replace_miss by exact E. exact H.
Qed.

(** After [replace(" a", "a")] no space is followed by [a], in a text
    without two spaces in a row. *)
Lemma replace_space_char (a : char) (s : text) :
  a <> sp ->
  Py.contains [sp; sp] s = false ->
  Py.contains [sp; a] (Py.replace_from [sp; a] [a] 0 s) = false.
Proof.
  intros Ha.
  assert (Ho : [sp; a] <> []) by discriminate.
  induction s using (@scan_ind [sp; a] Ho); intros Hd.
  - reflexivity.
  - rewrite replace_hit by exact Ho. rewrite contains_new_app.
    + apply IHs. exact (contains_suffix _ _ _ Hd).
    + simpl. intros [E|[]]. congruence.
  - rewrite replace_miss by assumption. rewrite contains_cons in *.
    apply orb_false_iff in Hd as [Hd1 Hd2].
    rewrite (IHs Hd2), orb_false_r.
    destruct (Py.startswith [sp; a] (c :: Py.replace_from [sp; a] [a] 0 s)) eqn:E;
      [|reflexivity].
    apply startswith_cons in E as [<- E].
    destruct s as [|c' s]; [discriminate E|].
    destruct (char_dec sp c') as [<-|Hc'].
    + simpl in Hd1. destruct (char_dec sp sp); [discriminate|congruence].
    + rewrite replace_miss in E by (apply startswith_head; exact Hc').
      apply startswith_cons in E as [<- _].
      simpl in H. destruct (char_dec sp sp); [|congruence].
      destruct (char_dec a a); [discriminate|congruence].
Qed.

(** After [replace(" lm", "lm")] no space is followed by [lm], in a text
    without two spaces in a row. *)
Lemma replace_space_lm (s : text) :
  Py.contains [sp; sp] s = false ->
  Py.contains (T " lm") (Py.replace_from (T " lm") (T "lm") 0 s) = false.
Proof.
  assert (Ho : T " lm" <> []) by discriminate.
  induction s using (@scan_ind (T " lm") Ho); intros Hd.
  - reflexivity.
  - rewrite replace_hit by exact Ho.
    change (T " lm") with (sp :: T "lm") at 1. rewrite contains_new_app.
    + apply IHs. exact (contains_suffix _ _ _ Hd).
    + cbv. intros [E|[E|[]]]; discriminate E.
  - rewrite replace_miss by assumption. rewrite contains_cons in *.
    apply orb_false_iff in Hd as [Hd1 Hd2].
    rewrite (IHs Hd2), orb_false_r.
    destruct (Py.startswith (T " lm")
                (c :: Py.replace_from (T " lm") (T "lm") 0 s)) eqn:E;
      [|reflexivity].
    exfalso. change (T " lm") with (sp :: T "lm") in E at 1.
    apply startswith_cons in E as [<- E].
    destruct s as [|c1 s]; [discriminate E|].
    destruct (char_dec sp c1) as [<-|Hc1].
    { simpl in Hd1. destruct (char_dec sp sp); [discriminate|congruence]. }
    rewrite replace_miss in E by (apply startswith_head; exact Hc1).
    change (T "lm") with ("l"%cp :: T "m") in E.
    apply startswith_cons in E as [<- E].
    destruct s as [|c2 s]; [discriminate E|].
    destruct (Py.startswith (T " lm") (c2 :: s)) eqn:E2.
    { destruct (startswith_split _ _ E2) as [rest Hr]. rewrite Hr in E.
      rewrite replace_hit in E by exact Ho. discriminate E. }
    rewrite replace_miss in E by exact E2.
    change (T "m") with ["m"%cp] in E.
    apply startswith_cons in E as [<- _].
    discriminate H.
Qed.

(** ** [re.sub] of white space *)

Lemma lstrip_length (s : text) : length (Py.lstrip s) <= length s.
Proof.
  induction s as [|c s IH]; simpl; [lia|].
  destruct (Py.isspace c); simpl; lia.
Qed.

(** [\s*] takes all the white space there is. *)
Lemma star_space (n : nat) :
  forall prev s, length s <= n ->
    Re.star_loop (Re.rmatch Re.s_) (fun _ s' => Some s') n prev s
    = Some (Py.lstrip s).
Proof.
  induction n as [|n IH]; intros prev s Hn.
  - destruct s; [reflexivity|simpl in Hn; lia].
  - destruct s as [|c s]; [reflexivity|].
    cbn [Re.star_loop Re.rmatch Re.s_ Py.lstrip].
    destruct (Py.isspace c) eqn:E; [|reflexivity].
    assert (L : (length s <? length (c :: s)) = true)
      by (apply Nat.ltb_lt; simpl; lia).
    rewrite L, IH by (simpl in Hn; lia). reflexivity.
Qed.

(** The match of [\s+] at the head of a text. *)
Lemma match_at_spaces (prev : option char) (s : text) :
  Re.match_at (Re.plus Re.s_) prev s =
  match s with
  | [] => None
  | c :: s' =>
      if Py.isspace c
      then Some (firstn (length s - length (Py.lstrip s')) s)
      else None
  end.
Proof.
  unfold Re.match_at, Re.plus. destruct s as [|c s]; [reflexivity|].
  cbn [Re.rmatch Re.s_]. destruct (Py.isspace c); [|reflexivity].
  change (Re.Cls Py.isspace) with Re.s_.
  rewrite star_space by lia. reflexivity.
Qed.

Lemma lstrip_split (s : text) :
  exists pre, s = pre ++ Py.lstrip s
              /\ length pre = length s - length (Py.lstrip s).
Proof.
  induction s as [|c s [pre [E L]]]; [exists []; auto|].
  cbn [Py.lstrip]. destruct (Py.isspace c).
  - exists (c :: pre). split; [simpl; congruence|].
    cbn [length]. pose proof (lstrip_length s). lia.
  - exists []. split; [reflexivity|]. cbn [length]. lia.
Qed.

Lemma sub_from_skip (r : Re.regex) (repl pre rest : text) (p : option char) :
  exists p', Re.sub_from r repl p (length pre) (pre ++ rest)
             = Re.sub_from r repl p' 0 rest.
Proof.
  revert p. induction pre as [|c pre IH]; intros p; [now exists p|].
  simpl. apply IH.
Qed.

Lemma squeeze_lstrip (s : text) :
  squeeze true s = squeeze false (Py.lstrip s).
Proof.
  induction s as [|c s IH]; [reflexivity|].
  simpl. destruct (Py.isspace c) eqn:E; [exact IH|].
  simpl. now rewrite E.
Qed.

(** [re.sub(r"\s+", " ", s)] replaces every run of white space by a space. *)
Lemma sub_spaces (s : text) :
  Re.sub (Re.plus Re.s_) [sp] s = squeeze false s.
Proof.
  unfold Re.sub. generalize (@None char) as prev.
  remember (length s) as n eqn:En. revert s En.
  induction n as [n IH] using lt_wf_ind. intros s En prev.
  destruct s as [|c s]; [reflexivity|].
  cbn [Re.sub_from]. rewrite match_at_spaces.
  cbn [squeeze]. destruct (Py.isspace c) eqn:E.
  - pose proof (lstrip_length s) as L.
    destruct (lstrip_split s) as [pre [Es Lp]].
    replace (length (c :: s) - length (Py.lstrip s))
      with (S (length pre)) by (cbn [length]; lia).
    cbn [firstn length pred app].
    rewrite length_firstn, Nat.min_l by lia.
    f_equal. rewrite squeeze_lstrip.
    destruct (sub_from_skip (Re.plus Re.s_) [sp] pre (Py.lstrip s) (Some c))
      as [p' Hp]. rewrite <- Es in Hp. rewrite Hp.
    apply (IH (length (Py.lstrip s))); [simpl in En; lia|reflexivity].
  - f_equal. apply (IH (length s)); [simpl in En; lia|reflexivity].
Qed.

Lemma squeeze_plain (b : bool) (s : text) : Forall plain (squeeze b s).
Proof.
  revert b. induction s as [|c s IH]; intros b; simpl; [constructor|].
  destruct (Py.isspace c) eqn:E.
  - destruct b; [apply IH|]. constructor; [intros _; reflexivity|apply IH].
  - constructor; [|apply IH]. intros H. congruence.
Qed.

Lemma squeeze_Forall (P : char -> Prop) (b : bool) (s : text) :
  P sp -> Forall P s -> Forall P (squeeze b s).
Proof.
  intros Hsp. revert b. induction s as [|c s IH]; intros b H; simpl;
    [constructor|].
  inversion H; subst.
  destruct (Py.isspace c); [destruct b|]; auto.
Qed.

Lemma squeeze_true_head (s : text) : starts_ok (squeeze true s) = true.
Proof.
  induction s as [|c s IH]; simpl; [reflexivity|].
  destruct (Py.isspace c) eqn:E; [exact IH|]. simpl. now rewrite E.
Qed.

Lemma isspace_sp : Py.isspace sp = true.
Proof. reflexivity. Qed.

Lemma startswith_pair (a b c x : char) (s : text) :
  Py.startswith [a; b] (c :: x :: s) = true <-> a = c /\ b = x.
Proof.
  rewrite startswith_cons, startswith_cons. simpl. tauto.
Qed.

Lemma startswith_pair_short (a b c : char) :
  Py.startswith [a; b] [c] = false.
Proof.
  destruct (Py.startswith [a; b] [c]) eqn:E; [|reflexivity].
  apply startswith_cons in E as [_ E]. discriminate E.
Qed.

Lemma squeeze_no_double (b : bool) (s : text) :
  Py.contains [sp; sp] (squeeze b s) = false.
Proof.
  revert b. induction s as [|c s IH]; intros b; simpl squeeze; [reflexivity|].
  destruct (Py.isspace c) eqn:E.
  - destruct b; [apply IH|]. rewrite contains_cons, IH, orb_false_r.
    pose proof (squeeze_true_head s) as H.
    destruct (squeeze true s) as [|x t]; [apply startswith_pair_short|].
    destruct (Py.startswith [sp; sp] (sp :: x :: t)) eqn:E2; [|reflexivity].
    apply startswith_pair in E2 as [_ <-].
    cbn [starts_ok] in H. rewrite isspace_sp in H. discriminate H.
  - rewrite contains_cons, IH, orb_false_r. apply startswith_head.
    intros <-. rewrite isspace_sp in E. discriminate E.
Qed.

Lemma squeeze_starts_ok (s : text) :
  starts_ok s = true -> starts_ok (squeeze false s) = true.
Proof.
  destruct s as [|c s]; [reflexivity|]. simpl.
  destruct (Py.isspace c) eqn:E; [discriminate|]. intros _. simpl.
  now rewrite E.
Qed.

Lemma squeeze_ends_ok (s : text) :
  (ends_ok true s = true -> forall p b, ends_ok p (squeeze b s) = true) /\
  (ends_ok false s = true -> forall b, ends_ok false (squeeze b s) = true).
Proof.
  induction s as [|c s [IH1 IH2]]; [split; [discriminate|reflexivity]|].
  simpl. destruct (Py.isspace c) eqn:E.
  - split; intros H; [intros p b|intros b]; destruct b; simpl;
      try rewrite isspace_sp; auto.
  - split; intros H; [intros p b|intros b]; simpl; rewrite E; auto.
Qed.

(** What a squeezed text starts with, the text started with, when [p] has
    no white space. *)
Lemma startswith_squeeze (p : text) :
  Forall (fun c => Py.isspace c = false) p ->
  forall s, Py.startswith p (squeeze false s) = true ->
            Py.startswith p s = true.
Proof.
  induction p as [|a p IH]; intros Hp s H; [reflexivity|].
  inversion Hp as [|? ? Ha Hp']; subst.
  destruct s as [|c s]; [discriminate H|].
  simpl squeeze in H. destruct (Py.isspace c) eqn:E.
  - apply startswith_cons in H as [-> _]. vm_compute in Ha.
    discriminate Ha.
  - apply startswith_cons in H as [-> H]. apply startswith_cons. split; auto.
Qed.

Lemma contains_squeeze (a : char) (p : text) :
  Forall (fun c => Py.isspace c = false) (a :: p) ->
  forall s b, Py.contains (a :: p) s = false ->
              Py.contains (a :: p) (squeeze b s) = false.
Proof.
  intros Hp. induction s as [|c s IH]; intros b H; [reflexivity|].
  rewrite contains_cons in H. apply orb_false_iff in H as [H1 H2].
  simpl squeeze. destruct (Py.isspace c) eqn:E.
  - destruct b; [auto|]. rewrite contains_cons, IH, orb_false_r by exact H2.
    apply startswith_head. intros ->. inversion Hp as [|? ? Ha _]; subst.
    vm_compute in Ha. discriminate Ha.
  - rewrite contains_cons, IH, orb_false_r by exact H2.
    destruct (Py.startswith (a :: p) (c :: squeeze false s)) eqn:E2;
      [|reflexivity].
    assert (E3 : Py.startswith (a :: p) (squeeze false (c :: s)) = true)
      by (simpl squeeze; rewrite E; exact E2).
    apply startswith_squeeze in E3; [congruence|exact Hp].
Qed.

(** A text whose white space is single spaces is left as it is. *)
Lemma squeeze_id (s : text) :
  Forall plain s -> Py.contains [sp; sp] s = false ->
  forall b, (b = true -> starts_ok s = true) -> squeeze b s = s.
Proof.
  induction s as [|c s IH]; intros Hp Hd b Hb; [reflexivity|].
  inversion Hp as [|? ? Hc Hp']; subst.
  rewrite contains_cons in Hd. apply orb_false_iff in Hd as [Hd1 Hd2].
  simpl. destruct (Py.isspace c) eqn:E.
  - destruct b; [specialize (Hb eq_refl); simpl in Hb; rewrite E in Hb;
                 discriminate|].
    rewrite (Hc E). f_equal. apply IH; auto. intros _.
    destruct s as [|x s]; [reflexivity|]. cbn [starts_ok].
    destruct (Py.isspace x) eqn:Ex; [|reflexivity].
    inversion Hp' as [|? ? Hx _]; subst. rewrite (Hx Ex), (Hc E) in Hd1.
    assert (Py.startswith [sp; sp] (sp :: sp :: s) = true)
      by (apply startswith_pair; auto).
    congruence.
  - f_equal. apply IH; auto. discriminate.
Qed.

(** ** [str.lower] and [str.strip] *)

Lemma assoc_In (c x : char) (l : list (N * N)) :
  Unicode.assoc c l = Some x -> In (c, x) l.
Proof.
  induction l as [|[k v] l IH]; [discriminate|]. cbn [Unicode.assoc].
  destruct (N.eqb_spec k c) as [->|_].
  - intros [= ->]. now left.
  - intros H. right. exact (IH H).
Qed.

(** A property that holds on every character of the ranges holds on every
    character found in them. *)
Lemma ranges_forall (P : char -> bool) (rs : list (N * N)) :
  forallb (fun r => forallb P (enum (fst r) (snd r))) rs = true ->
  forall c, Unicode.in_ranges rs c = true -> P c = true.
Proof.
  intros H c Hc. unfold Unicode.in_ranges in Hc.
  apply existsb_exists in Hc as [[lo hi] [Hr Hb]].
  rewrite forallb_forall in H. specialize (H _ Hr). cbn [fst snd] in *.
  rewrite forallb_forall in H. apply H.
  apply andb_true_iff in Hb as [H1 H2].
  apply N.leb_le in H1, H2. unfold enum. apply in_map_iff.
  exists (N.to_nat (c - lo)). split; [lia|]. apply in_seq. lia.
Qed.

(** White space is left alone by [str.lower] and plays no part in the rule
    of the final sigma. *)
Lemma space_char (c : char) :
  Py.isspace c = true -> neutral c = true.
Proof.
  apply (@ranges_forall neutral Unicode.SPACE). vm_compute. reflexivity.
Qed.

Lemma neutral_spec (c : char) :
  neutral c = true ->
  Py.changes c = false /\ Py.cased c = false
  /\ Py.case_ignorable c = false.
Proof.
  unfold neutral. intros H.
  apply andb_true_iff in H as [H H3]. apply andb_true_iff in H as [H1 H2].
  now rewrite negb_true_iff in *.
Qed.

Lemma changes_sigma (c : char) : Py.changes c = false -> (c =? Py.SIGMA)%N = false.
Proof.
  intros H. destruct (N.eqb_spec c Py.SIGMA) as [->|]; [|reflexivity].
  vm_compute in H. discriminate H.
Qed.

Lemma lower_full_id (c : char) : Py.changes c = false -> Py.lower_full c = [c].
Proof.
  unfold Py.changes, Py.lower_full. intros H.
  apply orb_false_iff in H as [-> H].
  destruct (Unicode.assoc c Unicode.LOWER); [discriminate H|reflexivity].
Qed.

(** What [str.lower] produces it leaves alone, and it is white space only
    where the character was. *)
Lemma lower_full_spec (c x : char) :
  In x (Py.lower_full c) ->
  Py.changes x = false /\ (Py.isspace c = false -> Py.isspace x = false).
Proof.
  assert (HT : forallb (fun p => lowered (snd p)) Unicode.LOWER = true)
    by (vm_compute; reflexivity).
  unfold Py.lower_full. destruct (N.eqb_spec c 304) as [->|Hc].
  - intros [<-|[<-|[]]]; split; reflexivity.
  - destruct (Unicode.assoc c Unicode.LOWER) as [y|] eqn:E.
    + intros [<-|[]]. apply assoc_In in E.
      rewrite forallb_forall in HT. specialize (HT _ E). cbn [snd] in HT.
      unfold lowered in HT. apply andb_true_iff in HT as [H1 H2].
      rewrite negb_true_iff in *. auto.
    + intros [->|[]]. split; [|auto].
      unfold Py.changes. rewrite E.
      destruct (N.eqb_spec x 304); [contradiction|reflexivity].
Qed.

Lemma lower_full_nonempty (c : char) : Py.lower_full c <> [].
Proof.
  unfold Py.lower_full. destruct (c =? 304)%N; [discriminate|].
  destruct (Unicode.assoc c Unicode.LOWER); discriminate.
Qed.

Lemma lower_from_notupper (s : text) :
  forall before, Forall notupper (Py.lower_from before s).
Proof.
  induction s as [|c s IH]; intros before; [constructor|].
  cbn [Py.lower_from]. apply Forall_app. split; [|apply IH].
  destruct (c =? Py.SIGMA)%N.
  - constructor; [|constructor].
    destruct (Py.final_sigma before s); reflexivity.
  - apply Forall_forall. intros x Hx. exact (proj1 (lower_full_spec _ _ Hx)).
Qed.

Lemma lower_notupper (s : text) : Forall notupper (Py.lower s).
Proof. apply lower_from_notupper. Qed.

Lemma lower_from_id (s : text) :
  Forall notupper s -> forall before, Py.lower_from before s = s.
Proof.
  induction 1 as [|c s Hc _ IH]; intros before; [reflexivity|].
  cbn [Py.lower_from]. rewrite (changes_sigma _ Hc), (lower_full_id _ Hc).
  cbn [app]. f_equal. apply IH.
Qed.

Lemma lower_id (s : text) : Forall notupper s -> Py.lower s = s.
Proof. intros H. now apply lower_from_id. Qed.

Lemma lstrip_starts_ok (s : text) : starts_ok (Py.lstrip s) = true.
Proof.
  induction s as [|c s IH]; [reflexivity|]. simpl.
  destruct (Py.isspace c) eqn:E; [exact IH|]. simpl. now rewrite E.
Qed.

Lemma lstrip_id (s : text) : starts_ok s = true -> Py.lstrip s = s.
Proof.
  destruct s as [|c s]; [reflexivity|]. simpl.
  destruct (Py.isspace c); [discriminate|reflexivity].
Qed.

Lemma lstrip_Forall (P : char -> Prop) (s : text) :
  Forall P s -> Forall P (Py.lstrip s).
Proof.
  induction 1 as [|c s Hc Hs IH]; [constructor|]. simpl.
  destruct (Py.isspace c); auto.
Qed.

Lemma starts_ok_prefix (a b : text) :
  starts_ok (a ++ b) = true -> starts_ok a = true.
Proof. destruct a; auto. Qed.

Lemma ends_ok_last (b : bool) (n : text) (c : char) :
  ends_ok b (n ++ [c]) = negb (Py.isspace c).
Proof.
  rewrite <- (app_nil_r (n ++ [c])), ends_ok_app. reflexivity.
Qed.

Lemma starts_ok_rev (s : text) :
  starts_ok s = true -> ends_ok false (rev s) = true.
Proof.
  destruct s as [|c s]; [reflexivity|]. simpl. intros H.
  now rewrite ends_ok_last.
Qed.

Lemma ends_ok_rev (s : text) :
  ends_ok false s = true -> starts_ok (rev s) = true.
Proof.
  destruct s as [|x s] using rev_ind; [reflexivity|].
  rewrite ends_ok_last, rev_app_distr. auto.
Qed.

Lemma rstrip_prefix (s : text) : exists post, s = Py.rstrip s ++ post.
Proof.
  unfold Py.rstrip. destruct (lstrip_split (rev s)) as [pre [E _]].
  exists (rev pre). rewrite <- rev_app_distr, <- E. now rewrite rev_involutive.
Qed.

Lemma strip_starts_ok (s : text) : starts_ok (Py.strip s) = true.
Proof.
  unfold Py.strip. destruct (rstrip_prefix (Py.lstrip s)) as [post E].
  apply starts_ok_prefix with (b := post). rewrite <- E.
  apply lstrip_starts_ok.
Qed.

Lemma strip_ends_ok (s : text) : ends_ok false (Py.strip s) = true.
Proof.
  unfold Py.strip, Py.rstrip. apply starts_ok_rev, lstrip_starts_ok.
Qed.

Lemma strip_id (s : text) :
  starts_ok s = true -> ends_ok false s = true -> Py.strip s = s.
Proof.
  intros H1 H2. unfold Py.strip, Py.rstrip.
  rewrite (lstrip_id _ H1), (lstrip_id _ (ends_ok_rev _ H2)).
  apply rev_involutive.
Qed.

Lemma strip_Forall (P : char -> Prop) (s : text) :
  Forall P s -> Forall P (Py.strip s).
Proof.
  intros H. unfold Py.strip, Py.rstrip.
  apply Forall_rev, lstrip_Forall, Forall_rev, lstrip_Forall, H.
Qed.

(** ** The normalizer *)

Lemma contains_prefix (p q s : text) :
  Py.contains p s = false -> Py.contains (p ++ q) s = false.
Proof.
  assert (SW : forall s, Py.startswith (p ++ q) s = true ->
                         Py.startswith p s = true).
  { clear s. induction p as [|a p IH]; intros s H; [reflexivity|].
    destruct s as [|c s]; [discriminate H|]. simpl app in H.
    apply startswith_cons in H as [-> H]. apply startswith_cons. auto. }
  induction s as [|c s IH]; intros H.
  - destruct (Py.contains (p ++ q) []) eqn:E; [|reflexivity].
    unfold Py.contains in *. rewrite orb_false_r in *.
    apply SW in E. congruence.
  - rewrite contains_cons in *. apply orb_false_iff in H as [H1 H2].
    rewrite (IH H2), orb_false_r.
    destruct (Py.startswith (p ++ q) (c :: s)) eqn:E; [|reflexivity].
    apply SW in E. congruence.
Qed.

(** A normal text is a fixed point of [normalize_value]. *)
Lemma normalize_normal (s : text) : normal s -> normalize_value s = s.
Proof.
  intros [Hl Hs He Hp Hd Hn Hw Hlm Hk]. unfold normalize_value.
  rewrite (lower_id Hl), (strip_id _ Hs He).
  rewrite !replace_eq by discriminate.
  rewrite (@replace_absent en_dash (T "-") s) by (discriminate || exact Hn).
  rewrite sub_spaces, (squeeze_id Hp Hd) by discriminate.
  rewrite (@replace_absent (T " watt") (T "w") s);
    [|discriminate|exact (contains_prefix (T " w") (T "att") _ Hw)].
  rewrite (@replace_absent (T " w") (T "w") s) by (discriminate || exact Hw).
  rewrite (@replace_absent (T " lm") (T "lm") s) by (discriminate || exact Hlm).
  apply replace_absent; [discriminate|exact Hk].
Qed.

(** [replace] leaves no occurrence of [old] when the replacement shares no
    character with it. *)
Lemma replace_removes (old new s : text) :
  old <> [] -> new <> [] ->
  (forall c, In c old -> ~ In c new) ->
  Py.contains old (Py.replace_from old new 0 s) = false.
Proof.
  intros Ho Hn Hd. destruct old as [|a p] eqn:Eo; [congruence|].
  rewrite <- Eo in *.
  induction s using (@scan_ind old Ho).
  - rewrite Eo. reflexivity.
  - rewrite replace_hit by exact Ho. rewrite Eo at 1.
    rewrite contains_new_app; [rewrite <- Eo; exact IHs|].
    apply Hd. rewrite Eo. now left.
  - rewrite replace_miss by assumption. rewrite contains_cons, IHs, orb_false_r.
    destruct (Py.startswith old (c :: Py.replace_from old new 0 s)) eqn:E;
      [|reflexivity].
    rewrite <- (@replace_miss old new c s) in E by assumption.
    apply startswith_replace in E; auto. congruence.
Qed.



Lemma unit_char_spec (c : char) :
  unit_char c = true ->
  notupper c /\ Py.isspace c = false /\ ~ In c en_dash.
Proof.
  unfold unit_char, notupper. intros H.
  apply andb_true_iff in H as [H H3]. apply andb_true_iff in H as [H1 H2].
  rewrite negb_true_iff in *. repeat split; auto.
  intros Hin. assert (existsb (char_eqb c) en_dash = true); [|congruence].
  apply existsb_exists. exists c. split; [exact Hin|apply N.eqb_refl].
Qed.

Lemma tidy_replace (o : text) (co : char) (n : text) (cn : char) (s : text) :
  Py.isspace co = false ->
  forallb unit_char (n ++ [cn]) = true ->
  tidy s -> tidy (Py.replace_from (o ++ [co]) (n ++ [cn]) 0 s).
Proof.
  intros Hco Hn [Hl Hs He Hp Hd Hdash].
  assert (Ho : o ++ [co] <> []) by (destruct o; discriminate).
  assert (Hne : n ++ [cn] <> []) by (destruct n; discriminate).
  assert (Hu : forall c, In c (n ++ [cn]) ->
                 notupper c /\ Py.isspace c = false /\ ~ In c en_dash).
  { intros c Hc. apply unit_char_spec.
    rewrite forallb_forall in Hn. auto. }
  assert (Hcn : Py.isspace cn = false).
  { apply Hu. apply in_or_app. right. now left. }
  split.
  - apply Forall_replace; auto. apply Forall_forall. intros c Hc.
    now apply Hu.
  - apply starts_ok_replace; auto.
    destruct (n ++ [cn]) as [|x t] eqn:E; [congruence|]. simpl.
    apply negb_true_iff. apply Hu. now left.
  - apply ends_ok_replace; auto.
  - apply Forall_replace; auto. apply Forall_forall. intros c Hc Hsp.
    destruct (Hu c Hc) as [_ [H _]]. congruence.
  - apply contains_replace; auto. intros c Hc Hin.
    destruct (Hu c Hin) as [_ [H _]].
    destruct Hc as [<-|[<-|[]]]; discriminate H.
  - change en_dash with [8211%N].
    apply contains_replace; auto. intros c Hc Hin.
    destruct (Hu c Hin) as [_ [_ H]]. exact (H Hc).
Qed.

Lemma en_dash_plain : Forall (fun c => Py.isspace c = false) en_dash.
Proof. repeat constructor. Qed.

(** The text after the first three steps of [normalize_value]. *)
Lemma tidy_squeezed (s : text) :
  tidy (squeeze false
          (Py.replace_from en_dash (T "-") 0 (Py.strip (Py.lower s)))).
Proof.
  set (s0 := Py.strip (Py.lower s)).
  assert (Hd : en_dash <> []) by discriminate.
  split.
  - apply squeeze_Forall; [reflexivity|].
    apply Forall_replace; [exact Hd|repeat constructor|].
    apply strip_Forall, lower_notupper.
  - apply squeeze_starts_ok, starts_ok_replace;
      [exact Hd|reflexivity|discriminate|apply strip_starts_ok].
  - apply squeeze_ends_ok.
    apply (@ends_ok_replace [] [] 8211%N "-"%cp); [reflexivity|reflexivity|].
    apply strip_ends_ok.
  - apply squeeze_plain.
  - apply squeeze_no_double.
  - change en_dash with [8211%N].
    apply contains_squeeze; [exact en_dash_plain|].
    apply (@replace_removes en_dash (T "-")); [exact Hd|discriminate|].
    intros c Hc [<-|[]].
    destruct Hc as [E|[]]; discriminate E.
Qed.

(** The result of [normalize_value] is normal. *)
Lemma normal_normalize (s : text) : normal (normalize_value s).
Proof.
  unfold normalize_value. rewrite !replace_eq by discriminate.
  rewrite sub_spaces.
  pose proof (tidy_squeezed s) as H0.
  set (s2 := squeeze false _) in *.
  assert (H1 : tidy (Py.replace_from (T " watt") (T "w") 0 s2))
    by (apply (@tidy_replace (T " wat") "t" [] "w"); auto).
  set (s3 := Py.replace_from (T " watt") _ 0 s2) in *.
  assert (H2 : tidy (Py.replace_from (T " w") (T "w") 0 s3))
    by (apply (@tidy_replace [sp] "w" [] "w"); auto).
  assert (W2 : Py.contains (T " w") (Py.replace_from (T " w") (T "w") 0 s3)
               = false)
    by (apply (@replace_space_char "w"); [discriminate|apply H1]).
  set (s4 := Py.replace_from (T " w") _ 0 s3) in *.
  assert (H3 : tidy (Py.replace_from (T " lm") (T "lm") 0 s4))
    by (apply (@tidy_replace (T " l") "m" (T "l") "m"); auto).
  assert (W3 : Py.contains (T " w") (Py.replace_from (T " lm") (T "lm") 0 s4)
               = false).
  { apply (@contains_replace (T " lm") (T "lm") sp (T "w"));
      [discriminate|discriminate| |exact W2].
    intros c [<-|[<-|[]]] [E|[E|[]]]; discriminate E. }
  assert (L3 : Py.contains (T " lm") (Py.replace_from (T " lm") (T "lm") 0 s4)
               = false)
    by (apply replace_space_lm, H2).
  set (s5 := Py.replace_from (T " lm") _ 0 s4) in *.
  assert (H4 : tidy (Py.replace_from (T " k") (T "k") 0 s5))
    by (apply (@tidy_replace [sp] "k" [] "k"); auto).
  destruct H4 as [Hl Hs He Hp Hd Hn].
  split; auto.
  - apply (@contains_replace (T " k") (T "k") sp (T "w"));
      [discriminate|discriminate| |exact W3].
    intros c [<-|[<-|[]]] [E|[]]; discriminate E.
  - apply (@contains_replace (T " k") (T "k") sp (T "lm"));
      [discriminate|discriminate| |exact L3].
    intros c [<-|[<-|[<-|[]]]] [E|[]]; discriminate E.
  - apply (@replace_space_char "k"); [discriminate|apply H3].
Qed.

(** C3. The Normalizer is idempotent: normalizing a normalized string
    changes nothing. *)
Theorem normalize_value_idempotent (s : text) :
  normalize_value (normalize_value s) = normalize_value s.
Proof. apply normalize_normal, normal_normalize. Qed.

(** ** The report and the rows *)

Lemma text_eqb_eq (a b : text) : text_eqb a b = true <-> a = b.
Proof.
  unfold text_eqb. destruct (list_eq_dec char_dec a b); split;
    congruence.
Qed.

Lemma text_eqb_refl (a : text) : text_eqb a a = true.
Proof. now apply text_eqb_eq. Qed.

Lemma text_eqb_neq (a b : text) : text_eqb a b = false <-> a <> b.
Proof.
  unfold text_eqb. destruct (list_eq_dec char_dec a b); split;
    congruence.
Qed.

Lemma dict_get_set_same (V : Type) (k : text) (v : V) (d : list (text * V)) :
  Dict.get k (Dict.set k v d) = Some v.
Proof.
  induction d as [|[k' v'] d IH]; simpl.
  - now rewrite text_eqb_refl.
  - destruct (text_eqb k k') eqn:E; simpl; rewrite ?text_eqb_refl, ?E; auto.
Qed.

Lemma dict_get_set_other (V : Type) (k k' : text) (v : V)
      (d : list (text * V)) :
  k' <> k -> Dict.get k' (Dict.set k v d) = Dict.get k' d.
Proof.
  intros Hk. apply text_eqb_neq in Hk.
  induction d as [|[k0 v0] d IH]; simpl.
  - now rewrite Hk.
  - destruct (text_eqb k k0) eqn:E; simpl.
    + apply text_eqb_eq in E. subst k0. now rewrite Hk.
    + now rewrite IH.
Qed.

Lemma dict_keys_set (V : Type) (k : text) (v : V) (d : list (text * V)) :
  Dict.keys (Dict.set k v d)
  = if StrSet.mem k (Dict.keys d) then Dict.keys d else Dict.keys d ++ [k].
Proof.
  unfold Dict.keys, StrSet.mem.
  induction d as [|[k0 v0] d IH]; simpl; [reflexivity|].
  destruct (text_eqb k k0) eqn:E; simpl.
  - apply text_eqb_eq in E. now subst.
  - rewrite IH. destruct (existsb (text_eqb k) (map fst d)); reflexivity.
Qed.

Lemma join_flat (sep p : text) (ps : list text) :
  Py.join sep (p :: ps) = p ++ flat_map (fun q => sep ++ q) ps.
Proof.
  revert p. induction ps as [|q ps IH]; intros p.
  - cbn [Py.join flat_map]. now rewrite app_nil_r.
  - change (Py.join sep (p :: q :: ps)) with (p ++ sep ++ Py.join sep (q :: ps)).
    rewrite IH. cbn [flat_map]. now rewrite <- app_assoc.
Qed.

Lemma section_text_flat (label item : text) (items : list text) :
  section_text label (item :: items)
  = label ++ flat_map (fun x => nl :: T "- " ++ x) (item :: items).
Proof.
  unfold section_text. rewrite join_flat. cbn [flat_map].
  rewrite <- !app_comm_cons, <- app_assoc. reflexivity.
Qed.

(** C8. The report has one section per non-empty collection, in the order
    matched, mismatched, missing: the section of a collection is its label
    ("✅ Matched:", "⚠️ Mismatched:", "❌ Missing:") followed by the entries of
    the collection in their order, each on a line of its own after "- ", and
    two sections are separated by a blank line. When the three collections
    are empty the report is the sentinel "✅ No specifications detected". *)
Theorem build_response_sections (matched mismatched missing : list text) :
  build_response matched mismatched missing
  = match labelled (T "✅ Matched:") matched
          ++ labelled (T "⚠️ Mismatched:") mismatched
          ++ labelled (T "❌ Missing:") missing
    with
    | [] => T "✅ No specifications detected"
    | sections => stacked sections
    end
  /\ build_response [] [] [] = T "✅ No specifications detected"
  /\ build_response [T "Cap: B22"; T "Colour: Red"] [] [T "Wattage"]
     = T "✅ Matched:" ++ nl :: T "- Cap: B22" ++ nl :: T "- Colour: Red"
         ++ nl :: nl :: T "❌ Missing:" ++ nl :: T "- Wattage".
Proof.
  split; [|split; vm_compute; reflexivity].
  unfold build_response.
  destruct matched as [|a ma], mismatched as [|b mi], missing as [|c ms];
    cbn [nonempty_list app labelled stacked];
    rewrite ?join_flat, ?section_text_flat; reflexivity.
Qed.

(** C9. A row whose status is a string and, trimmed and case-folded, is not
    "success", or whose status is "success" and whose payload does not parse,
    is written back with the comparison field set to "Not Applicable" and
    every other field as it was, whatever the payload, the manual text and
    the comparison function are. The row of a line too short to have a
    status is not: its status is [None], on which [strip] raises, whether
    its payload parses or not, and the exception leaves [process]. *)
Theorem process_row_not_applicable
        (json_loads : pyval -> option pyval)
        (compare : pyval -> pyval -> result text) :
  (forall r : row,
      not_applicable json_loads r = true ->
      exists r',
        process_row json_loads compare r = Ok r'
        /\ r' = Dict.set COL_COMPARISON (PStr NOT_APPLICABLE) r
        /\ Dict.get COL_COMPARISON r' = Some (PStr (T "Not Applicable"))
        /\ (forall k, k <> COL_COMPARISON -> Dict.get k r' = Dict.get k r)
        /\ Dict.keys r'
           = if StrSet.mem COL_COMPARISON (Dict.keys r) then Dict.keys r
             else Dict.keys r ++ [COL_COMPARISON])
  /\ process_row json_loads compare failed_row
     = Ok (failed_row ++ [(COL_COMPARISON, PStr (T "Not Applicable"))])
  /\ (forall r : row,
        row_get r COL_STATUS = PNone ->
        process_row json_loads compare r = Raise AttributeError)
  /\ process_row json_loads compare short_row = Raise AttributeError
  /\ process json_loads compare sample_header [failed_row; short_row]
     = Raise AttributeError.
Proof.
  split; [|split; [reflexivity|split; [|split; reflexivity]]].
  - intros r H. exists (Dict.set COL_COMPARISON (PStr NOT_APPLICABLE) r).
    split; [|split; [reflexivity|split; [apply dict_get_set_same|split]]].
    + unfold not_applicable, status_of in H. unfold process_row, strip_lower.
      destruct (row_get r COL_STATUS) as [| | |s| |]; try discriminate H.
      cbn [bind].
      destruct (text_eqb (Py.lower (Py.strip s)) (T "success"));
        [|reflexivity].
      cbn [negb orb] in *. unfold payload_unparsed in H.
      destruct (Dict.get COL_PAYLOAD r) as [cell|]; [|reflexivity].
      destruct (json_loads cell); [discriminate H|reflexivity].
    + intros k Hk. now apply dict_get_set_other.
    + apply dict_keys_set.
  - intros r H. unfold process_row, strip_lower. now rewrite H.
Qed.

(** C2. The payload [{"verified": {"specification": [1]}}] is a JSON object
    whose specification is of the wrong shape: [extract_specification]
    returns the list, not the empty mapping, and [compare] raises in both
    scripts, so that the row is not processed. A specification that maps an
    attribute to a number makes [compare] raise as well. *)
Theorem extract_specification_wrong_shape
        (partial_ratio : text -> text -> Q) (manual : text) :
  let payload := payload_of (PList [PNum 1]) in
  let numeric := payload_of (PDict [(T "Wattage", PNum 10)]) in
  extract_specification payload = PList [PNum 1]
  /\ CompareScript.compare partial_ratio (PStr manual) payload
     = Raise AttributeError
  /\ CompareScriptFuzzy.compare partial_ratio (PStr manual) payload
     = Raise AttributeError
  /\ process_row (fun _ => Some payload)
                 (CompareScript.compare partial_ratio)
                 (success_row (T "{}") manual)
     = Raise AttributeError
  /\ extract_specification numeric = PDict [(T "Wattage", PNum 10)]
  /\ CompareScript.compare partial_ratio (PStr manual) numeric
     = Raise AttributeError
  /\ CompareScriptFuzzy.compare partial_ratio (PStr manual) numeric
     = Raise AttributeError.
Proof.
  cbv zeta.
  assert (N : normalize (PStr manual)
              = Ok (normalize_value manual)).
  { unfold normalize, normalize_value_dyn. destruct manual; reflexivity. }
  repeat split.
  - unfold CompareScript.compare, CompareScript.classify. now rewrite N.
  - unfold CompareScriptFuzzy.compare, CompareScriptFuzzy.classify.
    now rewrite N.
  - unfold process_row. cbn.
    unfold CompareScript.compare, CompareScript.classify. now rewrite N.
  - unfold CompareScript.compare, CompareScript.classify. now rewrite N.
  - unfold CompareScriptFuzzy.compare, CompareScriptFuzzy.classify.
    now rewrite N.
Qed.

(** ** The matcher *)

Lemma compare_attribute_rules (partial_ratio : text -> text -> Q)
      (w m : text) :
  compare_attribute partial_ratio w m
  = if substring_rule w m then (true, None)
    else match numeric_rule w m with
         | Some m_clean => (false, Some m_clean)
         | None =>
             if Qle_bool 85 (partial_ratio (normalize_value w)
                                           (normalize_value m))
             then (true, None) else (false, None)
         end.
Proof. reflexivity. Qed.

(** A literal pattern matches where the text starts with it. *)
Lemma rmatch_lit (w : text) (f : text -> option text) :
  forall prev s,
    Re.rmatch (Re.lit w) prev s (fun _ s' => f s')
    = if Py.startswith w s then f (skipn (length w) s) else None.
Proof.
  induction w as [|c w IH]; intros prev s; [reflexivity|].
  destruct w as [|c' w].
  - destruct s as [|x s]; [reflexivity|]. cbn.
    destruct (char_dec x c), (char_dec c x); congruence.
  - change (Re.lit (c :: c' :: w)) with (Re.Seq (Re.chr c) (Re.lit (c' :: w))).
    destruct s as [|x s]; [reflexivity|].
    cbn [Re.rmatch Re.chr Py.startswith length skipn].
    destruct (char_dec x c), (char_dec c x); try congruence.
    apply IH.
Qed.

Lemma match_at_lit (w : text) (prev : option char) (s : text) :
  is_some (Re.match_at (Re.lit w) prev s) = Py.startswith w s.
Proof.
  unfold Re.match_at. rewrite (rmatch_lit w (fun s' => Some s')).
  destruct (Py.startswith w s); reflexivity.
Qed.

(** [re.search(re.escape(w), s)] finds a match exactly when [w] occurs in
    [s]. *)
Lemma search_escape (w s : text) :
  is_some (Re.search (Re.escape w) s) = Py.contains w s.
Proof.
  unfold Re.search, Re.escape. generalize (@None char) as prev.
  induction s as [|c s IH]; intros prev.
  - cbn [Re.search_from Py.contains]. rewrite orb_false_r.
    rewrite <- (match_at_lit w prev []).
    destruct (Re.match_at (Re.lit w) prev []); reflexivity.
  - cbn [Re.search_from]. rewrite contains_cons, <- (match_at_lit w prev).
    destruct (Re.match_at (Re.lit w) prev (c :: s)); [reflexivity|].
    apply IH.
Qed.

(** C6. When neither the substring rule nor the numeric rule fires, the
    matcher answers Matched exactly when the partial-ratio score of the two
    normalized strings is at least 85, and NotMatched without a conflict
    value otherwise. *)
Theorem fuzzy_threshold (partial_ratio : text -> text -> Q) (w m : text) :
  substring_rule w m = false ->
  numeric_rule w m = None ->
  let score := partial_ratio (normalize_value w) (normalize_value m) in
  ((85 <= score)%Q -> compare_attribute partial_ratio w m = (true, None))
  /\ ((score < 85)%Q -> compare_attribute partial_ratio w m = (false, None)).
Proof.
  intros H1 H2 score. rewrite compare_attribute_rules, H1, H2.
  fold score. split; intros H.
  - apply Qle_bool_iff in H. now rewrite H.
  - destruct (Qle_bool 85 score) eqn:E; [|reflexivity].
    apply Qle_bool_iff in E. exfalso. exact (Qlt_not_le _ _ H E).
Qed.

Lemma fuzzy_threshold_witness :
  compare_attribute (fun _ _ => 85%Q) (T "Soft glow") (T "a bulb")
  = (true, None)
  /\ compare_attribute (fun _ _ => 84%Q) (T "Soft glow") (T "a bulb")
     = (false, None).
Proof.
  split.
  - apply (@fuzzy_threshold (fun _ _ => 85%Q) (T "Soft glow") (T "a bulb"));
      [vm_compute; reflexivity|vm_compute; reflexivity|].
    unfold Qle. simpl. lia.
  - apply (@fuzzy_threshold (fun _ _ => 84%Q) (T "Soft glow") (T "a bulb"));
      [vm_compute; reflexivity|vm_compute; reflexivity|].
    unfold Qlt. simpl. lia.
Defined.

(** C5. A non-empty normalized workflow value that is a literal substring
    of the manual text is Matched, with no mismatch value. The manual text
    is normalized, as [compare] passes it to the matcher; for a manual text
    of any form the matcher looks for the value in its normal form. *)
Theorem containment_soundness (partial_ratio : text -> text -> Q)
        (w m : text) :
  nonempty w = true ->
  normalize_value w = w ->
  (normalize_value m = m ->
   Py.contains w m = true ->
   compare_attribute partial_ratio w m = (true, None))
  /\ (Py.contains w (normalize_value m) = true ->
      compare_attribute partial_ratio w m = (true, None)).
Proof.
  intros Hne Hw.
  assert (G : Py.contains w (normalize_value m) = true ->
              compare_attribute partial_ratio w m = (true, None)).
  { intros Hc. rewrite compare_attribute_rules.
    unfold substring_rule. now rewrite Hw, Hne, search_escape, Hc. }
  split; [|exact G]. intros Hm Hc. apply G. now rewrite Hm.
Qed.

Lemma containment_soundness_witness :
  compare_attribute (fun _ _ => 0%Q) (T "10w") (T "a bright 10w bulb")
  = (true, None)
  /\ compare_attribute (fun _ _ => 0%Q) (T "10w") (T "A bright 10 Watt bulb")
     = (true, None).
Proof.
  split.
  - apply (proj1 (@containment_soundness (fun _ _ => 0%Q) (T "10w")
                    (T "a bright 10w bulb") eq_refl eq_refl));
      vm_compute; reflexivity.
  - apply (proj2 (@containment_soundness (fun _ _ => 0%Q) (T "10w")
                    (T "A bright 10 Watt bulb") eq_refl eq_refl));
      vm_compute; reflexivity.
Defined.

(** ** Soundness of the matcher *)

Lemma star_loop_sound (r : Re.regex) m :
  sound_for r m ->
  forall n, sound_for (Re.Star r) (fun prev s k => Re.star_loop m k n prev s).
Proof.
  intros Hm n. induction n as [|n IH]; intros prev s k x H.
  - exists [], s, prev. repeat split; [constructor|exact H].
  - cbn [Re.star_loop] in H.
    destruct (m prev s _) as [y|] eqn:E.
    + injection H as ->. apply Hm in E as [a [s' [p' [-> [La E]]]]].
      destruct (length s' <? length (a ++ s')); [|discriminate E].
      apply IH in E as [b [s'' [p'' [-> [Lb E]]]]].
      exists (a ++ b), s'', p''. rewrite app_assoc.
      repeat split; [constructor; assumption|exact E].
    + exists [], s, prev. repeat split; [constructor|exact H].
Qed.

(** The matcher is sound for the language of the pattern. *)
Lemma rmatch_sound (r : Re.regex) : sound_for r (Re.rmatch r).
Proof.
  induction r as [|p|r1 IH1 r2 IH2|r1 IH1 r2 IH2|r IH|];
    intros prev s k x H; cbn [Re.rmatch] in H.
  - exists [], s, prev. repeat split; [constructor|exact H].
  - destruct s as [|c s]; [discriminate H|].
    destruct (p c) eqn:E; [|discriminate H].
    exists [c], s, (Some c). repeat split; [now constructor|exact H].
  - apply IH1 in H as [a [s' [p' [-> [La H]]]]].
    apply IH2 in H as [b [s'' [p'' [-> [Lb H]]]]].
    exists (a ++ b), s'', p''. rewrite app_assoc.
    repeat split; [constructor; assumption|exact H].
  - destruct (Re.rmatch r1 prev s k) as [y|] eqn:E.
    + injection H as ->. apply IH1 in E as [a [s' [p' [-> [La E]]]]].
      exists a, s', p'. repeat split; [now apply lang_alt_l|exact E].
    + apply IH2 in H as [a [s' [p' [-> [La H]]]]].
      exists a, s', p'. repeat split; [now apply lang_alt_r|exact H].
  - exact (@star_loop_sound r _ IH (length s) prev s k x H).
  - destruct (xorb _ _); [|discriminate H].
    exists [], s, prev. repeat split; [constructor|exact H].
Qed.

(** A match at the head of a text is a prefix of it, in the language. *)
Lemma match_at_sound (r : Re.regex) (prev : option char) (s t : text) :
  Re.match_at r prev s = Some t -> lang r t /\ exists s', s = t ++ s'.
Proof.
  unfold Re.match_at.
  destruct (Re.rmatch r prev s _) as [rest|] eqn:E; [|discriminate].
  intros H. injection H as <-.
  apply rmatch_sound in E as [a [s' [_ [-> [La E]]]]]. injection E as ->.
  replace (length (a ++ rest) - length rest) with (length a + 0)
    by (rewrite length_app; lia).
  rewrite firstn_app_2. cbn [firstn]. rewrite app_nil_r.
  split; [exact La|now exists rest].
Qed.

(** Every item of [findall] is in the language and occurs in the text. *)
Lemma findall_from_sound (r : Re.regex) (t : text) :
  forall s prev skip,
    In t (Re.findall_from r prev skip s) ->
    lang r t /\ exists pre post, s = pre ++ t ++ post.
Proof.
  induction s as [|c s IH]; intros prev skip H.
  - destruct skip; [|destruct H]. cbn [Re.findall_from] in H.
    destruct (Re.match_at r prev []) as [m|] eqn:E; [|destruct H].
    destruct H as [<-|[]]. apply match_at_sound in E as [L [s' E]].
    split; [exact L|]. now exists [], s'.
  - assert (Htail : forall p k, In t (Re.findall_from r p k s) ->
              lang r t /\ exists pre post, c :: s = pre ++ t ++ post).
    { intros p k Hin. apply IH in Hin as [L [pre [post ->]]].
      split; [exact L|]. now exists (c :: pre), post. }
    destruct skip as [|k]; cbn [Re.findall_from] in H; [|eauto].
    destruct (Re.match_at r prev (c :: s)) as [m|] eqn:E; [|eauto].
    destruct H as [<-|H]; [|eauto].
    apply match_at_sound in E as [L [s' E]].
    split; [exact L|]. now exists [], s'.
Qed.

Lemma findall_sound (r : Re.regex) (s t : text) :
  In t (Re.findall r s) -> lang r t /\ exists pre post, s = pre ++ t ++ post.
Proof. apply findall_from_sound. Qed.

(** ** The numeric test *)

Lemma lang_seq_inv (r1 r2 : Re.regex) (t : text) :
  lang (Re.Seq r1 r2) t -> exists a b, t = a ++ b /\ lang r1 a /\ lang r2 b.
Proof. inversion 1; subst. eauto. Qed.

Lemma lang_alt_inv (r1 r2 : Re.regex) (t : text) :
  lang (Re.Alt r1 r2) t -> lang r1 t \/ lang r2 t.
Proof. inversion 1; subst; auto. Qed.

Lemma lang_eps_inv (t : text) : lang Re.Eps t -> t = [].
Proof. inversion 1; reflexivity. Qed.

Lemma lang_cls_inv (p : char -> bool) (t : text) :
  lang (Re.Cls p) t -> exists c, t = [c] /\ p c = true.
Proof. inversion 1; subst. eauto. Qed.

Lemma lang_star_cls (p : char -> bool) (t : text) :
  lang (Re.Star (Re.Cls p)) t -> Forall (fun c => p c = true) t.
Proof.
  intros H. remember (Re.Star (Re.Cls p)) as r eqn:Er.
  induction H; try discriminate Er.
  - constructor.
  - injection Er as ->. apply Forall_app. split; [|auto].
    apply lang_cls_inv in H as [c [-> Hc]]. now constructor.
Qed.

Lemma lang_chr (c : char) (t : text) : lang (Re.chr c) t -> t = [c].
Proof.
  intros H. apply lang_cls_inv in H as [x [-> Hx]].
  destruct (char_dec x c); congruence.
Qed.

Lemma lang_lit (w t : text) : lang (Re.lit w) t -> t = w.
Proof.
  revert t. induction w as [|c w IH]; intros t H.
  - now apply lang_eps_inv.
  - destruct w as [|c' w]; [now apply lang_chr|].
    change (Re.lit (c :: c' :: w)) with (Re.Seq (Re.chr c) (Re.lit (c' :: w)))
      in H.
    apply lang_seq_inv in H as [a [b [-> [Ha Hb]]]].
    apply lang_chr in Ha as ->. apply IH in Hb as ->. reflexivity.
Qed.

Lemma lang_plus_cls (p : char -> bool) (t : text) :
  lang (Re.plus (Re.Cls p)) t -> Forall (fun c => p c = true) t.
Proof.
  intros H. apply lang_seq_inv in H as [a [b [-> [Ha Hb]]]].
  apply Forall_app. split; [|now apply lang_star_cls].
  apply lang_cls_inv in Ha as [c [-> Hc]]. now constructor.
Qed.

Lemma isdigit_not_space (c : char) :
  Py.isdecimal c = true -> Py.isspace c = false.
Proof.
  intros H. apply negb_true_iff. revert c H.
  apply (@ranges_forall (fun c => negb (Py.isspace c)) Unicode.DECIMAL).
  vm_compute. reflexivity.
Qed.

(** A numeric-unit token: characters that are not white space, then white
    space, then the unit. *)
Lemma num_unit_token (t : text) :
  lang num_unit_pattern t ->
  exists body ws u,
    t = body ++ ws ++ u
    /\ Forall (fun c => Py.isspace c = false) body
    /\ Forall (fun c => Py.isspace c = true) ws
    /\ (u = T "w" \/ u = T "k" \/ u = T "lm").
Proof.
  intros H. unfold num_unit_pattern in H. cbn [Re.seqs] in H.
  apply lang_seq_inv in H as [ds [t1 [-> [Hds H]]]].
  apply lang_seq_inv in H as [fr [t2 [-> [Hfr H]]]].
  apply lang_seq_inv in H as [ws [u [-> [Hws Hu]]]].
  exists (ds ++ fr), ws, u. rewrite <- app_assoc.
  split; [reflexivity|]. split; [|split].
  - apply Forall_app. split.
    + apply lang_plus_cls in Hds.
      eapply Forall_impl; [|exact Hds]. apply isdigit_not_space.
    + apply lang_alt_inv in Hfr as [Hfr|Hfr].
      * apply lang_seq_inv in Hfr as [a [b [-> [Ha Hb]]]].
        apply lang_chr in Ha as ->. apply lang_plus_cls in Hb.
        constructor; [reflexivity|].
        eapply Forall_impl; [|exact Hb]. apply isdigit_not_space.
      * apply lang_eps_inv in Hfr as ->. constructor.
  - now apply lang_star_cls.
  - cbn [Re.alts] in Hu. unfold Re.word in Hu.
    apply lang_alt_inv in Hu as [Hu|Hu]; [left; now apply lang_lit|].
    apply lang_alt_inv in Hu as [Hu|Hu]; right;
      [left|right]; now apply lang_lit.
Qed.



Lemma conflict_in_find (w_clean : text) (ms : list text) :
  conflict_in w_clean ms
  = option_map snd
      (find (fun p => negb (text_eqb (fst p) (snd p)))
            (map (pair w_clean) (map clean ms))).
Proof.
  induction ms as [|m ms IH]; [reflexivity|].
  cbn [conflict_in map find fst snd]. fold (clean m).
  destruct (negb (text_eqb w_clean (clean m))); [reflexivity|exact IH].
Qed.

Lemma find_over_app (A : Type) (f : A -> bool) (l1 l2 : list A) :
  find f (l1 ++ l2)
  = match find f l1 with Some x => Some x | None => find f l2 end.
Proof.
  induction l1 as [|x l1 IH]; [reflexivity|]. simpl.
  destruct (f x); [reflexivity|exact IH].
Qed.

(** The two loops of the numeric test find the first differing pair. *)
Lemma conflict_first_differing (ws ms : list text) :
  conflict ws ms = first_differing ws ms.
Proof.
  unfold first_differing. induction ws as [|w ws IH]; [reflexivity|].
  cbn [conflict map list_prod]. fold (clean w).
  rewrite find_over_app, conflict_in_find.
  destruct (find _ (map (pair (clean w)) (map clean ms))); [reflexivity|].
  exact IH.
Qed.

Lemma contains_startswith (t s : text) :
  Py.startswith t s = true -> Py.contains t s = true.
Proof. intros H. destruct s; cbn [Py.contains]; now rewrite H. Qed.

Lemma contains_infix (t pre post : text) :
  Py.contains t (pre ++ t ++ post) = true.
Proof.
  induction pre as [|c pre IH].
  - cbn [app]. apply contains_startswith, startswith_app.
  - cbn [app]. rewrite contains_cons, IH. apply orb_true_r.
Qed.

Lemma nospace_clean (t : text) :
  Forall (fun c => Py.isspace c = false) t -> clean t = t.
Proof.
  intros H. unfold clean. change (T " ") with [sp].
  rewrite replace_eq by discriminate. apply replace_absent; [discriminate|].
  induction H as [|c t Hc _ IH]; [reflexivity|].
  rewrite contains_cons, IH, orb_false_r. apply startswith_head.
  intros <-. vm_compute in Hc. discriminate Hc.
Qed.

(** In a normal text a numeric-unit token holds no white space. *)
Lemma normal_token_nospace (s pre t post : text) :
  normal s -> s = pre ++ t ++ post -> lang num_unit_pattern t ->
  Forall (fun c => Py.isspace c = false) t.
Proof.
  intros N Es L. apply num_unit_token in L as [body [ws [u [Et [Hb [Hws Hu]]]]]].
  assert (Unit : Forall (fun c => Py.isspace c = false) u)
    by (destruct Hu as [ -> | [ -> | -> ] ]; repeat constructor).
  destruct ws as [|x ws] using rev_ind.
  - subst t. apply Forall_app. auto.
  - exfalso. clear IHws.
    apply Forall_app in Hws as [_ Hx]. inversion Hx as [|? ? Hx' _]; subst.
    assert (Px : plain x).
    { pose proof (normal_plain N) as P.
      rewrite !Forall_app in P. destruct P as [_ [[_ [[_ P] _]] _]].
      now inversion P. }
    rewrite (Px Hx') in N.
    assert (C : Py.contains (sp :: u)
                  (pre ++ (body ++ (ws ++ [sp]) ++ u) ++ post) = true).
    { replace (pre ++ (body ++ (ws ++ [sp]) ++ u) ++ post)
        with ((pre ++ body ++ ws) ++ (sp :: u) ++ post)
        by (rewrite <- !app_assoc; reflexivity).
      apply contains_infix. }
    destruct Hu as [ -> | [ -> | -> ] ].
    + pose proof (normal_w N) as F. change (T " w") with (sp :: T "w") in F.
      congruence.
    + pose proof (normal_k N) as F. change (T " k") with (sp :: T "k") in F.
      congruence.
    + pose proof (normal_lm N) as F. change (T " lm") with (sp :: T "lm") in F.
      congruence.
Qed.

(** Removing the spaces of a token of a normalized text changes nothing, and
    the token occurs in the text. *)
Lemma normalized_token (s t : text) :
  In t (Re.findall num_unit_pattern (normalize_value s)) ->
  clean t = t /\ Py.contains t (normalize_value s) = true.
Proof.
  intros H. apply findall_sound in H as [L [pre [post E]]].
  split.
  - apply nospace_clean.
    exact (@normal_token_nospace _ pre t post (normal_normalize s) E L).
  - rewrite E. apply contains_infix.
Qed.

(** C4, as amended. When the substring rule does not fire and both sides
    yield a numeric-unit token, the matcher answers NotMatched with the
    manual token of the first differing pair, the pairs being compared
    without their spaces, workflow token by workflow token; when no pair
    differs the fuzzy rule decides. For the workflow value ["10w"] and a
    manual text whose normal form does not contain ["10w"] and yields a
    token, the conflict value is the first token of the manual text. *)
Theorem numeric_conflict (partial_ratio : text -> text -> Q) (w m : text) :
  let workflow_nums := Re.findall num_unit_pattern (normalize_value w) in
  let manual_nums := Re.findall num_unit_pattern (normalize_value m) in
  (substring_rule w m = false ->
   nonempty_list workflow_nums = true ->
   nonempty_list manual_nums = true ->
   compare_attribute partial_ratio w m
   = match first_differing workflow_nums manual_nums with
     | Some m_clean => (false, Some m_clean)
     | None =>
         if Qle_bool 85 (partial_ratio (normalize_value w) (normalize_value m))
         then (true, None) else (false, None)
     end)
  /\ (forall t rest,
        Py.contains (T "10w") (normalize_value m) = false ->
        manual_nums = t :: rest ->
        compare_attribute partial_ratio (T "10w") m = (false, Some t)).
Proof.
  intros workflow_nums manual_nums. split.
  - intros H1 Hw Hm. rewrite compare_attribute_rules, H1.
    unfold numeric_rule. fold workflow_nums manual_nums.
    now rewrite Hw, Hm, conflict_first_differing.
  - intros t rest Hc Et.
    assert (Ht : In t (Re.findall num_unit_pattern (normalize_value m)))
      by (fold manual_nums; rewrite Et; now left).
    apply normalized_token in Ht as [Hclean Hin].
    assert (Hneq : text_eqb (T "10w") t = false).
    { apply text_eqb_neq. intros <-. congruence. }
    rewrite compare_attribute_rules. unfold substring_rule, numeric_rule.
    fold manual_nums.
    replace (normalize_value (T "10w")) with (T "10w")
      by (vm_compute; reflexivity).
    rewrite search_escape, Hc, Et.
    replace (Re.findall num_unit_pattern (T "10w")) with [T "10w"]
      by (vm_compute; reflexivity).
    cbn [nonempty nonempty_list andb conflict conflict_in].
    fold (clean (T "10w")) (clean t). rewrite Hclean.
    replace (clean (T "10w")) with (T "10w") by (vm_compute; reflexivity).
    now rewrite Hneq.
Qed.

Lemma numeric_conflict_witness :
  compare_attribute (fun _ _ => 0%Q) (T "800lm 10W") (T "800 lm and 9w")
  = (false, Some (T "9w"))
  /\ compare_attribute (fun _ _ => 0%Q) (T "10w") (T "A bright 9w bulb")
     = (false, Some (T "9w"))
  /\ compare_attribute (fun _ _ => 0%Q) (T "10w") (T "٩w 8w")
     = (false, Some (T "٩w")).
Proof.
  split; [|split].
  - refine (eq_trans
              (proj1 (@numeric_conflict (fun _ _ => 0%Q) (T "800lm 10W")
                        (T "800 lm and 9w")) _ _ _) _);
      vm_compute; reflexivity.
  - apply (proj2 (@numeric_conflict (fun _ _ => 0%Q) (T "10w")
                    (T "A bright 9w bulb")) (T "9w") []);
      vm_compute; reflexivity.
  - apply (proj2 (@numeric_conflict (fun _ _ => 0%Q) (T "10w")
                    (T "٩w 8w")) (T "٩w") [T "8w"]);
      vm_compute; reflexivity.
Defined.

(** C4 as stated fails: the manual text ["8w 9w"] contains ["9w"] and not
    ["10w"], and the conflict value is ["8w"], its first token. *)
Lemma numeric_conflict_counterexample :
  Py.contains (T "9w") (normalize_value (T "8w 9w")) = true
  /\ Py.contains (T "10w") (normalize_value (T "8w 9w")) = false
  /\ compare_attribute (fun _ _ => 0%Q) (T "10w") (T "8w 9w")
     = (false, Some (T "8w")).
Proof. vm_compute. repeat split. Qed.

(** ** The loops of [compare] *)

Lemma cat_nil_r (a : collections) : cat a (Collections [] [] []) = a.
Proof. destruct a. unfold cat. cbn. now rewrite !app_nil_r. Qed.

Lemma cat_nil_l (a : collections) : cat (Collections [] [] []) a = a.
Proof. now destruct a. Qed.

Lemma cat_assoc (a b c : collections) : cat (cat a b) c = cat a (cat b c).
Proof. unfold cat. cbn. now rewrite !app_assoc. Qed.

Lemma collect_from (f : text * pyval -> collections)
      (items : list (text * pyval)) (acc : collections) :
  fold_left (fun acc item => cat acc (f item)) items acc
  = cat acc (collect f items).
Proof.
  unfold collect. revert acc. induction items as [|x items IH]; intros acc.
  - now rewrite cat_nil_r.
  - cbn [fold_left]. rewrite IH, (IH (cat _ (f x))), cat_nil_l.
    apply cat_assoc.
Qed.

Lemma normalizable_norm_of (val : pyval) :
  normalizable val = true -> normalize_value_dyn val = Ok (norm_of val).
Proof.
  unfold normalizable, norm_of.
  destruct (normalize_value_dyn val); [reflexivity|discriminate].
Qed.

(** One round of the first loop of [compareScript.py] adds the contribution
    of the item. *)
Lemma named_step (partial_ratio : text -> text -> Q) (manual : text)
      (acc : collections) (item : text * pyval) :
  normalizable (snd item) = true ->
  CompareScript.workflow_step partial_ratio manual acc item
  = Ok (cat acc (contribution
                   (outcome_of partial_ratio manual (norm_of (snd item)))
                   item)).
Proof.
  destruct item as [key val]. cbn [snd]. intros H.
  unfold CompareScript.workflow_step, outcome_of, contribution.
  rewrite (normalizable_norm_of _ H). cbn [bind].
  destruct (nonempty (norm_of val)); cbn [negb];
    [|now rewrite cat_nil_r].
  destruct (compare_attribute partial_ratio (norm_of val) manual) as [[] o].
  - unfold cat. cbn. now rewrite !app_nil_r.
  - destruct o as [[|c v]|]; unfold cat; cbn; now rewrite !app_nil_r.
Qed.

Lemma named_loop (partial_ratio : text -> text -> Q) (manual : text)
      (items : list (text * pyval)) :
  forallb (fun item => normalizable (snd item)) items = true ->
  forall acc,
    for_each (CompareScript.workflow_step partial_ratio manual) items acc
    = Ok (cat acc
            (collect (fun item =>
                        contribution
                          (outcome_of partial_ratio manual (norm_of (snd item)))
                          item)
                     items)).
Proof.
  induction items as [|x items IH]; intros H acc.
  - cbn. now rewrite cat_nil_r.
  - cbn [forallb] in H. apply andb_true_iff in H as [Hx H].
    cbn [for_each]. rewrite named_step by exact Hx. cbn [bind].
    rewrite (IH H). unfold collect at 2. cbn [fold_left].
    rewrite collect_from, cat_nil_l, cat_assoc. reflexivity.
Qed.



Lemma strset_mem_In (x : text) (s : list text) :
  StrSet.mem x s = true <-> In x s.
Proof.
  unfold StrSet.mem. rewrite existsb_exists. split.
  - intros [y [Hy E]]. apply text_eqb_eq in E. now subst.
  - intros H. exists x. split; [exact H|apply text_eqb_refl].
Qed.

Lemma strset_add_In (x y : text) (s : list text) :
  In x (StrSet.add y s) <-> x = y \/ In x s.
Proof.
  unfold StrSet.add. destruct (StrSet.mem y s) eqn:E.
  - apply strset_mem_In in E. split; [auto|]. intros [->|H]; auto.
  - rewrite in_app_iff. cbn. split; intros H; intuition congruence.
Qed.

(** One round of the first loop of [compareScriptFuzzy.py]. *)
Lemma fuzzy_step (partial_ratio : text -> text -> Q) (manual : text)
      (acc : collections) (mv : list text) (item : text * pyval) :
  normalizable (snd item) = true ->
  let o := outcome_fuzzy partial_ratio manual (fst item) (norm_of (snd item)) in
  CompareScriptFuzzy.workflow_step partial_ratio manual (acc, mv) item
  = Ok (cat acc (contribution o item), track o (norm_of (snd item)) mv).
Proof.
  destruct item as [key val]. cbn [fst snd]. intros H.
  unfold CompareScriptFuzzy.workflow_step, outcome_fuzzy, outcome_of,
    contribution.
  rewrite (normalizable_norm_of _ H). cbn [bind].
  destruct (StrSet.mem _ CompareScriptFuzzy.IGNORE_ATTRIBUTES);
    [cbn; now rewrite cat_nil_r|].
  destruct (nonempty (norm_of val)); cbn [negb];
    [|cbn; now rewrite cat_nil_r].
  destruct (compare_attribute partial_ratio (norm_of val) manual) as [[] o].
  - unfold cat. cbn. now rewrite !app_nil_r.
  - destruct o as [[|c v]|]; unfold cat; cbn; now rewrite !app_nil_r.
Qed.

Lemma fuzzy_loop (partial_ratio : text -> text -> Q) (manual : text)
      (items : list (text * pyval)) :
  forallb (fun item => normalizable (snd item)) items = true ->
  forall acc mv,
    for_each (CompareScriptFuzzy.workflow_step partial_ratio manual) items
             (acc, mv)
    = Ok (cat acc
            (collect (fun item =>
                        contribution
                          (outcome_fuzzy partial_ratio manual (fst item)
                                         (norm_of (snd item)))
                          item)
                     items),
          fold_left (fun mv item =>
                       track (outcome_fuzzy partial_ratio manual (fst item)
                                            (norm_of (snd item)))
                             (norm_of (snd item)) mv)
                    items mv).
Proof.
  induction items as [|x items IH]; intros H acc mv.
  - cbn. now rewrite cat_nil_r.
  - cbn [forallb] in H. apply andb_true_iff in H as [Hx H].
    cbn [for_each]. rewrite fuzzy_step by exact Hx. cbn [bind].
    rewrite (IH H). unfold collect at 2. cbn [fold_left].
    rewrite collect_from, cat_nil_l, cat_assoc. reflexivity.
Qed.

(** The values tracked along the items: those already there and the
    normalized values of the items with outcome [Matched]. *)
Lemma track_In (f : text * pyval -> outcome) (x : text)
      (items : list (text * pyval)) :
  forall mv,
    In x (fold_left (fun mv item => track (f item) (norm_of (snd item)) mv)
                    items mv)
    <-> In x mv
        \/ exists item, In item items /\ f item = Matched
                        /\ norm_of (snd item) = x.
Proof.
  induction items as [|y items IH]; intros mv; cbn [fold_left].
  - split; [auto|]. intros [H|[item [[] _]]]. exact H.
  - rewrite IH. split.
    + intros [H|[item [Hin [Hf Hx]]]].
      * destruct (f y) eqn:E; cbn [track] in H; auto.
        apply strset_add_In in H as [->|H]; auto.
        right. exists y. repeat split; auto. now left.
      * right. exists item. repeat split; auto. now right.
    + intros [H|[item [[<-|Hin] [Hf Hx]]]].
      * left. destruct (f y); cbn [track]; auto.
        apply strset_add_In. auto.
      * left. rewrite Hf. cbn [track]. apply strset_add_In. auto.
      * right. exists item. auto.
Qed.

Lemma fold_left_app_init (A : Type) (step : list text -> A -> list text)
      (l : list A) :
  (forall acc x, exists e, step acc x = acc ++ e
                           /\ forall acc', step acc' x = acc' ++ e) ->
  forall acc, fold_left step l acc = acc ++ fold_left step l [].
Proof.
  intros Hs. induction l as [|x l IH]; intros acc; cbn [fold_left].
  - now rewrite app_nil_r.
  - destruct (Hs acc x) as [e [E1 E2]].
    rewrite E1, (E2 []), IH, (IH ([] ++ e)). cbn [app].
    now rewrite app_assoc.
Qed.

(** ** The partition of the workflow attributes *)

Lemma collect_flat_map (f : text * pyval -> collections)
      (items : list (text * pyval)) :
  collect f items
  = Collections (flat_map (fun item => matched (f item)) items)
                (flat_map (fun item => mismatched (f item)) items)
                (flat_map (fun item => missing (f item)) items).
Proof.
  induction items as [|x items IH]; [reflexivity|].
  unfold collect. cbn [fold_left]. rewrite collect_from, cat_nil_l, IH.
  reflexivity.
Qed.

Lemma contribution_size (o : outcome) (item : text * pyval) :
  size (contribution o item) = match o with Skipped => 0 | _ => 1 end.
Proof. destruct item, o; reflexivity. Qed.

Lemma outcome_of_size (partial_ratio : text -> text -> Q)
      (manual : text) (item : text * pyval) :
  size (contribution (outcome_of partial_ratio manual (norm_of (snd item)))
                     item)
  = if nonempty (norm_of (snd item)) then 1 else 0.
Proof.
  rewrite contribution_size. unfold outcome_of.
  destruct (nonempty (norm_of (snd item))); [|reflexivity].
  destruct (compare_attribute _ _ _) as [[] [[|c v]|]]; reflexivity.
Qed.

Lemma named_manual_step (keys : list text) (item : text * text) :
  forall acc, exists e,
    CompareScript.manual_step keys acc item = acc ++ e
    /\ forall acc', CompareScript.manual_step keys acc' item = acc' ++ e.
Proof.
  intros acc. destruct item as [a v]. unfold CompareScript.manual_step.
  destruct (negb _); eexists; split; try reflexivity;
    intros; now rewrite ?app_nil_r.
Qed.

Lemma fuzzy_manual_step (partial_ratio : text -> text -> Q)
      (mv : list text) (x : text) :
  forall acc, exists e,
    CompareScriptFuzzy.manual_step partial_ratio mv acc x = acc ++ e
    /\ forall acc',
         CompareScriptFuzzy.manual_step partial_ratio mv acc' x = acc' ++ e.
Proof.
  intros acc. unfold CompareScriptFuzzy.manual_step.
  destruct (negb _); eexists; split; try reflexivity;
    intros; now rewrite ?app_nil_r.
Qed.

(** C1, as amended. When [compare] returns, every entry of the extracted
    specification whose value normalizes to a non-empty string, and whose
    key is not in the ignore list in the value-set variant, contributes
    exactly one entry to exactly one of the three collections; the other
    entries contribute nothing. The collections hold the contributions in the
    order of the entries, the missing collection holding after them what the
    scan of the manual text adds. *)
Theorem report_partition (partial_ratio : text -> text -> Q)
        (manual_text payload : pyval) (manual : text)
        (items : list (text * pyval)) :
  normalize manual_text = Ok manual ->
  py_items (extract_specification payload) = Ok items ->
  forallb (fun item => normalizable (snd item)) items = true ->
  let named := named_contribution partial_ratio manual in
  let fuzzy := fuzzy_contribution partial_ratio manual in
  (exists c manual_attrs,
      CompareScript.classify partial_ratio manual_text payload = Ok c
      /\ CompareScript.extract_manual_attributes manual_text = Ok manual_attrs
      /\ matched c = flat_map (fun item => matched (named item)) items
      /\ mismatched c = flat_map (fun item => mismatched (named item)) items
      /\ missing c
         = flat_map (fun item => missing (named item)) items
           ++ fold_left (CompareScript.manual_step (Dict.keys items))
                        manual_attrs [])
  /\ (exists c matched_values manual_values,
         CompareScriptFuzzy.classify partial_ratio manual_text payload
         = Ok (c, matched_values)
         /\ CompareScriptFuzzy.extract_manual_values manual_text
            = Ok manual_values
         /\ matched c = flat_map (fun item => matched (fuzzy item)) items
         /\ mismatched c = flat_map (fun item => mismatched (fuzzy item)) items
         /\ missing c
            = flat_map (fun item => missing (fuzzy item)) items
              ++ fold_left
                   (CompareScriptFuzzy.manual_step partial_ratio matched_values)
                   (Py.sorted (StrSet.diff manual_values matched_values)) [])
  /\ (forall item,
         size (named item) = if nonempty (norm_of (snd item)) then 1 else 0)
  /\ (forall item,
         size (fuzzy item)
         = if StrSet.mem (Py.strip (Py.lower (fst item)))
                         CompareScriptFuzzy.IGNORE_ATTRIBUTES
           then 0
           else if nonempty (norm_of (snd item)) then 1 else 0).
Proof.
  intros Hm Hi Hn named fuzzy.
  assert (Hm' : normalize_value_dyn manual_text = Ok manual) by exact Hm.
  split; [|split; [|split]].
  - unfold CompareScript.classify, CompareScript.extract_manual_attributes.
    rewrite Hm, Hi, Hm'. cbn [bind].
    rewrite (named_loop partial_ratio manual items Hn). cbn [bind].
    rewrite cat_nil_l, collect_flat_map. cbn [matched mismatched missing].
    do 2 eexists. split; [reflexivity|]. split; [reflexivity|].
    split; [reflexivity|]. split; [reflexivity|].
    apply fold_left_app_init. intros acc x. apply named_manual_step.
  - unfold CompareScriptFuzzy.classify,
      CompareScriptFuzzy.extract_manual_values.
    rewrite Hm, Hi, Hm'. cbn [bind].
    rewrite (fuzzy_loop partial_ratio manual items Hn). cbn [bind].
    rewrite cat_nil_l, collect_flat_map. cbn [matched mismatched missing].
    do 3 eexists. split; [reflexivity|]. split; [reflexivity|].
    split; [reflexivity|]. split; [reflexivity|].
    apply fold_left_app_init. intros acc x. apply fuzzy_manual_step.
  - intros item. apply outcome_of_size.
  - intros item. unfold fuzzy, fuzzy_contribution, outcome_fuzzy.
    destruct (StrSet.mem _ _); [now rewrite contribution_size|].
    apply outcome_of_size.
Qed.

Lemma report_partition_witness :
  let named := named_contribution no_similarity (normalize_value bulb_manual) in
  let fuzzy := fuzzy_contribution no_similarity (normalize_value bulb_manual) in
  let manual_text := PStr bulb_manual in
  let payload := payload_of (PDict bulb_items) in
  (exists c manual_attrs,
      CompareScript.classify no_similarity manual_text payload = Ok c
      /\ CompareScript.extract_manual_attributes manual_text = Ok manual_attrs
      /\ matched c = flat_map (fun item => matched (named item)) bulb_items
      /\ mismatched c
         = flat_map (fun item => mismatched (named item)) bulb_items
      /\ missing c
         = flat_map (fun item => missing (named item)) bulb_items
           ++ fold_left (CompareScript.manual_step (Dict.keys bulb_items))
                        manual_attrs [])
  /\ (exists c matched_values manual_values,
         CompareScriptFuzzy.classify no_similarity manual_text payload
         = Ok (c, matched_values)
         /\ CompareScriptFuzzy.extract_manual_values manual_text
            = Ok manual_values
         /\ matched c = flat_map (fun item => matched (fuzzy item)) bulb_items
         /\ mismatched c
            = flat_map (fun item => mismatched (fuzzy item)) bulb_items
         /\ missing c
            = flat_map (fun item => missing (fuzzy item)) bulb_items
              ++ fold_left
                   (CompareScriptFuzzy.manual_step no_similarity matched_values)
                   (Py.sorted (StrSet.diff manual_values matched_values)) [])
  /\ (forall item,
         size (named item) = if nonempty (norm_of (snd item)) then 1 else 0)
  /\ (forall item,
         size (fuzzy item)
         = if StrSet.mem (Py.strip (Py.lower (fst item)))
                         CompareScriptFuzzy.IGNORE_ATTRIBUTES
           then 0
           else if nonempty (norm_of (snd item)) then 1 else 0).
Proof.
  apply (@report_partition no_similarity (PStr bulb_manual)
           (payload_of (PDict bulb_items)) (normalize_value bulb_manual)
           bulb_items);
    vm_compute; reflexivity.
Defined.

(** C1 as stated fails in the value-set variant: the attribute
    [Category: Bulbs] has a non-empty normalized value and is in none of the
    three collections. *)
Lemma report_partition_counterexample :
  nonempty (norm_of (PStr (T "Bulbs"))) = true
  /\ CompareScriptFuzzy.classify no_similarity (PStr (T "Bulbs for the home"))
       (payload_of (PDict category_items))
     = Ok (Collections [] [] [], [])
  /\ CompareScriptFuzzy.compare no_similarity (PStr (T "Bulbs for the home"))
       (payload_of (PDict category_items))
     = Ok NO_SPECIFICATIONS.
Proof. vm_compute. repeat split. Qed.

(** ** The suppression set and the unit replacements *)

(** C10. In the value-set variant the set [matched_values] that filters the
    scanned values holds exactly the normalized values of the attributes with
    outcome Matched. For the specification [{"Wattage": "10W"}] and the
    manual text "a bright 9w bulb" the value "9w" is the conflict value of
    the Mismatched entry and is reported again as an unmatched manual value
    in the Missing section. *)
Theorem matched_values_suppression (partial_ratio : text -> text -> Q)
        (manual_text payload : pyval) (manual : text)
        (items : list (text * pyval)) :
  normalize manual_text = Ok manual ->
  py_items (extract_specification payload) = Ok items ->
  forallb (fun item => normalizable (snd item)) items = true ->
  (exists c matched_values,
      CompareScriptFuzzy.classify partial_ratio manual_text payload
      = Ok (c, matched_values)
      /\ forall x,
           In x matched_values <->
           exists item,
             In item items
             /\ outcome_fuzzy partial_ratio manual (fst item)
                              (norm_of (snd item)) = Matched
             /\ norm_of (snd item) = x)
  /\ CompareScriptFuzzy.classify partial_ratio (PStr (T "a bright 9w bulb"))
       (payload_of (PDict wattage_items))
     = Ok (Collections
             []
             [entry (T "Wattage") (T "9w") (T "10w")]
             [entry (T "Unmatched Manual Value") (T "9w") (T "Not found")],
           [])
  /\ CompareScriptFuzzy.compare partial_ratio (PStr (T "a bright 9w bulb"))
       (payload_of (PDict wattage_items))
     = Ok (Py.join [nl; nl]
             [section_text MISMATCHED_LABEL
                [entry (T "Wattage") (T "9w") (T "10w")];
              section_text MISSING_LABEL
                [entry (T "Unmatched Manual Value") (T "9w") (T "Not found")]]).
Proof.
  intros Hm Hi Hn.
  assert (Hm' : normalize_value_dyn manual_text = Ok manual) by exact Hm.
  split; [|split; vm_compute; reflexivity].
  unfold CompareScriptFuzzy.classify, CompareScriptFuzzy.extract_manual_values.
  rewrite Hm, Hi, Hm'. cbn [bind].
  rewrite (fuzzy_loop partial_ratio manual items Hn). cbn [bind].
  do 2 eexists. split; [reflexivity|].
  intros x.
  rewrite (track_In (fun item => outcome_fuzzy partial_ratio manual (fst item)
                                   (norm_of (snd item))) x items []).
  split; [intros [[]|H]; exact H|auto].
Qed.

Lemma matched_values_suppression_witness :
  (exists c matched_values,
      CompareScriptFuzzy.classify no_similarity (PStr bulb_manual)
        (payload_of (PDict bulb_items))
      = Ok (c, matched_values)
      /\ forall x,
           In x matched_values <->
           exists item,
             In item bulb_items
             /\ outcome_fuzzy no_similarity (normalize_value bulb_manual)
                              (fst item) (norm_of (snd item)) = Matched
             /\ norm_of (snd item) = x)
  /\ CompareScriptFuzzy.classify no_similarity (PStr (T "a bright 9w bulb"))
       (payload_of (PDict wattage_items))
     = Ok (Collections
             []
             [entry (T "Wattage") (T "9w") (T "10w")]
             [entry (T "Unmatched Manual Value") (T "9w") (T "Not found")],
           [])
  /\ CompareScriptFuzzy.compare no_similarity (PStr (T "a bright 9w bulb"))
       (payload_of (PDict wattage_items))
     = Ok (Py.join [nl; nl]
             [section_text MISMATCHED_LABEL
                [entry (T "Wattage") (T "9w") (T "10w")];
              section_text MISSING_LABEL
                [entry (T "Unmatched Manual Value") (T "9w") (T "Not found")]]).
Proof.
  apply (@matched_values_suppression no_similarity (PStr bulb_manual)
           (payload_of (PDict bulb_items)) (normalize_value bulb_manual)
           bulb_items);
    vm_compute; reflexivity.
Defined.

(** C7. The unit replacements of the Normalizer: "watt" with its space is
    written [w], and no space is left before a [w], an [lm] or a [k],
    wherever they stand. The space before any word that begins with [w] goes
    as well: "Warm White" becomes "warmwhite", which the colour patterns of
    the two scanners cannot find. *)
Theorem unit_canonicalization (s : text) :
  Py.contains (T " w") (normalize_value s) = false
  /\ Py.contains (T " lm") (normalize_value s) = false
  /\ Py.contains (T " k") (normalize_value s) = false
  /\ normalize_value (T " 10 Watt  800 LM – 2700 K, 9 W ")
     = T "10w 800lm - 2700k, 9w"
  /\ normalize_value (T "Warm White") = T "warmwhite"
  /\ Re.findall CompareScriptFuzzy.colors_pattern
                (normalize_value (T "Warm White")) = []
  /\ CompareScript.extract_manual_attributes (PStr (T "Warm White")) = Ok [].
Proof.
  pose proof (normal_normalize s) as N.
  split; [apply N|]. split; [apply N|]. split; [apply N|].
  vm_compute. repeat split.
Qed.

(** ** Further properties of the normalizer and the matcher *)

(** X1. A normalized text is in lower case and trimmed, its white space is
    single spaces, and it holds no en-dash. *)
Theorem normalize_value_shape (s : text) :
  let v := normalize_value s in
  Py.lower v = v
  /\ Py.strip v = v
  /\ Forall (fun c => Py.isspace c = true -> c = sp) v
  /\ Py.contains [sp; sp] v = false
  /\ Py.contains en_dash v = false.
Proof.
  destruct (normal_normalize s) as [Hl Hs He Hp Hd Hn _ _ _]. cbv zeta.
  split; [now apply lower_id|]. split; [now apply strip_id|].
  split; [exact Hp|]. split; assumption.
Qed.

Lemma isspace_lower_full (c : char) :
  forallb Py.isspace (Py.lower_full c) = Py.isspace c.
Proof.
  destruct (Py.isspace c) eqn:E.
  - pose proof (proj1 (neutral_spec _ (space_char _ E))) as Hc.
    rewrite (lower_full_id _ Hc). cbn [forallb]. now rewrite E.
  - pose proof (lower_full_nonempty c) as Hne.
    destruct (Py.lower_full c) as [|x l] eqn:L; [congruence|].
    cbn [forallb].
    assert (Hx : In x (Py.lower_full c)) by (rewrite L; now left).
    apply lower_full_spec in Hx as [_ Hx]. now rewrite (Hx E).
Qed.

Lemma forallb_isspace_lower_from (s : text) :
  forall before,
    forallb Py.isspace (Py.lower_from before s) = forallb Py.isspace s.
Proof.
  induction s as [|c s IH]; intros before; [reflexivity|].
  cbn [Py.lower_from forallb]. rewrite forallb_app, IH. f_equal.
  destruct (N.eqb_spec c Py.SIGMA) as [->|_].
  - destruct (Py.final_sigma before s); reflexivity.
  - apply isspace_lower_full.
Qed.

Lemma forallb_isspace_lower (s : text) :
  forallb Py.isspace (Py.lower s) = forallb Py.isspace s.
Proof. apply forallb_isspace_lower_from. Qed.

Lemma lstrip_nil (s : text) :
  Py.lstrip s = [] <-> forallb Py.isspace s = true.
Proof.
  induction s as [|c s IH]; [split; reflexivity|].
  cbn [Py.lstrip forallb]. destruct (Py.isspace c); [exact IH|].
  split; discriminate.
Qed.

Lemma forallb_isspace_lstrip (s : text) :
  forallb Py.isspace (Py.lstrip s) = forallb Py.isspace s.
Proof.
  induction s as [|c s IH]; [reflexivity|].
  cbn [Py.lstrip]. destruct (Py.isspace c) eqn:E; [|reflexivity].
  cbn [forallb]. now rewrite E, IH.
Qed.

Lemma forallb_rev (A : Type) (f : A -> bool) (l : list A) :
  forallb f (rev l) = forallb f l.
Proof.
  induction l as [|x l IH]; [reflexivity|].
  cbn [rev forallb]. rewrite forallb_app, IH. cbn [forallb].
  rewrite andb_true_r. apply andb_comm.
Qed.

Lemma strip_nil (s : text) :
  Py.strip s = [] <-> forallb Py.isspace s = true.
Proof.
  unfold Py.strip, Py.rstrip.
  rewrite <- forallb_isspace_lstrip, <- (@forallb_rev _ Py.isspace (Py.lstrip s)).
  rewrite <- lstrip_nil. split; intros H.
  - apply (f_equal (@rev char)) in H. now rewrite rev_involutive in H.
  - now rewrite H.
Qed.

Lemma replace_from_nil (old new s : text) :
  old <> [] -> new <> [] ->
  Py.replace_from old new 0 s = [] -> s = [].
Proof.
  intros Ho Hn H. destruct s as [|c s]; [reflexivity|]. exfalso.
  destruct (Py.startswith old (c :: s)) eqn:E.
  - destruct (@startswith_split _ _ E) as [rest Hr]. rewrite Hr in H.
    rewrite replace_hit in H by exact Ho.
    destruct new; [congruence|discriminate H].
  - rewrite replace_miss in H by exact E. discriminate H.
Qed.

Lemma squeeze_nil (s : text) : squeeze false s = [] -> s = [].
Proof.
  destruct s as [|c s]; [reflexivity|]. cbn [squeeze].
  destruct (Py.isspace c); discriminate.
Qed.

(** X2. A string normalizes to the empty string exactly when it holds white
    space only: these are the values [compare] skips. *)
Theorem normalize_value_empty (s : text) :
  normalize_value s = [] <-> forallb Py.isspace s = true.
Proof.
  rewrite <- forallb_isspace_lower, <- strip_nil. split.
  - unfold normalize_value. rewrite !replace_eq by discriminate.
    rewrite sub_spaces. intros H.
    repeat (apply replace_from_nil in H; [|discriminate|discriminate]).
    apply squeeze_nil in H.
    now apply replace_from_nil in H; [|discriminate|discriminate].
  - intros H. unfold normalize_value. rewrite H. reflexivity.
Qed.

(** X3. The matcher sees its arguments through their normal forms only:
    normalizing them beforehand, as [compare] does, changes nothing. *)
Theorem compare_attribute_normalized (partial_ratio : text -> text -> Q)
        (w m : text) :
  compare_attribute partial_ratio (normalize_value w) (normalize_value m)
  = compare_attribute partial_ratio w m.
Proof.
  unfold compare_attribute.
  now rewrite !(normalize_normal (normal_normalize _)).
Qed.

Lemma startswith_refl (s : text) : Py.startswith s s = true.
Proof. rewrite <- (app_nil_r s) at 2. apply startswith_app. Qed.

(** X4. A value whose normal form is not empty is Matched against itself as
    manual text, whatever the scorer answers. *)
Theorem compare_attribute_self (partial_ratio : text -> text -> Q) (s : text) :
  nonempty (normalize_value s) = true ->
  compare_attribute partial_ratio s s = (true, None).
Proof.
  intros H. rewrite compare_attribute_rules. unfold substring_rule.
  now rewrite H, search_escape, (@contains_startswith _ _ (startswith_refl _)).
Qed.

Lemma compare_attribute_self_witness :
  compare_attribute (fun _ _ => 0%Q) (T "Warm  White") (T "Warm  White")
  = (true, None).
Proof.
  apply (@compare_attribute_self (fun _ _ => 0%Q) (T "Warm  White")).
  vm_compute. reflexivity.
Defined.

(** ** The conflict value, the extraction and the errors of [compare] *)

Lemma conflict_in_some (w_clean c : text) (ms : list text) :
  conflict_in w_clean ms = Some c ->
  exists m, In m ms /\ c = clean m /\ w_clean <> c.
Proof.
  induction ms as [|m ms IH]; [discriminate|]. cbn [conflict_in].
  fold (clean m). destruct (text_eqb w_clean (clean m)) eqn:E; cbn [negb].
  - intros H. destruct (IH H) as [m' [Hin Hc]]. exists m'. split; auto.
    now right.
  - intros H. injection H as <-. exists m. split; [now left|].
    split; [reflexivity|]. now apply text_eqb_neq.
Qed.

Lemma conflict_some (ws ms : list text) (c : text) :
  conflict ws ms = Some c ->
  exists w m, In w ws /\ In m ms /\ c = clean m /\ clean w <> c.
Proof.
  induction ws as [|w ws IH]; [discriminate|]. cbn [conflict].
  fold (clean w). destruct (conflict_in (clean w) ms) as [x|] eqn:E.
  - intros H. injection H as ->.
    apply conflict_in_some in E as [m [Hin [Hc Hne]]].
    exists w, m. repeat split; auto. now left.
  - intros H. destruct (IH H) as [w' [m [Hw H']]]. exists w', m.
    split; [now right|exact H'].
Qed.

Lemma num_unit_token_nonempty (t : text) :
  lang num_unit_pattern t -> nonempty t = true.
Proof.
  intros H. apply num_unit_token in H as [body [ws [u [-> [_ [_ Hu]]]]]].
  destruct Hu as [ -> | [ -> | -> ] ]; destruct body, ws; reflexivity.
Qed.

(** X5. A conflict value is never empty: it is a numeric-unit token of the
    normalized manual text, where it stands without white space, and it
    differs from a token of the normalized workflow value; the substring rule
    has not fired. A match carries no conflict value. *)
Theorem conflict_value_shape (partial_ratio : text -> text -> Q)
        (w m c : text) (is_match : bool) :
  compare_attribute partial_ratio w m = (is_match, Some c) ->
  is_match = false
  /\ nonempty c = true
  /\ In c (Re.findall num_unit_pattern (normalize_value m))
  /\ Py.contains c (normalize_value m) = true
  /\ (exists t, In t (Re.findall num_unit_pattern (normalize_value w))
                /\ t <> c)
  /\ Py.contains (normalize_value w) (normalize_value m) = false.
Proof.
  rewrite compare_attribute_rules.
  destruct (substring_rule w m) eqn:Es; [discriminate|].
  destruct (numeric_rule w m) as [x|] eqn:En;
    [|destruct (Qle_bool _ _); discriminate].
  intros H. injection H as <- ->. unfold numeric_rule in En.
  destruct (nonempty_list _ && nonempty_list _); [|discriminate En].
  apply conflict_some in En as [t [m0 [Ht [Hm0 [Hc Hne]]]]].
  destruct (normalized_token _ _ Hm0) as [Hclean Hin].
  destruct (normalized_token _ _ Ht) as [Hclean' _].
  rewrite Hclean in Hc. rewrite Hclean' in Hne. subst c.
  split; [reflexivity|]. split.
  { apply num_unit_token_nonempty. now apply findall_sound in Hm0. }
  split; [exact Hm0|]. split; [exact Hin|]. split; [now exists t|].
  unfold substring_rule in Es. rewrite search_escape in Es.
  destruct (Py.contains (normalize_value w) (normalize_value m)) eqn:E;
    [|reflexivity].
  rewrite andb_true_r in Es.
  assert (Hw : nonempty (normalize_value w) = true).
  { destruct (findall_sound _ _ _ Ht) as [L [pre [post Ep]]].
    apply num_unit_token_nonempty in L. rewrite Ep.
    destruct pre; [|reflexivity]. destruct t; [discriminate L|reflexivity]. }
  congruence.
Qed.

Lemma conflict_value_shape_witness :
  false = false
  /\ nonempty (T "9w") = true
  /\ In (T "9w") (Re.findall num_unit_pattern
                             (normalize_value (T "A bright 9 W bulb")))
  /\ Py.contains (T "9w") (normalize_value (T "A bright 9 W bulb")) = true
  /\ (exists t, In t (Re.findall num_unit_pattern (normalize_value (T "10W")))
                /\ t <> T "9w")
  /\ Py.contains (normalize_value (T "10W"))
                 (normalize_value (T "A bright 9 W bulb")) = false.
Proof.
  apply (@conflict_value_shape (fun _ _ => 0%Q) (T "10W")
           (T "A bright 9 W bulb") (T "9w") false).
  vm_compute. reflexivity.
Defined.



Lemma extract_specification_cases (payload : pyval) :
  extract_specification payload
  = match specification_at payload with
    | Some spec => if truthy spec then spec else PDict []
    | None => PDict []
    end.
Proof.
  unfold extract_specification, specification_at, py_get.
  destruct payload as [| | | | |d]; try reflexivity.
  destruct (Dict.get (T "verified") d) as [[| | | | |v]|]; try reflexivity.
  cbn [bind]. destruct (Dict.get (T "specification") v); reflexivity.
Qed.

(** X6. Whatever else a payload object and its [verified] object hold, a
    true value stored under [verified.specification] is what
    [extract_specification] returns, and a false value stored there gives the
    empty mapping; so does every payload in which the path does not exist: a
    payload or a [verified] that is not an object, a missing key. *)
Theorem extract_specification_round_trip
        (d v : list (text * pyval)) (spec : pyval) :
  extract_specification
    (PDict (Dict.set (T "verified")
                     (PDict (Dict.set (T "specification") spec v)) d))
  = (if truthy spec then spec else PDict [])
  /\ (forall payload,
         specification_at payload = None ->
         extract_specification payload = PDict []).
Proof.
  split.
  - rewrite extract_specification_cases. unfold specification_at.
    now rewrite !dict_get_set_same.
  - intros payload H. now rewrite extract_specification_cases, H.
Qed.

Lemma not_normalizable (v : pyval) :
  normalizable v = false -> normalize_value_dyn v = Raise AttributeError.
Proof.
  unfold normalizable, normalize_value_dyn.
  destruct (truthy v); [|discriminate]. destruct v; try reflexivity.
  discriminate.
Qed.

Lemma named_loop_raises (partial_ratio : text -> text -> Q) (manual : text)
      (items : list (text * pyval)) :
  forallb (fun item => normalizable (snd item)) items = false ->
  forall acc,
    for_each (CompareScript.workflow_step partial_ratio manual) items acc
    = Raise AttributeError.
Proof.
  induction items as [|x items IH]; [discriminate|]. intros H acc.
  cbn [forallb] in H. cbn [for_each].
  destruct (normalizable (snd x)) eqn:E.
  - rewrite named_step by exact E. cbn [bind]. now apply IH.
  - destruct x as [key val]. cbn [snd] in E.
    unfold CompareScript.workflow_step.
    now rewrite (not_normalizable _ E).
Qed.

Lemma fuzzy_loop_raises (partial_ratio : text -> text -> Q) (manual : text)
      (items : list (text * pyval)) :
  forallb (fun item => normalizable (snd item)) items = false ->
  forall st,
    for_each (CompareScriptFuzzy.workflow_step partial_ratio manual) items st
    = Raise AttributeError.
Proof.
  induction items as [|x items IH]; [discriminate|]. intros H [acc mv].
  cbn [forallb] in H. cbn [for_each].
  destruct (normalizable (snd x)) eqn:E.
  - rewrite fuzzy_step by exact E. cbn [bind]. now apply IH.
  - destruct x as [key val]. cbn [snd] in E.
    unfold CompareScriptFuzzy.workflow_step.
    now rewrite (not_normalizable _ E).
Qed.

(** X7. In both scripts [compare] returns a report when the manual text is a
    string or a false value, the extracted specification is a mapping and all
    its values are strings or false values, the values of ignored attributes
    included; in every other case it raises [AttributeError]. *)
Theorem compare_returns_or_raises (partial_ratio : text -> text -> Q)
        (manual_text payload : pyval) :
  if compare_returns manual_text payload
  then (exists report,
           CompareScript.compare partial_ratio manual_text payload = Ok report)
       /\ (exists report,
              CompareScriptFuzzy.compare partial_ratio manual_text payload
              = Ok report)
  else CompareScript.compare partial_ratio manual_text payload
       = Raise AttributeError
       /\ CompareScriptFuzzy.compare partial_ratio manual_text payload
          = Raise AttributeError.
Proof.
  unfold compare_returns, CompareScript.compare, CompareScriptFuzzy.compare,
    CompareScript.classify, CompareScriptFuzzy.classify,
    CompareScript.extract_manual_attributes,
    CompareScriptFuzzy.extract_manual_values, normalize.
  destruct (normalizable manual_text) eqn:Em; cbn [andb].
  - rewrite (normalizable_norm_of _ Em). cbn [bind].
    destruct (py_items (extract_specification payload)) as [items|e] eqn:Ei.
    + cbn [bind].
      destruct (forallb _ items) eqn:Ef.
      * rewrite (named_loop partial_ratio (norm_of manual_text) items Ef),
          (fuzzy_loop partial_ratio (norm_of manual_text) items Ef).
        cbn [bind]. split; eexists; reflexivity.
      * now rewrite (named_loop_raises partial_ratio _ _ Ef),
          (fuzzy_loop_raises partial_ratio _ _ Ef).
    + unfold py_items in Ei.
      destruct (extract_specification payload); try discriminate Ei;
        injection Ei as <-; split; reflexivity.
  - rewrite (not_normalizable _ Em). split; reflexivity.
Qed.

(** ** The sentinel, the manual text and the rows *)

Lemma extract_specification_round_trip_witness :
  extract_specification
    (PDict (Dict.set (T "verified")
                     (PDict (Dict.set (T "specification")
                                      (PDict wattage_items)
                                      [(T "specification", PNone)]))
                     [(T "status", PStr (T "ok"))]))
  = PDict wattage_items
  /\ extract_specification (PList [PDict wattage_items]) = PDict [].
Proof.
  destruct (@extract_specification_round_trip
              [(T "status", PStr (T "ok"))] [(T "specification", PNone)]
              (PDict wattage_items)) as [H1 H2].
  split; [exact H1|]. apply H2. reflexivity.
Defined.

Lemma head_differs (a b : text) (n : nat) :
  firstn n a <> firstn n b -> a <> b.
Proof. intros H E. apply H. now rewrite E. Qed.

(** X8. The sentinel is the report of three empty collections only: a report
    with a section is never the sentinel. *)
Theorem sentinel_only_when_empty (matched mismatched missing : list text) :
  build_response matched mismatched missing = NO_SPECIFICATIONS
  <-> matched = [] /\ mismatched = [] /\ missing = [].
Proof.
  split.
  - destruct matched as [|x1 l1], mismatched as [|x2 l2], missing as [|x3 l3];
      auto; intros H; exfalso; revert H; apply (@head_differs _ _ 5);
      discriminate.
  - intros [-> [-> ->]]. reflexivity.
Qed.

Lemma normalize_str (s : text) :
  normalize_value_dyn (PStr s) = Ok (normalize_value s).
Proof. destruct s; reflexivity. Qed.

(** X9. When the manual text normalizes to the empty string ([None], the
    empty string, white space) and the extracted specification is empty,
    [compare] returns the sentinel in both scripts. *)
Theorem compare_empty_input (partial_ratio : text -> text -> Q)
        (manual_text payload : pyval) :
  normalize manual_text = Ok [] ->
  py_items (extract_specification payload) = Ok [] ->
  CompareScript.compare partial_ratio manual_text payload
  = Ok NO_SPECIFICATIONS
  /\ CompareScriptFuzzy.compare partial_ratio manual_text payload
     = Ok NO_SPECIFICATIONS.
Proof.
  intros Hm Hi.
  assert (Hm' : normalize_value_dyn manual_text = Ok []) by exact Hm.
  unfold CompareScript.compare, CompareScriptFuzzy.compare,
    CompareScript.classify, CompareScriptFuzzy.classify,
    CompareScript.extract_manual_attributes,
    CompareScriptFuzzy.extract_manual_values.
  rewrite Hm, Hi, Hm'. split; reflexivity.
Qed.

Lemma compare_empty_input_witness :
  CompareScript.compare no_similarity PNone (PList [PStr (T "x")])
  = Ok NO_SPECIFICATIONS
  /\ CompareScriptFuzzy.compare no_similarity PNone (PList [PStr (T "x")])
     = Ok NO_SPECIFICATIONS.
Proof.
  apply (@compare_empty_input no_similarity PNone (PList [PStr (T "x")]));
    reflexivity.
Defined.

(** X10. The report depends on the manual text through its normal form
    only: two manual texts with the same normal form, such as a text and its
    normal form, give the same result in both scripts. *)
Theorem compare_manual_normal_form (partial_ratio : text -> text -> Q)
        (m1 m2 : text) (payload : pyval) :
  normalize_value m1 = normalize_value m2 ->
  CompareScript.compare partial_ratio (PStr m1) payload
  = CompareScript.compare partial_ratio (PStr m2) payload
  /\ CompareScriptFuzzy.compare partial_ratio (PStr m1) payload
     = CompareScriptFuzzy.compare partial_ratio (PStr m2) payload
  /\ CompareScript.compare partial_ratio (PStr (normalize_value m1)) payload
     = CompareScript.compare partial_ratio (PStr m1) payload
  /\ CompareScriptFuzzy.compare partial_ratio (PStr (normalize_value m1))
                                payload
     = CompareScriptFuzzy.compare partial_ratio (PStr m1) payload.
Proof.
  intros H.
  unfold CompareScript.compare, CompareScriptFuzzy.compare,
    CompareScript.classify, CompareScriptFuzzy.classify,
    CompareScript.extract_manual_attributes,
    CompareScriptFuzzy.extract_manual_values, normalize.
  rewrite !normalize_str, (normalize_normal (normal_normalize m1)), H.
  repeat split; reflexivity.
Qed.

Lemma compare_manual_normal_form_witness :
  let payload := payload_of (PDict wattage_items) in
  let m1 := T "  A Bright 9 Watt   BULB" in
  let m2 := T "a bright 9w bulb" in
  CompareScript.compare no_similarity (PStr m1) payload
  = CompareScript.compare no_similarity (PStr m2) payload
  /\ CompareScriptFuzzy.compare no_similarity (PStr m1) payload
     = CompareScriptFuzzy.compare no_similarity (PStr m2) payload
  /\ CompareScript.compare no_similarity (PStr (normalize_value m1)) payload
     = CompareScript.compare no_similarity (PStr m1) payload
  /\ CompareScriptFuzzy.compare no_similarity (PStr (normalize_value m1))
                                payload
     = CompareScriptFuzzy.compare no_similarity (PStr m1) payload.
Proof.
  apply (@compare_manual_normal_form no_similarity
           (T "  A Bright 9 Watt   BULB") (T "a bright 9w bulb")
           (payload_of (PDict wattage_items))).
  vm_compute. reflexivity.
Defined.



Lemma process_row_annotated (json_loads : pyval -> option pyval)
      (compare : pyval -> pyval -> result text) (r r' : row) :
  process_row json_loads compare r = Ok r' -> annotated r r'.
Proof.
  unfold process_row, annotated.
  destruct (strip_lower (row_get r COL_STATUS)) as [st|]; [|discriminate].
  cbn [bind]. destruct (negb _).
  - intros H. injection H as <-. eauto.
  - destruct (match Dict.get COL_PAYLOAD r with
              | Some cell => json_loads cell | None => None end) as [p|].
    + destruct (compare (row_get r COL_MANUAL) p) as [rep|]; [|discriminate].
      cbn [bind]. intros H. injection H as <-. eauto.
    + intros H. injection H as <-. eauto.
Qed.

Lemma process_loop (json_loads : pyval -> option pyval)
      (compare : pyval -> pyval -> result text) (rows : list row) :
  forall acc out,
    for_each (process_step json_loads compare) rows acc = Ok out ->
    exists out', out = acc ++ out' /\ Forall2 annotated rows out'.
Proof.
  induction rows as [|r rows IH]; intros acc out H.
  - injection H as <-. exists []. split; [now rewrite app_nil_r|constructor].
  - cbn [for_each] in H. unfold process_step at 1 in H.
    destruct (process_row json_loads compare r) as [r'|] eqn:E;
      [|discriminate H].
    cbn [bind] in H. apply IH in H as [out' [-> F]].
    exists (r' :: out'). split; [now rewrite <- app_assoc|].
    constructor; [now apply process_row_annotated in E|exact F].
Qed.

(** X11. When [process] returns, it returns as many rows as it read, in the
    same order, each being the row read with its comparison field set and
    nothing else changed. When a required column is missing from the header
    it raises [RuntimeError], whatever the rows. *)
Theorem process_rows_annotated (json_loads : pyval -> option pyval)
        (compare : pyval -> pyval -> result text)
        (fieldnames : list text) (rows : list row) :
  (forall out,
      process json_loads compare fieldnames rows = Ok out ->
      length out = length rows
      /\ Forall2 annotated rows out
      /\ Forall2 (fun r r' =>
                    forall k, k <> COL_COMPARISON ->
                              Dict.get k r' = Dict.get k r) rows out)
  /\ (forallb (fun c => StrSet.mem c fieldnames) REQUIRED_COLUMNS = false ->
      process json_loads compare fieldnames rows = Raise RuntimeError).
Proof.
  unfold process. split.
  - intros out H. destruct (forallb _ REQUIRED_COLUMNS); [|discriminate H].
    destruct (for_each _ rows []) as [looped|] eqn:E; [|discriminate H].
    cbn [bind] in H.
    destruct (write_rows looped); [|discriminate H].
    cbn [bind] in H. injection H as <-.
    apply (@process_loop json_loads compare rows [] looped) in E
      as [out' [-> F]].
    cbn [app]. split; [symmetry; exact (Forall2_length F)|].
    split; [exact F|].
    eapply Forall2_impl; [|exact F]. intros r r' [v ->] k Hk.
    now apply dict_get_set_other.
  - intros H. now rewrite H.
Qed.

Lemma process_rows_annotated_witness :
  let rows := [success_row (T "{}") (T "A bright 10w bulb"); failed_row] in
  let out := [Dict.set COL_COMPARISON (PStr (T "report"))
                       (success_row (T "{}") (T "A bright 10w bulb"));
              Dict.set COL_COMPARISON (PStr NOT_APPLICABLE) failed_row] in
  (length out = length rows
   /\ Forall2 annotated rows out
   /\ Forall2 (fun r r' =>
                 forall k, k <> COL_COMPARISON ->
                           Dict.get k r' = Dict.get k r) rows out)
  /\ process (fun _ => Some (PDict [])) (fun _ _ => Ok (T "report"))
             [COL_PAYLOAD; COL_STATUS] rows
     = Raise RuntimeError.
Proof.
  cbv zeta.
  destruct (@process_rows_annotated (fun _ => Some (PDict []))
              (fun _ _ => Ok (T "report")) sample_header
              [success_row (T "{}") (T "A bright 10w bulb"); failed_row])
    as [H1 _].
  destruct (@process_rows_annotated (fun _ => Some (PDict []))
              (fun _ _ => Ok (T "report")) [COL_PAYLOAD; COL_STATUS]
              [success_row (T "{}") (T "A bright 10w bulb"); failed_row])
    as [_ H2].
  split; [apply H1|apply H2]; vm_compute; reflexivity.
Defined.

Lemma process_loop_raises (json_loads : pyval -> option pyval)
      (compare : pyval -> pyval -> result text)
      (before after : list row) (r : row) (e : exn) :
  forallb (fun r => match process_row json_loads compare r with
                    | Ok _ => true | Raise _ => false end) before = true ->
  process_row json_loads compare r = Raise e ->
  forall acc,
    for_each (process_step json_loads compare) (before ++ r :: after) acc
    = Raise e.
Proof.
  intros Hb Hr. induction before as [|x before IH]; intros acc.
  - cbn [app for_each]. unfold process_step at 1. now rewrite Hr.
  - cbn [forallb] in Hb. apply andb_true_iff in Hb as [Hx Hb].
    cbn [app for_each]. unfold process_step at 1.
    destruct (process_row json_loads compare x); [|discriminate Hx].
    cbn [bind]. now apply IH.
Qed.

(** X12. [process] stops at the first row on which [process_row] raises,
    such as a row whose status is not a string: the exception leaves
    [process], whatever the rows after it, and no row is returned. *)
Theorem process_aborts (json_loads : pyval -> option pyval)
        (compare : pyval -> pyval -> result text)
        (fieldnames : list text) (before after : list row) (r : row)
        (e : exn) :
  forallb (fun c => StrSet.mem c fieldnames) REQUIRED_COLUMNS = true ->
  forallb (fun r => match process_row json_loads compare r with
                    | Ok _ => true | Raise _ => false end) before = true ->
  process_row json_loads compare r = Raise e ->
  process json_loads compare fieldnames (before ++ r :: after) = Raise e
  /\ (status_of r = None ->
      process_row json_loads compare r = Raise AttributeError).
Proof.
  intros Hf Hb Hr. split.
  - unfold process. rewrite Hf.
    change (for_each _ (before ++ r :: after) [])
      with (for_each (process_step json_loads compare)
                     (before ++ r :: after) []).
    now rewrite (@process_loop_raises json_loads compare before after r e
                   Hb Hr []).
  - unfold status_of, process_row, strip_lower.
    destruct (row_get r COL_STATUS); try reflexivity. discriminate.
Qed.

Lemma process_aborts_witness :
  process (fun _ => Some (PDict [])) (fun _ _ => Ok (T "report"))
          sample_header sample_rows
  = Raise AttributeError.
Proof.
  apply (@process_aborts (fun _ => Some (PDict []))
           (fun _ _ => Ok (T "report")) sample_header
           [success_row (T "{}") (T "A bright 10w bulb"); failed_row]
           [failed_row]
           [(COL_PAYLOAD, PStr (T "{}")); (COL_MANUAL, PNone);
            (COL_STATUS, PNone)]
           AttributeError);
    vm_compute; reflexivity.
Defined.

(** ** The scanners of the manual text *)

Lemma search_from_sound (r : Re.regex) (m : text) :
  forall s prev,
    Re.search_from r prev s = Some m ->
    lang r m /\ exists pre post, s = pre ++ m ++ post.
Proof.
  induction s as [|c s IH]; intros prev H; cbn [Re.search_from] in H.
  - destruct (Re.match_at r prev []) as [x|] eqn:E; [|discriminate H].
    injection H as ->. apply match_at_sound in E as [L [s' E]].
    split; [exact L|]. now exists [], s'.
  - destruct (Re.match_at r prev (c :: s)) as [x|] eqn:E.
    + injection H as ->. apply match_at_sound in E as [L [s' E]].
      split; [exact L|]. now exists [], s'.
    + apply IH in H as [L [pre [post ->]]]. split; [exact L|].
      now exists (c :: pre), post.
Qed.

(** What [re.search] finds is in the language of the pattern and occurs in
    the text. *)
Lemma search_sound (r : Re.regex) (s m : text) :
  Re.search r s = Some m -> lang r m /\ Py.contains m s = true.
Proof.
  intros H. apply search_from_sound in H as [L [pre [post ->]]].
  split; [exact L|apply contains_infix].
Qed.

Lemma findall_contains (r : Re.regex) (s t : text) :
  In t (Re.findall r s) -> Py.contains t s = true.
Proof.
  intros H. apply findall_sound in H as [_ [pre [post ->]]].
  apply contains_infix.
Qed.

Lemma strset_add_NoDup (x : text) (s : list text) :
  NoDup s -> NoDup (StrSet.add x s).
Proof.
  intros H. unfold StrSet.add. destruct (StrSet.mem x s) eqn:E; [exact H|].
  apply NoDup_app; [exact H|repeat constructor; auto|].
  intros y Hy [<-|[]]. apply strset_mem_In in Hy. congruence.
Qed.

Lemma strset_update_NoDup (xs s : list text) :
  NoDup s -> NoDup (StrSet.update s xs).
Proof.
  unfold StrSet.update. revert s.
  induction xs as [|x xs IH]; intros s H; [exact H|].
  cbn [fold_left]. apply IH. now apply strset_add_NoDup.
Qed.

Lemma strset_update_In (y : text) (xs s : list text) :
  In y (StrSet.update s xs) <-> In y s \/ In y xs.
Proof.
  unfold StrSet.update. revert s.
  induction xs as [|x xs IH]; intros s; cbn [fold_left].
  - split; [auto|]. intros [H|[]]. exact H.
  - rewrite IH, strset_add_In. cbn [In]. intuition congruence.
Qed.

Lemma numeric_values_spec (manual : text) (ps : list Re.regex) :
  forall values,
    NoDup values ->
    (forall v, In v values -> Py.contains v manual = true) ->
    let values' :=
      fold_left (fun values pattern =>
                   StrSet.update values (Re.findall pattern manual))
                ps values in
    NoDup values'
    /\ forall v, In v values' -> Py.contains v manual = true.
Proof.
  induction ps as [|p ps IH]; intros values Hn Hc; cbn [fold_left].
  - auto.
  - apply IH; [now apply strset_update_NoDup|].
    intros v Hv. apply strset_update_In in Hv as [Hv|Hv]; auto.
    now apply findall_contains in Hv.
Qed.

Lemma lang_wordb_inv (t : text) : lang Re.WordB t -> t = [].
Proof. inversion 1; reflexivity. Qed.

Lemma dimmable_found (manual : text) :
  is_some (Re.search CompareScriptFuzzy.dimmable_pattern manual) = true ->
  Py.contains (T "dimmable") manual = true.
Proof.
  destruct (Re.search _ manual) as [m|] eqn:E; [|discriminate]. intros _.
  apply search_sound in E as [L C].
  unfold CompareScriptFuzzy.dimmable_pattern in L. cbn [Re.seqs] in L.
  apply lang_seq_inv in L as [a [b [-> [La L]]]].
  apply lang_seq_inv in L as [w [c [-> [Lw Lc]]]].
  apply lang_wordb_inv in La, Lc. subst a c.
  apply lang_lit in Lw. subst w. now rewrite app_nil_r in C.
Qed.

(** The set built by [extract_manual_values]. *)
Lemma manual_values_spec (manual_text : pyval)
        (values : list text) :
  CompareScriptFuzzy.extract_manual_values manual_text = Ok values ->
  NoDup values
  /\ forall v, In v values ->
               Py.contains v (norm_of manual_text) = true.
Proof.
  unfold CompareScriptFuzzy.extract_manual_values, norm_of.
  destruct (normalize_value_dyn manual_text) as [manual|]; [|discriminate].
  cbn [bind]. intros H. injection H as <-.
  destruct (@numeric_values_spec manual CompareScriptFuzzy.numeric_patterns
              [] (NoDup_nil _) (fun v (F : In v []) => match F with end))
    as [N0 C0].
  set (v0 := fold_left _ CompareScriptFuzzy.numeric_patterns []) in *.
  assert (N2 : NoDup (StrSet.update
                        (StrSet.update v0
                           (Re.findall CompareScriptFuzzy.cap_fittings_pattern
                                       manual))
                        (Re.findall CompareScriptFuzzy.colors_pattern manual)))
    by (apply strset_update_NoDup, strset_update_NoDup, N0).
  assert (C2 : forall v,
             In v (StrSet.update
                     (StrSet.update v0
                        (Re.findall CompareScriptFuzzy.cap_fittings_pattern
                                    manual))
                     (Re.findall CompareScriptFuzzy.colors_pattern manual)) ->
             Py.contains v manual = true).
  { intros v Hv. apply strset_update_In in Hv as [Hv|Hv];
      [|now apply findall_contains in Hv].
    apply strset_update_In in Hv as [Hv|Hv]; auto.
    now apply findall_contains in Hv. }
  destruct (is_some (Re.search CompareScriptFuzzy.dimmable_pattern manual))
    eqn:E; [|auto].
  split; [now apply strset_add_NoDup|].
  intros v Hv. apply strset_add_In in Hv as [->|Hv]; auto.
  now apply dimmable_found.
Qed.

(** X13. The values [extract_manual_values] returns are distinct and each of
    them occurs in the normalized manual text. *)
Theorem extract_manual_values_occur (manual_text : pyval)
        (values : list text) :
  CompareScriptFuzzy.extract_manual_values manual_text = Ok values ->
  NoDup values
  /\ forall v, In v values ->
               Py.contains v (norm_of manual_text) = true.
Proof. apply manual_values_spec. Qed.

Lemma extract_manual_values_occur_witness :
  let values := [T "9w"; T "2700k"; T "2 years"; T "e27"; T "dimmable"] in
  NoDup values
  /\ forall v, In v values ->
               Py.contains v (norm_of (PStr (T "Dimmable 9 W E27, 2700 K, 9w; 2 Years")))
               = true.
Proof.
  apply (@extract_manual_values_occur
           (PStr (T "Dimmable 9 W E27, 2700 K, 9w; 2 Years"))
           [T "9w"; T "2700k"; T "2 years"; T "e27"; T "dimmable"]).
  vm_compute. reflexivity.
Defined.

Lemma detected_spec (manual : text) (ps : list (text * Re.regex)) :
  let attrs :=
    flat_map (fun p : text * Re.regex =>
                match Re.search (snd p) manual with
                | Some m => [(fst p, m)]
                | None => []
                end) ps in
  (forall a v, In (a, v) attrs ->
               exists r, In (a, r) ps /\ Re.search r manual = Some v)
  /\ (NoDup (map fst ps) -> NoDup (map fst attrs))
  /\ length attrs <= length ps.
Proof.
  cbv zeta. induction ps as [|[a r] ps [IH1 [IH2 IH3]]].
  - split; [intros a v []|]. split; [auto|]. cbn. lia.
  - cbn [flat_map fst snd].
    destruct (Re.search r manual) as [m|] eqn:E; cbn [app].
    + split; [|split].
      * intros a' v [H|H].
        -- injection H as <- <-. exists r. split; [now left|exact E].
        -- destruct (IH1 a' v H) as [r' [Hin Hs]]. exists r'.
           split; [now right|exact Hs].
      * cbn [map fst]. intros N. inversion N as [|? ? Ha N']; subst.
        constructor; [|auto]. intros Hin. apply Ha.
        apply in_map_iff in Hin as [[a' v] [Ea Hin]]. cbn [fst] in Ea.
        subst a'. destruct (IH1 a v Hin) as [r' [Hin' _]].
        apply in_map_iff. now exists (a, r').
      * cbn [length]. lia.
    + split; [|split].
      * intros a' v H. destruct (IH1 a' v H) as [r' [Hin Hs]]. exists r'.
        split; [now right|exact Hs].
      * cbn [map fst]. intros N. inversion N; subst. auto.
      * cbn [length]. lia.
Qed.

Lemma patterns_NoDup : NoDup (map fst CompareScript.patterns).
Proof.
  vm_compute. repeat constructor; cbn; intuition discriminate.
Qed.

(** X14. Every attribute [extract_manual_attributes] detects is an entry of
    its pattern table, with the leftmost match of that pattern as value, a
    text that occurs in the normalized manual text; an attribute is detected
    once at most. *)
Theorem extract_manual_attributes_found (manual_text : pyval)
        (attrs : list (text * text)) :
  CompareScript.extract_manual_attributes manual_text = Ok attrs ->
  (forall a v,
      In (a, v) attrs ->
      exists r, In (a, r) CompareScript.patterns
                /\ Re.search r (norm_of manual_text) = Some v
                /\ Py.contains v (norm_of manual_text) = true)
  /\ NoDup (map fst attrs)
  /\ length attrs <= length CompareScript.patterns.
Proof.
  unfold CompareScript.extract_manual_attributes, norm_of.
  destruct (normalize_value_dyn manual_text) as [manual|]; [|discriminate].
  unfold bind. intros H.
  destruct (detected_spec manual CompareScript.patterns) as [H1 [H2 H3]].
  injection H as <-. split; [|split].
  - intros a v Hin. destruct (H1 a v Hin) as [r [Hp Hs]]. exists r.
    repeat split; auto. now apply search_sound in Hs.
  - apply H2, patterns_NoDup.
  - exact H3.
Qed.

Lemma extract_manual_attributes_found_witness :
  let manual_text := PStr (T "Brand: Acme 9 W, 10w warm white") in
  let attrs := [(T "brand", T "brand: acme 9w"); (T "wattage", T "9w")] in
  (forall a v,
      In (a, v) attrs ->
      exists r, In (a, r) CompareScript.patterns
                /\ Re.search r (norm_of manual_text) = Some v
                /\ Py.contains v (norm_of manual_text) = true)
  /\ NoDup (map fst attrs)
  /\ length attrs <= length CompareScript.patterns.
Proof.
  apply (@extract_manual_attributes_found
           (PStr (T "Brand: Acme 9 W, 10w warm white"))
           [(T "brand", T "brand: acme 9w"); (T "wattage", T "9w")]).
  vm_compute. reflexivity.
Defined.

(** ** The second loops, the two variants and the composition of the normalizer *)

Lemma leb_total (a b : text) : Py.leb a b = false -> Py.leb b a = true.
Proof.
  revert b. induction a as [|x a IH]; intros [|y b]; cbn [Py.leb];
    try discriminate; try reflexivity.
  destruct (x <? y)%N eqn:E1; [discriminate|].
  destruct (y <? x)%N eqn:E2; [reflexivity|]. apply IH.
Qed.

Lemma leb_trans (a b c : text) :
  Py.leb a b = true -> Py.leb b c = true -> Py.leb a c = true.
Proof.
  revert b c. induction a as [|x a IH]; intros [|y b] [|z c]; cbn [Py.leb];
    try discriminate; try reflexivity.
  destruct (x <? y)%N eqn:E1, (y <? x)%N eqn:E2,
    (y <? z)%N eqn:E3, (z <? y)%N eqn:E4,
    (x <? z)%N eqn:E5, (z <? x)%N eqn:E6;
    try discriminate; try reflexivity;
    rewrite ?N.ltb_lt, ?N.ltb_ge in *; try lia.
  apply IH.
Qed.

Lemma insert_sorted_perm (x : text) (l : list text) :
  Permutation (Py.insert_sorted x l) (x :: l).
Proof.
  induction l as [|y l IH]; cbn [Py.insert_sorted]; [reflexivity|].
  destruct (Py.leb x y); [reflexivity|].
  rewrite IH. apply perm_swap.
Qed.

Lemma sorted_perm (l : list text) : Permutation (Py.sorted l) l.
Proof.
  induction l as [|x l IH]; [reflexivity|].
  cbn [Py.sorted fold_right]. fold (Py.sorted l).
  rewrite insert_sorted_perm. now constructor.
Qed.

Lemma insert_sorted_sorted (x : text) (l : list text) :
  StronglySorted text_le l -> StronglySorted text_le (Py.insert_sorted x l).
Proof.
  induction 1 as [|y l Hl IH Hy]; cbn [Py.insert_sorted].
  - repeat constructor.
  - destruct (Py.leb x y) eqn:E.
    + constructor; [now constructor|]. constructor; [exact E|].
      eapply Forall_impl; [|exact Hy]. intros z Hz.
      exact (leb_trans _ _ _ E Hz).
    + constructor; [exact IH|].
      apply (@Permutation_Forall _ _ (x :: l)).
      * symmetry. apply insert_sorted_perm.
      * constructor; [now apply leb_total|exact Hy].
Qed.

(** [sorted] puts its argument in increasing order. *)
Lemma sorted_sorted (l : list text) : StronglySorted text_le (Py.sorted l).
Proof.
  induction l as [|x l IH]; [constructor|].
  cbn [Py.sorted fold_right]. now apply insert_sorted_sorted.
Qed.

Lemma filter_sorted (f : text -> bool) (l : list text) :
  StronglySorted text_le l -> StronglySorted text_le (filter f l).
Proof.
  induction 1 as [|y l Hl IH Hy]; cbn [filter]; [constructor|].
  destruct (f y); [|exact IH]. constructor; [exact IH|].
  apply Forall_forall. intros z Hz. apply filter_In in Hz as [Hz _].
  rewrite Forall_forall in Hy. auto.
Qed.

Lemma strset_diff_In (x : text) (a b : list text) :
  In x (StrSet.diff a b) <-> In x a /\ ~ In x b.
Proof.
  unfold StrSet.diff. split.
  - intros H. apply filter_In in H as [Ha Hb]. apply negb_true_iff in Hb.
    split; [exact Ha|]. intros Hin. apply strset_mem_In in Hin. congruence.
  - intros [Ha Hb]. apply filter_In. split; [exact Ha|].
    apply negb_true_iff. destruct (StrSet.mem x b) eqn:E; [|reflexivity].
    apply strset_mem_In in E. contradiction.
Qed.

Lemma fuzzy_manual_loop (partial_ratio : text -> text -> Q)
      (mv : list text) (l : list text) :
  forall acc,
    fold_left (CompareScriptFuzzy.manual_step partial_ratio mv) l acc
    = acc ++ map (fun v => entry (T "Unmatched Manual Value") v
                                 (T "Not found"))
                 (filter (fun v =>
                            negb (existsb
                                    (fun w => Qle_bool 85 (partial_ratio v w))
                                    mv)) l).
Proof.
  induction l as [|v l IH]; intros acc; cbn [fold_left filter].
  - now rewrite app_nil_r.
  - rewrite IH. unfold CompareScriptFuzzy.manual_step.
    destruct (negb _); cbn [map]; [now rewrite <- app_assoc|reflexivity].
Qed.

(** X15. In the value-set variant the second loop reports the scanned values
    that are not among the matched values and score below 85 against each of
    them, once each and in increasing order. *)
Theorem unmatched_values_reported (partial_ratio : text -> text -> Q)
        (manual_text : pyval) (values mv : list text) :
  CompareScriptFuzzy.extract_manual_values manual_text = Ok values ->
  let reported :=
    filter (fun v =>
              negb (existsb (fun w => Qle_bool 85 (partial_ratio v w)) mv))
           (Py.sorted (StrSet.diff values mv)) in
  fold_left (CompareScriptFuzzy.manual_step partial_ratio mv)
            (Py.sorted (StrSet.diff values mv)) []
  = map (fun v => entry (T "Unmatched Manual Value") v (T "Not found"))
        reported
  /\ StronglySorted text_le reported
  /\ NoDup reported
  /\ forall v,
       In v reported <->
       In v values /\ ~ In v mv
       /\ forall w, In w mv -> (partial_ratio v w < 85)%Q.
Proof.
  intros H reported. apply manual_values_spec in H as [N _].
  split; [apply fuzzy_manual_loop|]. split; [|split].
  - apply filter_sorted, sorted_sorted.
  - apply NoDup_filter.
    apply (@Permutation_NoDup _ (StrSet.diff values mv)).
    + symmetry. apply sorted_perm.
    + now apply NoDup_filter.
  - intros v. unfold reported. rewrite filter_In, negb_true_iff.
    assert (Hp : In v (Py.sorted (StrSet.diff values mv))
                 <-> In v values /\ ~ In v mv).
    { rewrite <- strset_diff_In. split; apply Permutation_in;
        [|symmetry]; apply sorted_perm. }
    rewrite Hp. split.
    + intros [[Hv Hm] Hs]. repeat split; auto. intros w Hw.
      apply Qnot_le_lt. intros Hle. apply Qle_bool_iff in Hle.
      assert (existsb (fun w => Qle_bool 85 (partial_ratio v w)) mv = true)
        by (apply existsb_exists; eauto).
      congruence.
    + intros [Hv [Hm Hs]]. split; [auto|].
      destruct (existsb _ mv) eqn:E; [|reflexivity].
      apply existsb_exists in E as [w [Hw Hle]]. apply Qle_bool_iff in Hle.
      exfalso. exact (Qlt_not_le _ _ (Hs w Hw) Hle).
Qed.

Lemma unmatched_values_reported_witness :
  let values := [T "9w"; T "2700k"; T "2 years"; T "e27"; T "dimmable"] in
  let mv := [T "e27"] in
  let reported :=
    filter (fun v =>
              negb (existsb (fun w => Qle_bool 85 (no_similarity v w)) mv))
           (Py.sorted (StrSet.diff values mv)) in
  fold_left (CompareScriptFuzzy.manual_step no_similarity mv)
            (Py.sorted (StrSet.diff values mv)) []
  = map (fun v => entry (T "Unmatched Manual Value") v (T "Not found"))
        reported
  /\ StronglySorted text_le reported
  /\ NoDup reported
  /\ forall v,
       In v reported <->
       In v values /\ ~ In v mv
       /\ forall w, In w mv -> (no_similarity v w < 85)%Q.
Proof.
  apply (@unmatched_values_reported no_similarity
           (PStr (T "Dimmable 9 W E27, 2700 K, 9w; 2 Years"))
           [T "9w"; T "2700k"; T "2 years"; T "e27"; T "dimmable"]
           [T "e27"]).
  vm_compute. reflexivity.
Defined.

Lemma named_manual_loop (keys : list text) (attrs : list (text * text)) :
  forall acc,
    fold_left (CompareScript.manual_step keys) attrs acc
    = acc ++ map (fun av => entry (Py.title (fst av)) (snd av)
                                  (T "Not found"))
                 (filter (fun av =>
                            negb (existsb
                                    (fun k => Py.contains (fst av) (Py.lower k))
                                    keys)) attrs).
Proof.
  induction attrs as [|[a v] attrs IH]; intros acc; cbn [fold_left filter].
  - now rewrite app_nil_r.
  - rewrite IH. unfold CompareScript.manual_step. cbn [fst snd].
    destruct (negb _); cbn [map fst snd];
      [now rewrite <- app_assoc|reflexivity].
Qed.

(** X16. In the named-attribute variant the second loop reports, in the
    order of the pattern table, the detected attributes whose name occurs in
    no key of the specification, the keys being compared in lower case; with
    an empty specification every detected attribute is reported, and an
    attribute whose name occurs in a key is not. *)
Theorem missing_from_workflow (keys : list text)
        (attrs : list (text * text)) :
  let reported :=
    filter (fun av =>
              negb (existsb (fun k => Py.contains (fst av) (Py.lower k)) keys))
           attrs in
  fold_left (CompareScript.manual_step keys) attrs []
  = map (fun av => entry (Py.title (fst av)) (snd av) (T "Not found"))
        reported
  /\ (keys = [] -> reported = attrs)
  /\ (forall a v,
         In (a, v) reported <->
         In (a, v) attrs
         /\ forall k, In k keys -> Py.contains a (Py.lower k) = false).
Proof.
  intros reported. split; [apply named_manual_loop|]. split.
  - intros ->. unfold reported. cbn [existsb negb].
    induction attrs as [|x attrs IH]; [reflexivity|]. cbn [filter].
    now rewrite IH.
  - intros a v. unfold reported. rewrite filter_In, negb_true_iff.
    cbn [fst]. split.
    + intros [Hin He]. split; [exact Hin|]. intros k Hk.
      destruct (Py.contains a (Py.lower k)) eqn:E; [|reflexivity].
      assert (existsb (fun k => Py.contains a (Py.lower k)) keys = true)
        by (apply existsb_exists; eauto).
      congruence.
    + intros [Hin Hk]. split; [exact Hin|].
      destruct (existsb _ keys) eqn:E; [|reflexivity].
      apply existsb_exists in E as [k [Hin' Hc]]. rewrite (Hk k Hin') in Hc.
      discriminate Hc.
Qed.

Lemma missing_from_workflow_witness :
  fold_left (CompareScript.manual_step [T "Wattage (W)"])
            [(T "brand", T "brand: acme"); (T "wattage", T "9w")] []
  = map (fun av => entry (Py.title (fst av)) (snd av) (T "Not found"))
        (filter (fun av =>
                   negb (existsb (fun k => Py.contains (fst av) (Py.lower k))
                                 [T "Wattage (W)"]))
                [(T "brand", T "brand: acme"); (T "wattage", T "9w")]).
Proof.
  exact (proj1 (@missing_from_workflow [T "Wattage (W)"]
                  [(T "brand", T "brand: acme"); (T "wattage", T "9w")])).
Defined.



Lemma collect_ext (f g : text * pyval -> collections)
      (items : list (text * pyval)) :
  (forall item, In item items -> f item = g item) ->
  collect f items = collect g items.
Proof.
  intros H. unfold collect. generalize (Collections [] [] []) as acc.
  induction items as [|x items IH]; intros acc; [reflexivity|].
  cbn [fold_left]. rewrite (H x) by now left.
  apply IH. intros item Hin. apply H. now right.
Qed.

(** X17. On a specification without ignored attributes the two scripts
    classify the workflow attributes alike: the same matched and mismatched
    collections, and missing collections that start with the same entries
    and differ by what each script's scan of the manual text adds. *)
Theorem variants_agree (partial_ratio : text -> text -> Q)
        (manual_text payload : pyval) (manual : text)
        (items : list (text * pyval)) :
  normalize manual_text = Ok manual ->
  py_items (extract_specification payload) = Ok items ->
  forallb (fun item => normalizable (snd item)) items = true ->
  forallb (fun item => negb (ignored item)) items = true ->
  exists c1 c2 matched_values workflow_missing scan1 scan2,
    CompareScript.classify partial_ratio manual_text payload = Ok c1
    /\ CompareScriptFuzzy.classify partial_ratio manual_text payload
       = Ok (c2, matched_values)
    /\ matched c1 = matched c2
    /\ mismatched c1 = mismatched c2
    /\ missing c1 = workflow_missing ++ scan1
    /\ missing c2 = workflow_missing ++ scan2
    /\ length (matched c1) + length (mismatched c1) + length workflow_missing
       = length (filter (fun item => nonempty (norm_of (snd item))) items).
Proof.
  intros Hm Hi Hn Hg.
  assert (Hm' : normalize_value_dyn manual_text = Ok manual) by exact Hm.
  unfold CompareScript.classify, CompareScriptFuzzy.classify,
    CompareScript.extract_manual_attributes,
    CompareScriptFuzzy.extract_manual_values.
  rewrite Hm, Hi, Hm'. cbn [bind].
  rewrite (named_loop partial_ratio manual items Hn),
    (fuzzy_loop partial_ratio manual items Hn). cbn [bind].
  rewrite !cat_nil_l.
  assert (E : collect (fun item =>
                         contribution
                           (outcome_fuzzy partial_ratio manual (fst item)
                                          (norm_of (snd item))) item) items
              = collect (fun item =>
                           contribution
                             (outcome_of partial_ratio manual
                                         (norm_of (snd item))) item) items).
  { apply collect_ext. intros item Hin. unfold outcome_fuzzy.
    rewrite forallb_forall in Hg. specialize (Hg item Hin).
    unfold ignored in Hg. apply negb_true_iff in Hg. now rewrite Hg. }
  rewrite E.
  set (c := collect _ items).
  do 6 eexists.
  split; [reflexivity|]. split; [reflexivity|].
  cbn [matched mismatched missing].
  split; [reflexivity|]. split; [reflexivity|].
  split; [apply fold_left_app_init; intros acc x; apply named_manual_step|].
  split; [apply fold_left_app_init; intros acc x; apply fuzzy_manual_step|].
  unfold c. rewrite collect_flat_map. cbn [matched mismatched missing].
  clear. induction items as [|item items IH]; [reflexivity|].
  cbn [flat_map filter]. rewrite !length_app.
  pose proof (outcome_of_size partial_ratio manual item) as S.
  unfold size in S.
  destruct (nonempty (norm_of (snd item))); cbn [length]; lia.
Qed.

Lemma variants_agree_witness :
  exists c1 c2 matched_values workflow_missing scan1 scan2,
    CompareScript.classify no_similarity (PStr bulb_manual)
      (payload_of (PDict wattage_items)) = Ok c1
    /\ CompareScriptFuzzy.classify no_similarity (PStr bulb_manual)
         (payload_of (PDict wattage_items))
       = Ok (c2, matched_values)
    /\ matched c1 = matched c2
    /\ mismatched c1 = mismatched c2
    /\ missing c1 = workflow_missing ++ scan1
    /\ missing c2 = workflow_missing ++ scan2
    /\ length (matched c1) + length (mismatched c1) + length workflow_missing
       = length (filter (fun item => nonempty (norm_of (snd item)))
                        wattage_items).
Proof.
  apply (@variants_agree no_similarity (PStr bulb_manual)
           (payload_of (PDict wattage_items)) (normalize_value bulb_manual)
           wattage_items);
    vm_compute; reflexivity.
Defined.

Lemma blank_neutral (s : text) :
  blank s -> Forall (fun c => neutral c = true) s.
Proof.
  unfold blank. intros H. apply Forall_forall. intros c Hc.
  rewrite forallb_forall in H. apply space_char. auto.
Qed.

Lemma blank_notupper (s : text) : blank s -> Forall notupper s.
Proof.
  intros H. eapply Forall_impl; [|exact (blank_neutral H)].
  intros c Hc. apply neutral_spec in Hc. apply Hc.
Qed.

(** Neutral characters at the far end do not change what the rule of the
    final sigma finds. *)
Lemma first_not_ignorable_neutral (x y : text) :
  Forall (fun c => neutral c = true) y ->
  match Py.first_not_ignorable (x ++ y) with
  | Some c => Py.cased c
  | None => false
  end
  = match Py.first_not_ignorable x with
    | Some c => Py.cased c
    | None => false
    end.
Proof.
  intros Hy. induction x as [|c x IH]; cbn [app Py.first_not_ignorable].
  - destruct Hy as [|c y Hc _]; [reflexivity|].
    apply neutral_spec in Hc as [_ [Hc Hi]].
    cbn [Py.first_not_ignorable]. now rewrite Hi.
  - destruct (Py.case_ignorable c); [exact IH|reflexivity].
Qed.

Lemma final_sigma_before (before pre after : text) :
  Forall (fun c => neutral c = true) pre ->
  Py.final_sigma (before ++ pre) after = Py.final_sigma before after.
Proof.
  intros H. unfold Py.final_sigma.
  now rewrite (first_not_ignorable_neutral before H).
Qed.

Lemma final_sigma_after (before after post : text) :
  Forall (fun c => neutral c = true) post ->
  Py.final_sigma before (after ++ post) = Py.final_sigma before after.
Proof.
  intros H. unfold Py.final_sigma. f_equal.
  induction after as [|c x IH]; cbn [app Py.first_not_ignorable].
  - destruct H as [|c y Hc _]; [reflexivity|].
    apply neutral_spec in Hc as [_ [Hc Hi]].
    cbn [Py.first_not_ignorable]. now rewrite Hi, Hc.
  - destruct (Py.case_ignorable c); [exact IH|reflexivity].
Qed.

Lemma lower_from_before (s : text) :
  forall before pre,
    Forall (fun c => neutral c = true) pre ->
    Py.lower_from (before ++ pre) s = Py.lower_from before s.
Proof.
  induction s as [|c s IH]; intros before pre H; [reflexivity|].
  cbn [Py.lower_from]. rewrite (final_sigma_before before s H).
  f_equal. exact (IH (c :: before) pre H).
Qed.

Lemma lower_from_post (s : text) :
  forall before post,
    blank post ->
    Py.lower_from before (s ++ post) = Py.lower_from before s ++ post.
Proof.
  induction s as [|c s IH]; intros before post H.
  - cbn [app Py.lower_from]. apply lower_from_id, blank_notupper, H.
  - cbn [app Py.lower_from].
    rewrite (final_sigma_after before s (blank_neutral H)), IH by exact H.
    now rewrite app_assoc.
Qed.

Lemma lower_from_pre (pre : text) :
  forall before s,
    Forall notupper pre ->
    Py.lower_from before (pre ++ s)
    = pre ++ Py.lower_from (rev pre ++ before) s.
Proof.
  induction pre as [|c pre IH]; intros before s H; [reflexivity|].
  inversion H as [|? ? Hc Hp]; subst.
  cbn [app Py.lower_from rev].
  rewrite (changes_sigma _ Hc), (lower_full_id _ Hc), IH by exact Hp.
  cbn [app]. now rewrite <- app_assoc.
Qed.

(** White space around a text stays where it is and does not change the
    lower case of the text. *)
Lemma lower_wrap (a m b : text) :
  blank a -> blank b ->
  Py.lower (a ++ m ++ b) = a ++ Py.lower m ++ b.
Proof.
  intros Ha Hb. unfold Py.lower.
  rewrite lower_from_pre by (apply blank_notupper, Ha).
  rewrite app_nil_r, lower_from_post by exact Hb. f_equal. f_equal.
  apply (@lower_from_before m [] (rev a)).
  apply Forall_rev, blank_neutral, Ha.
Qed.

Lemma lstrip_blank (a s : text) :
  blank a -> Py.lstrip (a ++ s) = Py.lstrip s.
Proof.
  unfold blank. induction a as [|c a IH]; intros H; [reflexivity|].
  cbn [forallb] in H. apply andb_true_iff in H as [Hc H].
  cbn [app Py.lstrip]. rewrite Hc. auto.
Qed.

Lemma lstrip_decomp (s : text) :
  exists a, s = a ++ Py.lstrip s /\ blank a.
Proof.
  induction s as [|c s [a [E H]]]; [exists []; split; reflexivity|].
  cbn [Py.lstrip]. destruct (Py.isspace c) eqn:Ec.
  - exists (c :: a). split; [cbn [app]; congruence|].
    unfold blank. cbn [forallb]. now rewrite Ec.
  - exists []. split; reflexivity.
Qed.

Lemma blank_rev (s : text) : blank s -> blank (rev s).
Proof. unfold blank. now rewrite forallb_rev. Qed.

Lemma strip_decomp (s : text) :
  exists a b, s = a ++ Py.strip s ++ b /\ blank a /\ blank b.
Proof.
  destruct (lstrip_decomp s) as [a [Ea Ha]].
  destruct (lstrip_decomp (rev (Py.lstrip s))) as [b [Eb Hb]].
  exists a, (rev b). split; [|split; [exact Ha|now apply blank_rev]].
  unfold Py.strip, Py.rstrip. rewrite <- rev_app_distr, <- Eb, rev_involutive.
  exact Ea.
Qed.

(** Trimming removes the white space around a text that has none at its
    ends. *)
Lemma strip_wrap (a x b : text) :
  blank a -> blank b ->
  starts_ok x = true -> ends_ok false x = true ->
  Py.strip (a ++ x ++ b) = x.
Proof.
  intros Ha Hb Hs He. unfold Py.strip, Py.rstrip.
  rewrite lstrip_blank by exact Ha.
  destruct x as [|c x].
  - cbn [app]. destruct (lstrip_decomp b) as [a' [E H]].
    assert (L : Py.lstrip b = []).
    { apply lstrip_nil. exact Hb. }
    rewrite L. reflexivity.
  - assert (L : Py.lstrip ((c :: x) ++ b) = (c :: x) ++ b)
      by (apply lstrip_id; exact Hs).
    rewrite L, rev_app_distr, lstrip_blank by (apply blank_rev, Hb).
    rewrite lstrip_id by (apply ends_ok_rev, He).
    apply rev_involutive.
Qed.

Lemma lower_head_starts_ok (c : char) (before after rest : text) :
  Py.isspace c = false ->
  starts_ok ((if (c =? Py.SIGMA)%N
              then [if Py.final_sigma before after
                    then Py.FINAL_SIGMA else Py.SMALL_SIGMA]
              else Py.lower_full c) ++ rest) = true.
Proof.
  intros Hc. destruct (c =? Py.SIGMA)%N.
  - destruct (Py.final_sigma before after); reflexivity.
  - pose proof (lower_full_nonempty c) as Hne.
    destruct (Py.lower_full c) as [|x l] eqn:L; [congruence|].
    assert (Hx : In x (Py.lower_full c)) by (rewrite L; now left).
    apply lower_full_spec in Hx as [_ Hx]. cbn [app starts_ok].
    now rewrite (Hx Hc).
Qed.

Lemma starts_ok_lower (s : text) :
  starts_ok s = true -> starts_ok (Py.lower s) = true.
Proof.
  destruct s as [|c s]; [reflexivity|]. cbn [starts_ok]. intros H.
  apply negb_true_iff in H. unfold Py.lower. cbn [Py.lower_from].
  now apply lower_head_starts_ok.
Qed.

Lemma lower_from_app (s1 : text) :
  forall before s2,
    exists x, Py.lower_from before (s1 ++ s2)
              = x ++ Py.lower_from (rev s1 ++ before) s2.
Proof.
  induction s1 as [|c s1 IH]; intros before s2; [now exists []|].
  cbn [app Py.lower_from rev].
  destruct (IH (c :: before) s2) as [x Hx]. rewrite Hx.
  rewrite <- (app_assoc (rev s1) [c] before). cbn [app].
  eexists. apply app_assoc.
Qed.

Lemma ends_ok_lower (s : text) :
  ends_ok false s = true -> ends_ok false (Py.lower s) = true.
Proof.
  destruct s as [|c s] using rev_ind; [reflexivity|].
  rewrite ends_ok_last. intros H. apply negb_true_iff in H.
  unfold Py.lower. destruct (lower_from_app s [] [c]) as [x ->].
  cbn [Py.lower_from]. rewrite app_nil_r.
  set (out := if (c =? Py.SIGMA)%N then _ else _).
  assert (Ho : exists o z, out = o ++ [z] /\ Py.isspace z = false).
  { subst out. destruct (c =? Py.SIGMA)%N.
    - exists []. eexists. split; [reflexivity|].
      destruct (Py.final_sigma _ _); reflexivity.
    - pose proof (lower_full_nonempty c) as Hne.
      destruct (Py.lower_full c) as [|y l] eqn:L using rev_ind; [congruence|].
      exists l, y. split; [reflexivity|].
      assert (Hy : In y (Py.lower_full c))
        by (rewrite L; apply in_or_app; right; now left).
      apply lower_full_spec in Hy as [_ Hy]. auto. }
  destruct Ho as [o [z [-> Hz]]].
  rewrite app_assoc, ends_ok_last. now rewrite Hz.
Qed.

(** Trimming and lower-casing can be done in either order. *)
Lemma strip_lower_comm (s : text) :
  Py.strip (Py.lower s) = Py.lower (Py.strip s).
Proof.
  destruct (strip_decomp s) as [a [b [E [Ha Hb]]]].
  rewrite E at 1. rewrite (lower_wrap _ Ha Hb).
  apply strip_wrap; auto.
  - apply starts_ok_lower, strip_starts_ok.
  - apply ends_ok_lower, strip_ends_ok.
Qed.

Lemma strip_idem (s : text) : Py.strip (Py.strip s) = Py.strip s.
Proof. apply strip_id; [apply strip_starts_ok|apply strip_ends_ok]. Qed.

(** X18. Putting a string in lower case or trimming it before it is
    normalized changes nothing, nor does doing both. *)
Theorem normalize_value_lower_strip (s : text) :
  normalize_value (Py.lower s) = normalize_value s
  /\ normalize_value (Py.strip s) = normalize_value s
  /\ normalize_value (Py.strip (Py.lower s)) = normalize_value s.
Proof.
  assert (L : Py.lower (Py.lower s) = Py.lower s)
    by apply lower_id, lower_notupper.
  assert (K2 : Py.strip (Py.lower (Py.strip s)) = Py.strip (Py.lower s))
    by now rewrite (strip_lower_comm (Py.strip s)), strip_idem,
         strip_lower_comm.
  assert (K3 : Py.strip (Py.lower (Py.strip (Py.lower s)))
               = Py.strip (Py.lower s))
    by now rewrite (strip_lower_comm (Py.strip (Py.lower s))), strip_idem,
         <- strip_lower_comm, L.
  unfold normalize_value. repeat split.
  - now rewrite L.
  - now rewrite K2.
  - now rewrite K3.
Qed.
